(** * Car hire backend: bookings, payments, invoices, vehicles, logout

    A shallow embedding of the model methods and admin bulk actions of the
    Django backend, with the properties the specification states about
    them.

    Conventions of the embedding:
    - a [CharField] is a [string], compared with [String.eqb] as Python's
      [==] does; a nullable field is an [option];
    - a [DecimalField] with two decimal places is an integer number of
      hundredths (cents) in [Z]: sums, differences, products with an integer
      and comparisons of such decimals are exact;
    - a [DateTimeField] is an instant, the number of microseconds since the
      epoch, in [Z]; [datetime.now()] and [timezone.now()] are an argument
      [now] of the operation that reads the clock;
    - a queryset is the list of its rows; [filter(...).update(...)] rewrites
      the rows that pass the filter and returns how many there were;
    - strings are strings of 7-bit characters, ordered character by
      character as the database orders them;
    - a call that may raise returns an [option], a sum with the error, or
      runs in the small exception monad of the logout view. *)

From Stdlib Require Import ZArith List Bool Lia String Ascii DecimalString.
Import ListNotations.

#[local] Open Scope string_scope.
#[local] Open Scope Z_scope.

(** ** Querysets *)

Module QuerySet.

(** [queryset.filter(p).update(f)]: every row that passes [p] is rewritten
    by [f], the others are left alone; the result of [update] is the
    number of rows matched. *)
Definition filter_update {Row : Type} (p : Row -> bool) (f : Row -> Row)
           (qs : list Row) : list Row * nat :=
  (map (fun r => if p r then f r else r) qs, List.length (filter p qs)).

End QuerySet.

(** Python's [x in [a, b, ...]] on strings. *)
Definition str_in (s : string) (l : list string) : bool :=
  existsb (String.eqb s) l.

(** ** datetime differences *)

Module Datetime.
Definition us_per_second : Z := 1000000.
Definition seconds_per_day : Z := 86400.
Definition us_per_day : Z := seconds_per_day * us_per_second.

(** Python's [timedelta], normalised as the constructor does it:
    [0 <= seconds < 86400] and [0 <= microseconds < 1000000], the sign
    carried by [days] alone. *)
Record timedelta := mk_timedelta
  { days : Z; seconds : Z; microseconds : Z }.

Definition normalize (us : Z) : timedelta :=
  let s := us / us_per_second in
  {| days := s / seconds_per_day;
     seconds := s mod seconds_per_day;
     microseconds := us mod us_per_second |}.

(** [a - b] on two datetimes. *)
Definition sub (a b : Z) : timedelta := normalize (a - b).
End Datetime.

(** ** bookings/models.py and bookings/admin.py *)

Module Bookings.

Record Booking := mk_Booking
  { booking_reference : string;
    pickup_date : Z;
    return_date : Z;
    actual_pickup_date : option Z;
    actual_return_date : option Z;
    status : string;
    payment_status : string;
    daily_rate : Z;
    total_days : Z;
    subtotal : Z;
    tax_amount : Z;
    discount_amount : Z;
    additional_fees : Z;
    security_deposit : Z;
    total_amount : Z;
    insurance_cost : Z;
    confirmed_at : option Z;
    cancelled_at : option Z;
    cancellation_reason : option string }.

(** [update(status=s)] on one row. *)
Definition set_status (s : string) (b : Booking) : Booking :=
  {| booking_reference := booking_reference b;
     pickup_date := pickup_date b;
     return_date := return_date b;
     actual_pickup_date := actual_pickup_date b;
     actual_return_date := actual_return_date b;
     status := s;
     payment_status := payment_status b;
     daily_rate := daily_rate b;
     total_days := total_days b;
     subtotal := subtotal b;
     tax_amount := tax_amount b;
     discount_amount := discount_amount b;
     additional_fees := additional_fees b;
     security_deposit := security_deposit b;
     total_amount := total_amount b;
     insurance_cost := insurance_cost b;
     confirmed_at := confirmed_at b;
     cancelled_at := cancelled_at b;
     cancellation_reason := cancellation_reason b |}.

(** [update(cancelled_at=t)] on one row. *)
Definition set_cancelled_at (t : Z) (b : Booking) : Booking :=
  {| booking_reference := booking_reference b;
     pickup_date := pickup_date b;
     return_date := return_date b;
     actual_pickup_date := actual_pickup_date b;
     actual_return_date := actual_return_date b;
     status := status b;
     payment_status := payment_status b;
     daily_rate := daily_rate b;
     total_days := total_days b;
     subtotal := subtotal b;
     tax_amount := tax_amount b;
     discount_amount := discount_amount b;
     additional_fees := additional_fees b;
     security_deposit := security_deposit b;
     total_amount := total_amount b;
     insurance_cost := insurance_cost b;
     confirmed_at := confirmed_at b;
     cancelled_at := Some t;
     cancellation_reason := cancellation_reason b |}.

Definition set_booking_reference (r : string) (b : Booking) : Booking :=
  {| booking_reference := r;
     pickup_date := pickup_date b;
     return_date := return_date b;
     actual_pickup_date := actual_pickup_date b;
     actual_return_date := actual_return_date b;
     status := status b;
     payment_status := payment_status b;
     daily_rate := daily_rate b;
     total_days := total_days b;
     subtotal := subtotal b;
     tax_amount := tax_amount b;
     discount_amount := discount_amount b;
     additional_fees := additional_fees b;
     security_deposit := security_deposit b;
     total_amount := total_amount b;
     insurance_cost := insurance_cost b;
     confirmed_at := confirmed_at b;
     cancelled_at := cancelled_at b;
     cancellation_reason := cancellation_reason b |}.

(** *** Booking methods *)

(** [generate_booking_reference]: [stamp] is
    [datetime.now().strftime('%y%m%d')] and [suffix] the four digits drawn
    by [random.choices]. *)
Definition generate_booking_reference (stamp suffix : string) : string :=
  "BK" ++ stamp ++ suffix.

(** [Booking.save]: only an empty reference is generated; every other
    field is stored as it is. *)
Definition save (stamp suffix : string) (b : Booking) : Booking :=
  if String.eqb (booking_reference b) ""
  then set_booking_reference (generate_booking_reference stamp suffix) b
  else b.

(** [calculate_total_days], [is_overdue] and [can_be_cancelled]; [now]
    is [datetime.now()]. *)
Definition calculate_total_days (b : Booking) : Z :=
  let delta := Datetime.sub (return_date b) (pickup_date b) in
  Z.max 1 (Datetime.days delta).

Definition is_overdue (now : Z) (b : Booking) : bool :=
  if String.eqb (status b) "active" && (return_date b <? now)
  then true else false.

Definition can_be_cancelled (now : Z) (b : Booking) : bool :=
  str_in (status b) ["pending"; "confirmed"] && (now <? pickup_date b).

(** *** BookingAdmin bulk actions *)

(** [confirm_bookings], [start_rentals], [complete_rentals] and
    [cancel_bookings]; [now] is [timezone.now()]. *)
Definition confirm_bookings (qs : list Booking) : list Booking * nat :=
  QuerySet.filter_update (fun b => String.eqb (status b) "pending")
                         (set_status "confirmed") qs.

Definition start_rentals (qs : list Booking) : list Booking * nat :=
  QuerySet.filter_update (fun b => String.eqb (status b) "confirmed")
                         (set_status "active") qs.

Definition complete_rentals (qs : list Booking) : list Booking * nat :=
  QuerySet.filter_update (fun b => String.eqb (status b) "active")
                         (set_status "completed") qs.

Definition cancel_bookings (now : Z) (qs : list Booking)
  : list Booking * nat :=
  QuerySet.filter_update
    (fun b => str_in (status b) ["pending"; "confirmed"])
    (fun b => set_cancelled_at now (set_status "cancelled" b)) qs.

(** The four status transitions the admin offers. *)
Inductive transition := Confirm | Start | Complete | Cancel.

Definition run (t : transition) (now : Z) (qs : list Booking)
  : list Booking * nat :=
  match t with
  | Confirm => confirm_bookings qs
  | Start => start_rentals qs
  | Complete => complete_rentals qs
  | Cancel => cancel_bookings now qs
  end.

(** The filter each action applies before its update. *)
Definition guard (t : transition) (b : Booking) : bool :=
  match t with
  | Confirm => String.eqb (status b) "pending"
  | Start => String.eqb (status b) "confirmed"
  | Complete => String.eqb (status b) "active"
  | Cancel => str_in (status b) ["pending"; "confirmed"]
  end.

Definition effect (t : transition) (now : Z) (b : Booking) : Booking :=
  match t with
  | Confirm => set_status "confirmed" b
  | Start => set_status "active" b
  | Complete => set_status "completed" b
  | Cancel => set_cancelled_at now (set_status "cancelled" b)
  end.

(** The terminal states of a booking. *)
Definition terminal (s : string) : Prop :=
  s = "completed" \/ s = "cancelled" \/ s = "no_show".

(** *** add-ons *)

Record BookingAddOn := mk_BookingAddOn
  { name : string;
    addon_type : string;
    pricing_type : string;
    price : Z;
    is_active : bool }.

Record BookingAddOnAssignment := mk_Assignment
  { booking : Booking;
    addon : BookingAddOn;
    quantity : Z;
    unit_price : Z;
    total_price : Z }.

(** [BookingAddOnAssignment.save]. *)
Definition save_assignment (a : BookingAddOnAssignment)
  : BookingAddOnAssignment :=
  {| booking := booking a;
     addon := addon a;
     quantity := quantity a;
     unit_price := unit_price a;
     total_price := unit_price a * quantity a |}.

End Bookings.

(** ** payment/models.py and payment/admin.py: payments *)

Module Payment.

Record Payment := mk_Payment
  { transaction_id : string;
    payment_type : string;
    amount : Z;
    currency : string;
    status : string;
    payment_date : option Z;
    refund_amount : Z;
    refund_date : option Z;
    refund_reason : option string }.

Definition set_status (s : string) (p : Payment) : Payment :=
  {| transaction_id := transaction_id p;
     payment_type := payment_type p;
     amount := amount p;
     currency := currency p;
     status := s;
     payment_date := payment_date p;
     refund_amount := refund_amount p;
     refund_date := refund_date p;
     refund_reason := refund_reason p |}.

Definition set_payment_date (t : Z) (p : Payment) : Payment :=
  {| transaction_id := transaction_id p;
     payment_type := payment_type p;
     amount := amount p;
     currency := currency p;
     status := status p;
     payment_date := Some t;
     refund_amount := refund_amount p;
     refund_date := refund_date p;
     refund_reason := refund_reason p |}.

(** [Payment.is_refundable]. *)
Definition is_refundable (p : Payment) : bool :=
  String.eqb (status p) "completed" && (refund_amount p <? amount p).

(** *** PaymentAdmin bulk actions *)

(** [process_payments], [refund_payments] and [mark_failed]. *)
Definition process_payments (now : Z) (qs : list Payment)
  : list Payment * nat :=
  QuerySet.filter_update (fun p => String.eqb (status p) "pending")
    (fun p => set_payment_date now (set_status "processing" p)) qs.

Definition refund_payments (qs : list Payment) : list Payment * nat :=
  QuerySet.filter_update (fun p => String.eqb (status p) "completed")
                         (set_status "refunded") qs.

Definition mark_failed (qs : list Payment) : list Payment * nat :=
  QuerySet.filter_update
    (fun p => str_in (status p) ["pending"; "processing"])
    (set_status "failed") qs.

(** The refund guard and outcome in the words of the specification: a
    refund of [r] is accepted on a completed payment when
    [refund_amount + r <= amount], and leaves the payment [refunded] when
    the sum reaches [amount], [partially_refunded] otherwise. Kept apart
    from the code's [refund_payments], to compare the two. *)
Definition spec_refund_valid (r : Z) (p : Payment) : bool :=
  String.eqb (status p) "completed" && (refund_amount p + r <=? amount p).

Definition spec_refund_status (r : Z) (p : Payment) : string :=
  if refund_amount p + r =? amount p
  then "refunded" else "partially_refunded".

End Payment.

(** ** Python string helpers used by the invoice numbering *)

Module Py.

(** [s[-n:]]: the last [n] characters, the whole string when it is
    shorter. *)
Definition suffix (n : nat) (s : string) : string :=
  substring (String.length s - n) n s.

(** The characters [str.isspace] accepts below 128: tab to carriage
    return, the four separators 28 to 31, and the blank. *)
Definition is_space (c : ascii) : bool :=
  let n := nat_of_ascii c in
  (Nat.leb 9 n && Nat.leb n 13) || (Nat.leb 28 n && Nat.leb n 32).

Fixpoint lstrip (cs : list ascii) : list ascii :=
  match cs with
  | c :: cs' => if is_space c then lstrip cs' else cs
  | [] => []
  end.

Definition strip (cs : list ascii) : list ascii :=
  rev (lstrip (rev (lstrip cs))).

Definition digit_value (c : ascii) : option Z :=
  let n := nat_of_ascii c in
  if Nat.leb 48 n && Nat.leb n 57 then Some (Z.of_nat (n - 48)) else None.

(** Decimal digits, with single underscores allowed between two digits;
    [prev] tells whether the character before was a digit. *)
Fixpoint digits (acc : Z) (prev : bool) (cs : list ascii) : option Z :=
  match cs with
  | [] => if prev then Some acc else None
  | c :: cs' =>
      match digit_value c with
      | Some d => digits (10 * acc + d) true cs'
      | None =>
          if Ascii.eqb c "_" && prev then digits acc false cs' else None
      end
  end.

(** [int(s)] on a string of 7-bit characters: blanks stripped on both
    sides, an optional sign, then the digits. [None] is [ValueError]. *)
Definition int (s : string) : option Z :=
  match strip (list_ascii_of_string s) with
  | "+"%char :: cs => digits 0 false cs
  | "-"%char :: cs => option_map Z.opp (digits 0 false cs)
  | cs => digits 0 false cs
  end.

(** Decimal numeral of a natural number, most significant digit first. *)
Definition numeral (n : N) : string :=
  NilEmpty.string_of_uint (N.to_uint n).

(** [f"{z}"] on an integer. *)
Definition format_d (z : Z) : string :=
  (if z <? 0 then "-" else "") ++ numeral (Z.abs_N z).

Fixpoint zeros (k : nat) : string :=
  match k with
  | O => ""
  | S k' => String "0" (zeros k')
  end.

(** [f"{z:04d}"]: the sign, then zeros up to a total width of four, then
    the digits; numerals wider than the field are not cut. *)
Definition format_04d (z : Z) : string :=
  let sign := if z <? 0 then "-" else "" in
  let body := numeral (Z.abs_N z) in
  sign ++ zeros (4 - String.length sign - String.length body) ++ body.

End Py.

(** ** payment/models.py: invoices *)

Module Invoice.

Record Invoice := mk_Invoice
  { invoice_number : string;
    due_date : Z;
    status : string;
    subtotal : Z;
    tax_amount : Z;
    discount_amount : Z;
    total_amount : Z;
    paid_amount : Z }.

Definition set_invoice_number (n : string) (i : Invoice) : Invoice :=
  {| invoice_number := n;
     due_date := due_date i;
     status := status i;
     subtotal := subtotal i;
     tax_amount := tax_amount i;
     discount_amount := discount_amount i;
     total_amount := total_amount i;
     paid_amount := paid_amount i |}.

(** [order_by('-invoice_number').first()]: the row with the greatest
    number in the order of strings, [None] on an empty queryset. *)
Fixpoint first_desc (qs : list Invoice) : option Invoice :=
  match qs with
  | [] => None
  | i :: qs' =>
      match first_desc qs' with
      | None => Some i
      | Some j =>
          if String.ltb (invoice_number i) (invoice_number j)
          then Some j else Some i
      end
  end.

(** [generate_invoice_number]: [year] is [datetime.now().year] and
    [objects] the invoice table. [None] is the [ValueError] of [int]. *)
Definition generate_invoice_number (year : Z) (objects : list Invoice)
  : option string :=
  let prefix := "INV" in
  let last_invoice :=
    first_desc
      (filter (fun i => String.prefix (prefix ++ Py.format_d year)
                                      (invoice_number i)) objects) in
  match last_invoice with
  | Some last =>
      match Py.int (Py.suffix 4 (invoice_number last)) with
      | Some last_number =>
          let next_number := last_number + 1 in
          Some (prefix ++ Py.format_d year ++ Py.format_04d next_number)
      | None => None
      end
  | None =>
      let next_number := 1 in
      Some (prefix ++ Py.format_d year ++ Py.format_04d next_number)
  end.

Inductive error := ValueError | IntegrityError.

(** [Invoice.save] of a new invoice: an empty number is generated, then
    the row is inserted, which the unique constraint on [invoice_number]
    refuses when the number is taken. *)
Definition save (year : Z) (objects : list Invoice) (i : Invoice)
  : error + list Invoice :=
  let numbered :=
    if String.eqb (invoice_number i) ""
    then option_map (fun n => set_invoice_number n i)
                    (generate_invoice_number year objects)
    else Some i in
  match numbered with
  | None => inl ValueError
  | Some i' =>
      if existsb (fun j => String.eqb (invoice_number j) (invoice_number i'))
                 objects
      then inl IntegrityError
      else inr (objects ++ [i'])%list
  end.

(** Serialized creation: the drafts are saved one after the other, each
    save seeing the rows of the ones before. *)
Fixpoint save_all (year : Z) (objects : list Invoice) (drafts : list Invoice)
  : error + list Invoice :=
  match drafts with
  | [] => inr objects
  | d :: ds =>
      match save year objects d with
      | inl e => inl e
      | inr objects' => save_all year objects' ds
      end
  end.

(** [is_overdue], dates counted in days; [today] is
    [datetime.now().date()]. *)
Definition is_overdue (today : Z) (i : Invoice) : bool :=
  (due_date i <? today) && negb (str_in (status i) ["paid"; "cancelled"]).

Definition get_balance_due (i : Invoice) : Z :=
  total_amount i - paid_amount i.

End Invoice.

(** ** vehicles/models.py *)

Module Vehicles.

Record Vehicle := mk_Vehicle
  { license_plate : string;
    status : string;
    condition : string;
    daily_rate : Z;
    is_featured : bool;
    is_active : bool }.

(** [Vehicle.is_available_for_booking]. *)
Definition is_available_for_booking (v : Vehicle) : bool :=
  String.eqb (status v) "available" && is_active v.

End Vehicles.

(** ** authentication/views.py: LogoutView *)

Module Authentication.

Record UserSession := mk_UserSession
  { user : string;
    session_key : string;
    is_active : bool }.

Definition set_is_active (a : bool) (s : UserSession) : UserSession :=
  {| user := user s; session_key := session_key s; is_active := a |}.

(** A value read from the request body. *)
Inductive pyval :=
| PNone
| PBool (b : bool)
| PInt (z : Z)
| PStr (s : string)
| PContainer (empty : bool).

(** The test of [if value:]. *)
Definition truthy (v : pyval) : bool :=
  match v with
  | PNone => false
  | PBool b => b
  | PInt z => negb (z =? 0)
  | PStr s => negb (String.eqb s "")
  | PContainer empty => negb empty
  end.

(** An exception instance deriving from [Exception], by its class name. *)
Record exn := mk_exn { class_name : string }.

(** What the handler works on: the session table and the blacklist of
    refresh tokens. *)
Record World := mk_World
  { sessions : list UserSession;
    blacklisted : list pyval }.

(** A computation returns a value or raises; either way it leaves a
    world behind, since nothing here runs in a transaction. *)
Inductive outcome (A : Type) :=
| Returned (a : A) (w : World)
| Raised (e : exn) (w : World).
Arguments Returned {A} a w.
Arguments Raised {A} e w.

Definition M (A : Type) : Type := World -> outcome A.

Definition ret {A} (a : A) : M A := fun w => Returned a w.
Definition raise {A} (e : exn) : M A := fun w => Raised e w.
Definition bind {A B} (c : M A) (k : A -> M B) : M B :=
  fun w => match c w with
           | Returned a w' => k a w'
           | Raised e w' => Raised e w'
           end.
(** [try: body except Exception: handler]. *)
Definition try_except {A} (body : M A) (handler : exn -> M A) : M A :=
  fun w => match body w with
           | Returned a w' => Returned a w'
           | Raised e w' => handler e w'
           end.

Notation "x <- c ;; k" := (bind c (fun x => k))
  (at level 61, c at next level, right associativity).

(** The behaviour of the collaborators, which the view does not control:
    whether the session update fails in the database, whether
    [RefreshToken(value)] rejects the value, whether [token.blacklist()]
    fails. *)
Record Env := mk_Env
  { session_update_error : option exn;
    token_error : pyval -> option exn;
    blacklist_error : pyval -> option exn }.

Record Request := mk_Request
  { request_user : string;
    (** [request.data]: the parsed body, or the exception its parsing or
        its [get] raises *)
    request_data : exn + list (string * pyval) }.

Record Response := mk_Response
  { data : list (string * string);
    status_code : Z }.

Definition HTTP_200_OK : Z := 200.
Definition HTTP_400_BAD_REQUEST : Z := 400.

(** [UserSession.objects.filter(user=u, is_active=True)
    .update(is_active=False)]. *)
Definition deactivate_sessions (env : Env) (u : string) : M nat :=
  fun w =>
    match session_update_error env with
    | Some e => Raised e w
    | None =>
        let (rows, updated) :=
          QuerySet.filter_update
            (fun s => String.eqb (user s) u && is_active s)
            (set_is_active false) (sessions w) in
        Returned updated {| sessions := rows; blacklisted := blacklisted w |}
    end.

Fixpoint dict_get (key : string) (d : list (string * pyval)) : pyval :=
  match d with
  | [] => PNone
  | (k, v) :: d' => if String.eqb k key then v else dict_get key d'
  end.

(** [request.data.get(key)]. *)
Definition data_get (request : Request) (key : string) : M pyval :=
  match request_data request with
  | inl e => raise e
  | inr d => ret (dict_get key d)
  end.

(** [RefreshToken(value)]. *)
Definition RefreshToken (env : Env) (v : pyval) : M pyval :=
  match token_error env v with
  | Some e => raise e
  | None => ret v
  end.

(** [token.blacklist()]. *)
Definition blacklist (env : Env) (token : pyval) : M unit :=
  fun w =>
    match blacklist_error env token with
    | Some e => Raised e w
    | None =>
        Returned tt {| sessions := sessions w;
                       blacklisted := token :: blacklisted w |}
    end.

(** The two statements of the inner [try]. *)
Definition blacklist_refresh_token (env : Env) (refresh_token : pyval)
  : M unit :=
  token <- RefreshToken env refresh_token ;;
  blacklist env token.

Definition logout_successful : Response :=
  {| data := [("message", "Logout successful")];
     status_code := HTTP_200_OK |}.

Definition logout_failed : Response :=
  {| data := [("error", "Logout failed")];
     status_code := HTTP_400_BAD_REQUEST |}.

(** [LogoutView.post]. *)
Definition post (env : Env) (request : Request) : M Response :=
  try_except
    (_ <- deactivate_sessions env (request_user request) ;;
     refresh_token <- data_get request "refresh_token" ;;
     _ <- (if truthy refresh_token
           then try_except (blacklist_refresh_token env refresh_token)
                           (fun _ => ret tt)
           else ret tt) ;;
     ret logout_successful)
    (fun _ => ret logout_failed).

Definition response_of (o : outcome Response) : option Response :=
  match o with
  | Returned r _ => Some r
  | Raised _ _ => None
  end.

End Authentication.

(** ** bookings/admin.py: the duration column *)

Module BookingAdmin.

(** [days_count]: the number of days the column shows; the markup
    around the number is left out. Both dates are set on every row, so
    the branch that shows a dash is not taken. *)
Definition days_count (obj : Bookings.Booking) : Z :=
  Datetime.days
    (Datetime.sub (Bookings.return_date obj) (Bookings.pickup_date obj))
  + 1.

End BookingAdmin.

(** ** payment/models.py: saving a payment *)

Module PaymentSave.

Definition set_transaction_id (t : string) (p : Payment.Payment)
  : Payment.Payment :=
  {| Payment.transaction_id := t;
     Payment.payment_type := Payment.payment_type p;
     Payment.amount := Payment.amount p;
     Payment.currency := Payment.currency p;
     Payment.status := Payment.status p;
     Payment.payment_date := Payment.payment_date p;
     Payment.refund_amount := Payment.refund_amount p;
     Payment.refund_date := Payment.refund_date p;
     Payment.refund_reason := Payment.refund_reason p |}.

(** [generate_transaction_id]: [stamp] is
    [datetime.now().strftime('%y%m%d%H%M')] and [suffix] the four digits
    drawn by [random.choices]. *)
Definition generate_transaction_id (stamp suffix : string) : string :=
  "TXN" ++ stamp ++ suffix.

(** [Payment.save] of a new payment on the table [objects]: an empty
    id is generated, then the row is inserted, which the unique
    constraint on [transaction_id] refuses when the id is taken.
    [None] is the [IntegrityError]. *)
Definition save (stamp suffix : string) (objects : list Payment.Payment)
           (p : Payment.Payment) : option (list Payment.Payment) :=
  let p' := if String.eqb (Payment.transaction_id p) ""
            then set_transaction_id (generate_transaction_id stamp suffix) p
            else p in
  if existsb (fun q => String.eqb (Payment.transaction_id q)
                                  (Payment.transaction_id p')) objects
  then None
  else Some (objects ++ [p'])%list.

End PaymentSave.

(** ** payment/admin.py: invoices *)

Module InvoiceAdmin.

Definition set_status (s : string) (i : Invoice.Invoice) : Invoice.Invoice :=
  {| Invoice.invoice_number := Invoice.invoice_number i;
     Invoice.due_date := Invoice.due_date i;
     Invoice.status := s;
     Invoice.subtotal := Invoice.subtotal i;
     Invoice.tax_amount := Invoice.tax_amount i;
     Invoice.discount_amount := Invoice.discount_amount i;
     Invoice.total_amount := Invoice.total_amount i;
     Invoice.paid_amount := Invoice.paid_amount i |}.

(** [mark_paid]: [queryset.update(status='paid')], on every row. *)
Definition mark_paid (qs : list Invoice.Invoice)
  : list Invoice.Invoice * nat :=
  QuerySet.filter_update (fun _ => true) (set_status "paid") qs.

(** [mark_overdue]: [today] is [timezone.now().date()]. *)
Definition mark_overdue (today : Z) (qs : list Invoice.Invoice)
  : list Invoice.Invoice * nat :=
  QuerySet.filter_update
    (fun i => (Invoice.due_date i <? today)
              && negb (String.eqb (Invoice.status i) "paid"))
    (set_status "overdue") qs.

(** What the status column shows. *)
Inductive badge :=
| DaysOverdue (days_overdue : Z)
| Current.

(** [overdue_status]; the due date is set on every row. *)
Definition overdue_status (today : Z) (obj : Invoice.Invoice) : badge :=
  if negb (String.eqb (Invoice.status obj) "paid")
  then if Invoice.due_date obj <? today
       then DaysOverdue (today - Invoice.due_date obj)
       else Current
  else Current.

End InvoiceAdmin.

(** ** payment/models.py: receipts *)

Module Receipt.

Record Receipt := mk_Receipt
  { receipt_number : string;
    (** the payment the receipt is for, by its transaction id *)
    payment : string;
    amount : Z;
    currency : string;
    payment_method_used : string }.

Definition set_receipt_number (n : string) (r : Receipt) : Receipt :=
  {| receipt_number := n;
     payment := payment r;
     amount := amount r;
     currency := currency r;
     payment_method_used := payment_method_used r |}.

(** [generate_receipt_number]: [stamp] is
    [datetime.now().strftime('%y%m%d')] and [objects] the receipt
    table. *)
Definition generate_receipt_number (stamp : string) (objects : list Receipt)
  : string :=
  let prefix := "RCP" in
  let today_receipts :=
    List.length
      (filter (fun r => String.prefix (prefix ++ stamp) (receipt_number r))
              objects) in
  let next_number := Z.of_nat today_receipts + 1 in
  prefix ++ stamp ++ Py.format_04d next_number.

(** [Receipt.save] of a new receipt: an empty number is generated, then
    the row is inserted, which is refused when the number is taken or
    when the payment already has a receipt (the one-to-one field).
    [None] is the [IntegrityError]. *)
Definition save (stamp : string) (objects : list Receipt) (r : Receipt)
  : option (list Receipt) :=
  let r' := if String.eqb (receipt_number r) ""
            then set_receipt_number (generate_receipt_number stamp objects) r
            else r in
  if existsb (fun q => String.eqb (receipt_number q) (receipt_number r'))
             objects
     || existsb (fun q => String.eqb (payment q) (payment r')) objects
  then None
  else Some (objects ++ [r'])%list.

(** Serialized creation of receipts. *)
Fixpoint save_all (stamp : string) (objects : list Receipt)
         (drafts : list Receipt) : option (list Receipt) :=
  match drafts with
  | [] => Some objects
  | d :: ds =>
      match save stamp objects d with
      | None => None
      | Some objects' => save_all stamp objects' ds
      end
  end.

(** Deleting the receipt with number [n]. *)
Definition delete (n : string) (objects : list Receipt) : list Receipt :=
  filter (fun r => negb (String.eqb (receipt_number r) n)) objects.

End Receipt.

(** ** Decimals of several scales *)

Module Dec.

(** A [Decimal]: the integer [coefficient] with [places] digits after the
    point. *)
Record t := mk { coefficient : Z; places : nat }.

(** A two-place amount held in cents. *)
Definition of_cents (c : Z) : t := {| coefficient := c; places := 2 |}.

(** The product, exact: the coefficients multiply and the scales add. *)
Definition mul (a b : t) : t :=
  {| coefficient := coefficient a * coefficient b;
     places := places a + places b |}.

(** [a < b] and [a == b] on the values. *)
Definition ltb (a b : t) : bool :=
  coefficient a * 10 ^ Z.of_nat (places b)
  <? coefficient b * 10 ^ Z.of_nat (places a).

Definition eqb (a b : t) : bool :=
  coefficient a * 10 ^ Z.of_nat (places b)
  =? coefficient b * 10 ^ Z.of_nat (places a).

(** The test of [if value:]: a decimal is true when it is not zero. *)
Definition truthy (a : t) : bool := negb (coefficient a =? 0).

End Dec.

(** ** vehicles/models.py: quoted rates; vehicles/admin.py *)

Module VehicleRates.

(** The pricing fields of a vehicle, amounts in cents. *)
Record Pricing := mk_Pricing
  { daily_rate : Z;
    weekly_rate : option Z;
    monthly_rate : option Z }.

(** [Vehicle.calculate_weekly_rate]. *)
Definition calculate_weekly_rate (v : Pricing) : Dec.t :=
  match weekly_rate v with
  | Some w =>
      if Dec.truthy (Dec.of_cents w) then Dec.of_cents w
      else Dec.mul (Dec.of_cents (daily_rate v))
                   {| Dec.coefficient := 65; Dec.places := 1 |}
  | None => Dec.mul (Dec.of_cents (daily_rate v))
                    {| Dec.coefficient := 65; Dec.places := 1 |}
  end.

(** [Vehicle.calculate_monthly_rate]. *)
Definition calculate_monthly_rate (v : Pricing) : Dec.t :=
  match monthly_rate v with
  | Some m =>
      if Dec.truthy (Dec.of_cents m) then Dec.of_cents m
      else Dec.mul (Dec.of_cents (daily_rate v))
                   {| Dec.coefficient := 25; Dec.places := 0 |}
  | None => Dec.mul (Dec.of_cents (daily_rate v))
                    {| Dec.coefficient := 25; Dec.places := 0 |}
  end.

End VehicleRates.

Module VehicleAdmin.

Definition set_status (s : string) (v : Vehicles.Vehicle)
  : Vehicles.Vehicle :=
  {| Vehicles.license_plate := Vehicles.license_plate v;
     Vehicles.status := s;
     Vehicles.condition := Vehicles.condition v;
     Vehicles.daily_rate := Vehicles.daily_rate v;
     Vehicles.is_featured := Vehicles.is_featured v;
     Vehicles.is_active := Vehicles.is_active v |}.

Definition set_is_featured (f : bool) (v : Vehicles.Vehicle)
  : Vehicles.Vehicle :=
  {| Vehicles.license_plate := Vehicles.license_plate v;
     Vehicles.status := Vehicles.status v;
     Vehicles.condition := Vehicles.condition v;
     Vehicles.daily_rate := Vehicles.daily_rate v;
     Vehicles.is_featured := f;
     Vehicles.is_active := Vehicles.is_active v |}.

(** [mark_available], [mark_maintenance], [feature_vehicles] and
    [unfeature_vehicles]: each updates every selected row. *)
Definition mark_available (qs : list Vehicles.Vehicle)
  : list Vehicles.Vehicle * nat :=
  QuerySet.filter_update (fun _ => true) (set_status "available") qs.

Definition mark_maintenance (qs : list Vehicles.Vehicle)
  : list Vehicles.Vehicle * nat :=
  QuerySet.filter_update (fun _ => true) (set_status "maintenance") qs.

Definition feature_vehicles (qs : list Vehicles.Vehicle)
  : list Vehicles.Vehicle * nat :=
  QuerySet.filter_update (fun _ => true) (set_is_featured true) qs.

Definition unfeature_vehicles (qs : list Vehicles.Vehicle)
  : list Vehicles.Vehicle * nat :=
  QuerySet.filter_update (fun _ => true) (set_is_featured false) qs.

End VehicleAdmin.

(** ** vehicles/models.py and vehicles/admin.py: safety equipment *)

Module SafetyEquipment.

(** Dates are day numbers. *)
Record Equipment := mk_Equipment
  { equipment_type : string;
    status : string;
    expiry_date : option Z;
    last_inspection_date : option Z;
    next_inspection_due : option Z }.

(** What the attention column shows. *)
Inductive attention := Yes | Expired | InspectionDue | OK.

(** [needs_attention]: [today] is [timezone.now().date()]. *)
Definition needs_attention (today : Z) (obj : Equipment) : attention :=
  if str_in (status obj) ["missing"; "damaged"; "expired"] then Yes
  else if match expiry_date obj with
          | Some d => d <=? today
          | None => false
          end then Expired
  else if match next_inspection_due obj with
          | Some d => d <=? today
          | None => false
          end then InspectionDue
  else OK.

(** [mark_inspected]: every selected row is stamped with today, due
    again in 90 days, and set present. *)
Definition mark_inspected (today : Z) (qs : list Equipment)
  : list Equipment * nat :=
  let next_inspection := today + 90 in
  QuerySet.filter_update
    (fun _ => true)
    (fun e => {| equipment_type := equipment_type e;
                 status := "present";
                 expiry_date := expiry_date e;
                 last_inspection_date := Some today;
                 next_inspection_due := Some next_inspection |})
    qs.

Definition set_status (s : string) (e : Equipment) : Equipment :=
  {| equipment_type := equipment_type e;
     status := s;
     expiry_date := expiry_date e;
     last_inspection_date := last_inspection_date e;
     next_inspection_due := next_inspection_due e |}.

Definition mark_missing (qs : list Equipment) : list Equipment * nat :=
  QuerySet.filter_update (fun _ => true) (set_status "missing") qs.

Definition mark_present (qs : list Equipment) : list Equipment * nat :=
  QuerySet.filter_update (fun _ => true) (set_status "present") qs.

End SafetyEquipment.

(** ** core/models.py and core/admin.py: issue reports *)

Module IssueReport.

Record Issue := mk_Issue
  { ticket_number : string;
    priority : string;
    status : string;
    is_verified : bool }.

Definition set_priority (p : string) (i : Issue) : Issue :=
  {| ticket_number := ticket_number i;
     priority := p;
     status := status i;
     is_verified := is_verified i |}.

(** The choices of the [priority] field. *)
Definition PRIORITY_LEVELS : list string :=
  ["low"; "medium"; "high"; "urgent"].

(** The dictionary of [escalate_priority]. *)
Definition priority_map : list (string * string) :=
  [("low", "medium"); ("medium", "high"); ("high", "critical")].

Fixpoint lookup (key : string) (d : list (string * string))
  : option string :=
  match d with
  | [] => None
  | (k, v) :: d' => if String.eqb k key then Some v else lookup key d'
  end.

(** [escalate_priority]: the loop over the queryset, with its counter. *)
Fixpoint escalate_priority (qs : list Issue) : list Issue * nat :=
  match qs with
  | [] => ([], 0%nat)
  | issue :: rest =>
      let (rest', updated) := escalate_priority rest in
      match lookup (priority issue) priority_map with
      | Some p => (set_priority p issue :: rest', S updated)
      | None => (issue :: rest', updated)
      end
  end.

End IssueReport.

(** ** More Python string helpers *)

Module PyStr.

(** [sep.join(parts)]. *)
Fixpoint join (sep : string) (parts : list string) : string :=
  match parts with
  | [] => ""
  | [p] => p
  | p :: rest => p ++ sep ++ join sep rest
  end.

(** [s.split(sep)] for a separator of one character: never empty. *)
Fixpoint split (sep : ascii) (s : string) : list string :=
  match s with
  | "" => [""]
  | String c s' =>
      if Ascii.eqb c sep then "" :: split sep s'
      else match split sep s' with
           | first :: others => String c first :: others
           | [] => [String c ""]
           end
  end.





(** The test of [if value:] on a string that may be [None]. *)
Definition truthy (v : option string) : bool :=
  match v with
  | Some s => negb (String.eqb s "")
  | None => false
  end.

(** [[part for part in parts if part]]. *)
Fixpoint keep_truthy (parts : list (option string)) : list string :=
  match parts with
  | [] => []
  | part :: rest =>
      if truthy part
      then match part with
           | Some s => s :: keep_truthy rest
           | None => keep_truthy rest
           end
      else keep_truthy rest
  end.

End PyStr.

(** ** authentication: users, availability checks, validators *)

Module Accounts.

Record CustomUser := mk_CustomUser
  { username : string;
    email : string;
    first_name : string;
    last_name : string;
    address_line_1 : option string;
    address_line_2 : option string;
    city : option string;
    state_province : option string;
    postal_code : option string;
    country : option string;
    is_active : bool;
    is_verified : bool;
    is_suspended : bool }.

(** [CustomUser.get_full_address]. *)
Definition get_full_address (u : CustomUser) : string :=
  let address_parts :=
    [address_line_1 u; address_line_2 u; city u;
     state_province u; postal_code u; country u] in
  PyStr.join ", " (PyStr.keep_truthy address_parts).

(** A response with a JSON body. *)
Record Response := mk_Response
  { data : list (string * Authentication.pyval);
    status_code : Z }.

(** [check_username_availability]: [users] is the user table and
    [param] the value of [request.GET.get('username')]. *)
Definition check_username_availability
           (users : list CustomUser) (param : option string) : Response :=
  match param with
  | Some name =>
      if String.eqb name ""
      then {| data := [("error",
                        Authentication.PStr
                          "Username parameter is required")];
              status_code := Authentication.HTTP_400_BAD_REQUEST |}
      else
        let is_available :=
          negb (existsb (fun u => String.eqb (username u) name) users) in
        {| data := [("username", Authentication.PStr name);
                    ("is_available", Authentication.PBool is_available)];
           status_code := Authentication.HTTP_200_OK |}
  | None =>
      {| data := [("error",
                   Authentication.PStr "Username parameter is required")];
         status_code := Authentication.HTTP_400_BAD_REQUEST |}
  end.

(** [check_email_availability]. *)
Definition check_email_availability
           (users : list CustomUser) (param : option string) : Response :=
  match param with
  | Some addr =>
      if String.eqb addr ""
      then {| data := [("error",
                        Authentication.PStr "Email parameter is required")];
              status_code := Authentication.HTTP_400_BAD_REQUEST |}
      else
        let is_available :=
          negb (existsb (fun u => String.eqb (email u) addr) users) in
        {| data := [("email", Authentication.PStr addr);
                    ("is_available", Authentication.PBool is_available)];
           status_code := Authentication.HTTP_200_OK |}
  | None =>
      {| data := [("error",
                   Authentication.PStr "Email parameter is required")];
         status_code := Authentication.HTTP_400_BAD_REQUEST |}
  end.

(** [UserRegistrationSerializer.validate_username] and
    [validate_email]: the value, or the message of the
    [ValidationError]. *)
Definition validate_username (users : list CustomUser) (value : string)
  : string + string :=
  if existsb (fun u => String.eqb (username u) value) users
  then inl "Username already taken"
  else inr value.

Definition validate_email (users : list CustomUser) (value : string)
  : string + string :=
  if existsb (fun u => String.eqb (email u) value) users
  then inl "Email already registered"
  else inr value.


(** [get_client_ip]: [x_forwarded_for] and [remote_addr] are the two
    entries of [request.META], [None] when absent. *)
Definition get_client_ip (x_forwarded_for remote_addr : option string)
  : option string :=
  match x_forwarded_for with
  | Some h => if PyStr.truthy x_forwarded_for
              then Some (hd "" (PyStr.split "," h))
              else remote_addr
  | None => remote_addr
  end.

End Accounts.

(** ** Sample rows *)

Module Samples.

(** A three-day booking at 100.00 a day, priced by the caller, awaiting
    confirmation; the clock of the samples reads [now_sample] and the
    pickup is still ahead. *)
Definition day : Z := Datetime.us_per_day.
Definition now_sample : Z := 20000 * day.

Definition pending_booking : Bookings.Booking :=
  {| Bookings.booking_reference := "BK2410010042";
     Bookings.pickup_date := 20010 * day;
     Bookings.return_date := 20013 * day;
     Bookings.actual_pickup_date := None;
     Bookings.actual_return_date := None;
     Bookings.status := "pending";
     Bookings.payment_status := "pending";
     Bookings.daily_rate := 10000;
     Bookings.total_days := 3;
     Bookings.subtotal := 30000;
     Bookings.tax_amount := 0;
     Bookings.discount_amount := 0;
     Bookings.additional_fees := 0;
     Bookings.security_deposit := 0;
     Bookings.total_amount := 30000;
     Bookings.insurance_cost := 0;
     Bookings.confirmed_at := None;
     Bookings.cancelled_at := None;
     Bookings.cancellation_reason := None |}.

Definition completed_booking : Bookings.Booking :=
  Bookings.set_status "completed" pending_booking.

(** The same booking with the pickup ten days behind the clock. *)
Definition stale_booking : Bookings.Booking :=
  {| Bookings.booking_reference := "BK2409110007";
     Bookings.pickup_date := 19990 * day;
     Bookings.return_date := 19993 * day;
     Bookings.actual_pickup_date := None;
     Bookings.actual_return_date := None;
     Bookings.status := "pending";
     Bookings.payment_status := "pending";
     Bookings.daily_rate := 10000;
     Bookings.total_days := 3;
     Bookings.subtotal := 30000;
     Bookings.tax_amount := 0;
     Bookings.discount_amount := 0;
     Bookings.additional_fees := 0;
     Bookings.security_deposit := 0;
     Bookings.total_amount := 30000;
     Bookings.insurance_cost := 0;
     Bookings.confirmed_at := None;
     Bookings.cancelled_at := None;
     Bookings.cancellation_reason := None |}.

(** A new booking whose caller left [total_amount] at zero. *)
Definition unpriced_booking : Bookings.Booking :=
  {| Bookings.booking_reference := "";
     Bookings.pickup_date := 20010 * day;
     Bookings.return_date := 20013 * day;
     Bookings.actual_pickup_date := None;
     Bookings.actual_return_date := None;
     Bookings.status := "pending";
     Bookings.payment_status := "pending";
     Bookings.daily_rate := 10000;
     Bookings.total_days := 3;
     Bookings.subtotal := 30000;
     Bookings.tax_amount := 0;
     Bookings.discount_amount := 0;
     Bookings.additional_fees := 0;
     Bookings.security_deposit := 0;
     Bookings.total_amount := 0;
     Bookings.insurance_cost := 0;
     Bookings.confirmed_at := None;
     Bookings.cancelled_at := None;
     Bookings.cancellation_reason := None |}.

(** A same-instant rental: returned at the moment of pickup. *)
Definition instant_booking : Bookings.Booking :=
  {| Bookings.booking_reference := "BK2410010043";
     Bookings.pickup_date := 20010 * day;
     Bookings.return_date := 20010 * day;
     Bookings.actual_pickup_date := None;
     Bookings.actual_return_date := None;
     Bookings.status := "pending";
     Bookings.payment_status := "pending";
     Bookings.daily_rate := 10000;
     Bookings.total_days := 1;
     Bookings.subtotal := 10000;
     Bookings.tax_amount := 0;
     Bookings.discount_amount := 0;
     Bookings.additional_fees := 0;
     Bookings.security_deposit := 0;
     Bookings.total_amount := 10000;
     Bookings.insurance_cost := 0;
     Bookings.confirmed_at := None;
     Bookings.cancelled_at := None;
     Bookings.cancellation_reason := None |}.

(** An add-on priced as a percentage of the rental: 10 percent. *)
Definition premium_cover : Bookings.BookingAddOn :=
  {| Bookings.name := "Premium cover";
     Bookings.addon_type := "other";
     Bookings.pricing_type := "percentage";
     Bookings.price := 1000;
     Bookings.is_active := true |}.

(** A per-day add-on at 50.00. *)
Definition gps : Bookings.BookingAddOn :=
  {| Bookings.name := "GPS";
     Bookings.addon_type := "gps";
     Bookings.pricing_type := "per_day";
     Bookings.price := 5000;
     Bookings.is_active := true |}.

(** The percentage add-on on the 300.00 booking, as the admin inline
    submits it: unit price 10.00, quantity 1. *)
Definition cover_on_pending : Bookings.BookingAddOnAssignment :=
  {| Bookings.booking := pending_booking;
     Bookings.addon := premium_cover;
     Bookings.quantity := 1;
     Bookings.unit_price := 1000;
     Bookings.total_price := 0 |}.

(** The same add-on on the 100.00 one-day booking. *)
Definition cover_on_instant : Bookings.BookingAddOnAssignment :=
  {| Bookings.booking := instant_booking;
     Bookings.addon := premium_cover;
     Bookings.quantity := 1;
     Bookings.unit_price := 1000;
     Bookings.total_price := 0 |}.

Definition gps_twice : Bookings.BookingAddOnAssignment :=
  {| Bookings.booking := pending_booking;
     Bookings.addon := gps;
     Bookings.quantity := 2;
     Bookings.unit_price := 5000;
     Bookings.total_price := 0 |}.

(** A completed payment of 100.00 with nothing refunded yet. *)
Definition settled_payment : Payment.Payment :=
  {| Payment.transaction_id := "TXN24100112000042";
     Payment.payment_type := "booking_payment";
     Payment.amount := 10000;
     Payment.currency := "ZAR";
     Payment.status := "completed";
     Payment.payment_date := Some now_sample;
     Payment.refund_amount := 0;
     Payment.refund_date := None;
     Payment.refund_reason := None |}.

Definition available_inactive : Vehicles.Vehicle :=
  {| Vehicles.license_plate := "CA 123-456";
     Vehicles.status := "available";
     Vehicles.condition := "good";
     Vehicles.daily_rate := 45000;
     Vehicles.is_featured := false;
     Vehicles.is_active := false |}.

(** A logged-in user with one live session, a request carrying a refresh
    token, and collaborators among which the blacklist table is missing:
    [blacklist()] raises. *)
Definition live_world : Authentication.World :=
  {| Authentication.sessions :=
       [ {| Authentication.user := "thandi";
            Authentication.session_key := "k1";
            Authentication.is_active := true |} ];
     Authentication.blacklisted := [] |}.

Definition signed_out_world : Authentication.World :=
  {| Authentication.sessions :=
       [ {| Authentication.user := "thandi";
            Authentication.session_key := "k1";
            Authentication.is_active := false |} ];
     Authentication.blacklisted := [] |}.

Definition logout_request : Authentication.Request :=
  {| Authentication.request_user := "thandi";
     Authentication.request_data :=
       inr [("refresh_token", Authentication.PStr "eyJ0eXAiOiJKV1Qi")] |}.

Definition no_blacklist_table : Authentication.exn :=
  {| Authentication.class_name := "OperationalError" |}.

Definition failing_blacklist : Authentication.Env :=
  {| Authentication.session_update_error := None;
     Authentication.token_error := fun _ => None;
     Authentication.blacklist_error := fun _ => Some no_blacklist_table |}.

(** Day 20000 is today for the dated samples. An invoice sent and due
    ten days ago with half of it paid, and the same invoice cancelled. *)
Definition today_sample : Z := 20000.

Definition late_invoice : Invoice.Invoice :=
  {| Invoice.invoice_number := "INV20240007";
     Invoice.due_date := 19990;
     Invoice.status := "sent";
     Invoice.subtotal := 30000;
     Invoice.tax_amount := 4500;
     Invoice.discount_amount := 0;
     Invoice.total_amount := 34500;
     Invoice.paid_amount := 17250 |}.

Definition cancelled_invoice : Invoice.Invoice :=
  {| Invoice.invoice_number := "INV20240008";
     Invoice.due_date := 19990;
     Invoice.status := "cancelled";
     Invoice.subtotal := 30000;
     Invoice.tax_amount := 4500;
     Invoice.discount_amount := 0;
     Invoice.total_amount := 34500;
     Invoice.paid_amount := 0 |}.

(** Receipts not yet numbered, for two payments. *)
Definition receipt_a : Receipt.Receipt :=
  {| Receipt.receipt_number := "";
     Receipt.payment := "TXN24100112000042";
     Receipt.amount := 10000;
     Receipt.currency := "ZAR";
     Receipt.payment_method_used := "Cash" |}.

Definition receipt_b : Receipt.Receipt :=
  {| Receipt.receipt_number := "";
     Receipt.payment := "TXN24100112010043";
     Receipt.amount := 25000;
     Receipt.currency := "ZAR";
     Receipt.payment_method_used := "Credit Card" |}.

Definition receipt_c : Receipt.Receipt :=
  {| Receipt.receipt_number := "";
     Receipt.payment := "TXN24100112020044";
     Receipt.amount := 5000;
     Receipt.currency := "ZAR";
     Receipt.payment_method_used := "Cash" |}.

(** A fire extinguisher reported missing, never inspected. *)
Definition extinguisher : SafetyEquipment.Equipment :=
  {| SafetyEquipment.equipment_type := "fire_extinguisher";
     SafetyEquipment.status := "missing";
     SafetyEquipment.expiry_date := Some 20400;
     SafetyEquipment.last_inspection_date := None;
     SafetyEquipment.next_inspection_due := None |}.

(** A rented, active vehicle. *)
Definition rented_vehicle : Vehicles.Vehicle :=
  {| Vehicles.license_plate := "BT 4521";
     Vehicles.status := "rented";
     Vehicles.condition := "good";
     Vehicles.daily_rate := 45000;
     Vehicles.is_featured := false;
     Vehicles.is_active := true |}.

(** A vehicle at 100.01 a day whose weekly rate was entered as 0.00. *)
Definition zero_weekly : VehicleRates.Pricing :=
  {| VehicleRates.daily_rate := 10001;
     VehicleRates.weekly_rate := Some 0;
     VehicleRates.monthly_rate := None |}.

Definition low_issue : IssueReport.Issue :=
  {| IssueReport.ticket_number := "T-1";
     IssueReport.priority := "low";
     IssueReport.status := "open";
     IssueReport.is_verified := false |}.

Definition thandi : Accounts.CustomUser :=
  {| Accounts.username := "thandi";
     Accounts.email := "thandi@example.org";
     Accounts.first_name := "Thandi";
     Accounts.last_name := "Banda";
     Accounts.address_line_1 := Some "12 Kamuzu Road";
     Accounts.address_line_2 := None;
     Accounts.city := Some "Lilongwe";
     Accounts.state_province := Some "";
     Accounts.postal_code := None;
     Accounts.country := Some "Malawi";
     Accounts.is_active := true;
     Accounts.is_verified := false;
     Accounts.is_suspended := false |}.

End Samples.

(** ** Vocabulary of the statements *)

(** Each action moves the rows it selects to one fixed status. *)
Definition target (t : Bookings.transition) : string :=
  match t with
  | Bookings.Confirm => "confirmed"
  | Bookings.Start => "active"
  | Bookings.Complete => "completed"
  | Bookings.Cancel => "cancelled"
  end.

(** The statuses from which a booking may be cancelled. *)
Definition cancellable_status (b : Bookings.Booking) : Prop :=
  Bookings.status b = "pending" \/ Bookings.status b = "confirmed".

(** The pricing equations in the words of the specification. *)
Definition spec_subtotal (b : Bookings.Booking) : Z :=
  Bookings.daily_rate b * Bookings.total_days b.

Definition spec_total_amount (b : Bookings.Booking) : Z :=
  Bookings.subtotal b + Bookings.tax_amount b + Bookings.additional_fees b
  + Bookings.insurance_cost b - Bookings.discount_amount b.

(** The pricing fields of a row, in the order of the model. *)
Definition pricing (b : Bookings.Booking) : list Z :=
  [Bookings.daily_rate b; Bookings.total_days b; Bookings.subtotal b;
   Bookings.tax_amount b; Bookings.discount_amount b;
   Bookings.additional_fees b; Bookings.security_deposit b;
   Bookings.total_amount b; Bookings.insurance_cost b].

(** The invariant of a payment row. *)
Definition refund_within_amount (p : Payment.Payment) : Prop :=
  Payment.refund_amount p <= Payment.amount p.

(** What one counter value has to satisfy: it prints on four characters
    and [int] reads the print back. *)
Definition counter_ok (k : Z) : bool :=
  Nat.eqb (String.length (Py.format_04d k)) 4
  && match Py.int (Py.format_04d k) with
     | Some k' => k' =? k
     | None => false
     end.

(** Consecutive counters print in increasing order of strings. *)
Definition counter_step_ok (k : Z) : bool :=
  String.ltb (Py.format_04d k) (Py.format_04d (k + 1)).

(** The integers [k], [k + 1], ..., [len] of them. *)
Fixpoint count_up (len : nat) (k : Z) : list Z :=
  match len with
  | O => []
  | S len' => k :: count_up len' (k + 1)
  end.

(** The counters [0], ..., [n - 1]. *)
Definition counters (n : Z) : list Z := count_up (Z.to_nat n) 0.

(** The part of an invoice number before the counter. *)
Definition year_prefix (year : Z) : string := "INV" ++ Py.format_d year.

(** The number with counter [k] in the numbering of [year]. *)
Definition number_of (year k : Z) : string :=
  year_prefix year ++ Py.format_04d k.

(** The numbers of the rows the generator looks at, in table order. *)
Definition year_numbers (year : Z) (objects : list Invoice.Invoice)
  : list string :=
  map Invoice.invoice_number
      (filter (fun i => String.prefix (year_prefix year)
                                      (Invoice.invoice_number i)) objects).

(** The greatest of a list of strings, found as [Invoice.first_desc] finds
    the row that carries it. *)
Fixpoint max_str (l : list string) : option string :=
  match l with
  | [] => None
  | s :: l' =>
      match max_str l' with
      | None => Some s
      | Some m => if String.ltb s m then Some m else Some s
      end
  end.

(** The numbers with counters [1], ..., [k]. *)
Definition numbers_upto (year : Z) (k : nat) : list string :=
  map (fun j => number_of year (Z.of_nat j)) (seq 1 k).

(** An invoice not yet numbered. *)
Definition draft : Invoice.Invoice :=
  {| Invoice.invoice_number := "";
     Invoice.due_date := 20030;
     Invoice.status := "draft";
     Invoice.subtotal := 30000;
     Invoice.tax_amount := 4500;
     Invoice.discount_amount := 0;
     Invoice.total_amount := 34500;
     Invoice.paid_amount := 0 |}.

(** A sequence of booking actions, each with the clock at its time, run
    one after the other on the same rows. *)
Fixpoint run_all (acts : list (Bookings.transition * Z))
         (qs : list Bookings.Booking) : list Bookings.Booking :=
  match acts with
  | [] => qs
  | (t, now) :: rest => run_all rest (fst (Bookings.run t now qs))
  end.

(** How far a booking is in its life: pending, confirmed, active, then
    the states no action leaves. *)
Definition stage (s : string) : Z :=
  if String.eqb s "pending" then 0
  else if String.eqb s "confirmed" then 1
  else if String.eqb s "active" then 2
  else 3.

(** The statuses the booking actions write. *)
Definition written_statuses : list string :=
  ["confirmed"; "active"; "completed"; "cancelled"].

(** The three payment actions of the admin. *)
Inductive payment_action := Process (now : Z) | Refund | MarkFailed.

Definition run_payment_action (a : payment_action)
           (qs : list Payment.Payment) : list Payment.Payment * nat :=
  match a with
  | Process now => Payment.process_payments now qs
  | Refund => Payment.refund_payments qs
  | MarkFailed => Payment.mark_failed qs
  end.

Fixpoint run_payment_actions (acts : list payment_action)
         (qs : list Payment.Payment) : list Payment.Payment :=
  match acts with
  | [] => qs
  | a :: rest => run_payment_actions rest (fst (run_payment_action a qs))
  end.

(** A year of four digits prints the same with and without padding. *)
Definition year_ok (y : Z) : bool :=
  String.eqb (Py.format_d y) (Py.format_04d y).

(** The rows an invoice table may hold from other years: each numbered
    by the generator in a four-digit year different from [year]. *)
Definition of_other_years (year : Z) (i : Invoice.Invoice) : Prop :=
  exists y k, 1000 <= y <= 9999 /\ y <> year /\
              Invoice.invoice_number i = number_of y k.

(** The number with counter [k] on the receipts stamped [stamp]. *)
Definition receipt_number_of (stamp : string) (k : Z) : string :=
  "RCP" ++ stamp ++ Py.format_04d k.

(** The receipts of the day, in table order. *)
Definition day_receipts (stamp : string) (objects : list Receipt.Receipt)
  : list Receipt.Receipt :=
  filter (fun r => String.prefix ("RCP" ++ stamp) (Receipt.receipt_number r))
         objects.

(** The receipt numbers with counters [1], ..., [k]. *)
Definition receipt_numbers_upto (stamp : string) (k : nat) : list string :=
  map (fun j => receipt_number_of stamp (Z.of_nat j)) (seq 1 k).

(** The session table after the update of the logout view for user [u]. *)
Definition signed_out (u : string) (ss : list Authentication.UserSession)
  : list Authentication.UserSession :=
  map (fun s => if String.eqb (Authentication.user s) u
                   && Authentication.is_active s
                then Authentication.set_is_active false s else s) ss.

(** A test on every character, and on some character, of a string. *)
Fixpoint str_forallb (p : ascii -> bool) (s : string) : bool :=
  match s with
  | "" => true
  | String c s' => p c && str_forallb p s'
  end.



Definition not_comma (c : ascii) : bool := negb (Ascii.eqb c ",").

(** The six parts of the address of a user, in the order of the method. *)
Definition address_parts (u : Accounts.CustomUser) : list (option string) :=
  [Accounts.address_line_1 u; Accounts.address_line_2 u; Accounts.city u;
   Accounts.state_province u; Accounts.postal_code u; Accounts.country u].

Definition total_length (l : list string) : nat :=
  fold_right (fun s n => (String.length s + n)%nat) 0%nat l.

(** One step of the escalation, on one issue. *)
Definition escalated (i : IssueReport.Issue) : IssueReport.Issue :=
  match IssueReport.lookup (IssueReport.priority i)
                           IssueReport.priority_map with
  | Some p => IssueReport.set_priority p i
  | None => i
  end.

(** The action run [n] times on the same rows. *)
Fixpoint escalate_times (n : nat) (qs : list IssueReport.Issue)
  : list IssueReport.Issue :=
  match n with
  | O => qs
  | S n' => escalate_times n' (fst (IssueReport.escalate_priority qs))
  end.

(** * Properties *)

(** ** Querysets and membership *)

Section QuerySetFacts.
Context {Row : Type}.
Variables (p : Row -> bool) (f : Row -> Row).

Lemma filter_update_singleton_skip r :
  p r = false -> QuerySet.filter_update p f [r] = ([r], 0%nat).
Proof. unfold QuerySet.filter_update; simpl; intros ->; reflexivity. Qed.

Lemma filter_update_singleton_hit r :
  p r = true -> QuerySet.filter_update p f [r] = ([f r], 1%nat).
Proof. unfold QuerySet.filter_update; simpl; intros ->; reflexivity. Qed.

Lemma filter_update_nth_skip qs i r :
  nth_error qs i = Some r -> p r = false ->
  nth_error (fst (QuerySet.filter_update p f qs)) i = Some r.
Proof.
  unfold QuerySet.filter_update; simpl; intros Hi Hp.
  rewrite nth_error_map, Hi; simpl; rewrite Hp; reflexivity.
Qed.

Lemma filter_update_nth_hit qs i r :
  nth_error qs i = Some r -> p r = true ->
  nth_error (fst (QuerySet.filter_update p f qs)) i = Some (f r).
Proof.
  unfold QuerySet.filter_update; simpl; intros Hi Hp.
  rewrite nth_error_map, Hi; simpl; rewrite Hp; reflexivity.
Qed.

Lemma filter_update_length qs :
  List.length (fst (QuerySet.filter_update p f qs)) = List.length qs.
Proof. unfold QuerySet.filter_update; simpl; apply length_map. Qed.

(** A property of rows that [f] keeps is kept by the whole update. *)
Lemma filter_update_Forall (P : Row -> Prop) qs :
  (forall r, P r -> P (f r)) ->
  Forall P qs -> Forall P (fst (QuerySet.filter_update p f qs)).
Proof.
  intros Hf H; unfold QuerySet.filter_update; simpl.
  induction H as [|r qs' Hr _ IH]; simpl; constructor; auto.
  destruct (p r); auto.
Qed.

(** A projection of the rows that [f] does not touch is the same before
    and after the update. *)
Lemma filter_update_map {B : Type} (g : Row -> B) qs :
  (forall r, g (f r) = g r) ->
  map g (fst (QuerySet.filter_update p f qs)) = map g qs.
Proof.
  intros Hg; unfold QuerySet.filter_update; simpl.
  rewrite map_map; apply map_ext; intros r; destruct (p r); auto.
Qed.
End QuerySetFacts.

Lemma str_in_In s l : str_in s l = true <-> In s l.
Proof.
  unfold str_in; rewrite existsb_exists; split.
  - intros (x & Hx & E); apply String.eqb_eq in E; subst; exact Hx.
  - intros H; exists s; split; [exact H | apply String.eqb_refl].
Qed.

Lemma str_in_not_In s l : str_in s l = false <-> ~ In s l.
Proof.
  rewrite <- str_in_In; destruct (str_in s l); split; congruence.
Qed.

(** ** Whole days between two instants *)

Lemma days_sub a b :
  Datetime.days (Datetime.sub a b) = (a - b) / Datetime.us_per_day.
Proof.
  unfold Datetime.sub, Datetime.normalize, Datetime.us_per_day.
  cbn [Datetime.days].
  rewrite (Z.mul_comm Datetime.seconds_per_day).
  apply Z.div_div; unfold Datetime.us_per_second, Datetime.seconds_per_day;
    lia.
Qed.

Lemma normalize_range us :
  0 <= Datetime.seconds (Datetime.normalize us) < Datetime.seconds_per_day /\
  0 <= Datetime.microseconds (Datetime.normalize us) < Datetime.us_per_second.
Proof.
  unfold Datetime.normalize; simpl; split; apply Z.mod_pos_bound;
    unfold Datetime.us_per_second, Datetime.seconds_per_day; lia.
Qed.

(** The fields of a normalised difference add up to the difference. *)
Lemma normalize_total us :
  Datetime.days (Datetime.normalize us) * Datetime.us_per_day
  + Datetime.seconds (Datetime.normalize us) * Datetime.us_per_second
  + Datetime.microseconds (Datetime.normalize us) = us.
Proof.
  unfold Datetime.normalize, Datetime.us_per_day; cbn.
  pose proof (Z.div_mod us Datetime.us_per_second) as H1.
  pose proof (Z.div_mod (us / Datetime.us_per_second)
                        Datetime.seconds_per_day) as H2.
  unfold Datetime.us_per_second, Datetime.seconds_per_day in *.
  lia.
Qed.

(** [days] is the number of whole days: the one [d] with
    [d] days [<= a - b <] [d + 1] days. *)
Lemma days_sub_unique a b d :
  d * Datetime.us_per_day <= a - b < (d + 1) * Datetime.us_per_day ->
  Datetime.days (Datetime.sub a b) = d.
Proof.
  intros H; rewrite days_sub.
  assert (0 < Datetime.us_per_day) by (vm_compute; reflexivity).
  symmetry; apply (Z.div_unique _ _ d (a - b - d * Datetime.us_per_day)); lia.
Qed.

(** ** Booking lifecycle *)

Lemma run_filter_update t now qs :
  Bookings.run t now qs
  = QuerySet.filter_update (Bookings.guard t) (Bookings.effect t now) qs.
Proof. destruct t; reflexivity. Qed.

Lemma guard_terminal t b :
  Bookings.terminal (Bookings.status b) -> Bookings.guard t b = false.
Proof.
  unfold Bookings.terminal; intros [H | [H | H]]; destruct t; simpl;
    rewrite H; reflexivity.
Qed.

Lemma effect_status t now b :
  Bookings.status (Bookings.effect t now b) = target t.
Proof. destruct t; reflexivity. Qed.

(** C1. On a booking in a terminal state (completed, cancelled, no_show)
    each of the four transitions (confirm, start, complete, cancel) fails:
    run on that booking alone it updates no row and hands the booking back
    as it was, and inside any queryset the booking keeps its place and all
    its fields, its status among them. A completed booking in particular
    cannot be moved to another state. *)
Theorem booking_terminal_transitions_fail
        (t : Bookings.transition) (now : Z) (b : Bookings.Booking) :
  Bookings.terminal (Bookings.status b) ->
  Bookings.run t now [b] = ([b], 0%nat) /\
  (forall qs i,
      nth_error qs i = Some b ->
      nth_error (fst (Bookings.run t now qs)) i = Some b).
Proof.
  intros Hb; pose proof (guard_terminal t b Hb) as Hg.
  rewrite run_filter_update; split.
  - apply filter_update_singleton_skip; exact Hg.
  - intros qs i Hi; rewrite run_filter_update.
    apply filter_update_nth_skip; assumption.
Qed.

Lemma booking_terminal_transitions_fail_witness :
  Bookings.terminal (Bookings.status Samples.completed_booking) /\
  Bookings.run Bookings.Cancel Samples.now_sample [Samples.completed_booking]
  = ([Samples.completed_booking], 0%nat).
Proof.
  assert (H : Bookings.terminal (Bookings.status Samples.completed_booking))
    by (left; reflexivity).
  split; [exact H |].
  exact (proj1 (booking_terminal_transitions_fail
                  Bookings.Cancel Samples.now_sample
                  Samples.completed_booking H)).
Defined.

(** ** Cancellation *)

Lemma cancel_guard_iff b :
  str_in (Bookings.status b) ["pending"; "confirmed"] = true
  <-> cancellable_status b.
Proof.
  rewrite str_in_In; unfold cancellable_status; simpl; intuition congruence.
Qed.

Lemma can_be_cancelled_iff now b :
  Bookings.can_be_cancelled now b = true
  <-> cancellable_status b /\ now < Bookings.pickup_date b.
Proof.
  unfold Bookings.can_be_cancelled.
  rewrite andb_true_iff, cancel_guard_iff, Z.ltb_lt; reflexivity.
Qed.

(** C2, as the specification states it, fails on the stale booking: its
    pickup date is ten days behind the clock, [can_be_cancelled] says no,
    and [cancel_bookings] cancels it all the same; the cancelled row has
    its [cancelled_at] stamped and no [cancellation_reason] recorded. *)
Lemma booking_cancel_counterexample :
  Bookings.pickup_date Samples.stale_booking < Samples.now_sample /\
  Bookings.can_be_cancelled Samples.now_sample Samples.stale_booking = false /\
  Bookings.cancel_bookings Samples.now_sample [Samples.stale_booking]
  <> ([Samples.stale_booking], 0%nat) /\
  snd (Bookings.cancel_bookings Samples.now_sample [Samples.stale_booking])
  = 1%nat /\
  map Bookings.status
      (fst (Bookings.cancel_bookings Samples.now_sample
                                     [Samples.stale_booking]))
  = ["cancelled"] /\
  map Bookings.cancelled_at
      (fst (Bookings.cancel_bookings Samples.now_sample
                                     [Samples.stale_booking]))
  = [Some Samples.now_sample] /\
  map Bookings.cancellation_reason
      (fst (Bookings.cancel_bookings Samples.now_sample
                                     [Samples.stale_booking]))
  = [None].
Proof. vm_compute; repeat split; discriminate. Qed.

(** C2, amended. [can_be_cancelled] holds exactly for a pending or
    confirmed booking whose pickup date is after the clock. On such a
    booking [cancel_bookings] succeeds: one row updated, status
    [cancelled], [cancelled_at] the clock, and every other field, the
    [cancellation_reason] among them, as before, since the action takes no
    reason. On a booking that is neither pending nor confirmed it fails and
    leaves the booking as it was. *)
Theorem booking_cancel_amended (now : Z) (b : Bookings.Booking) :
  let b' := Bookings.set_cancelled_at now (Bookings.set_status "cancelled" b) in
  (Bookings.can_be_cancelled now b = true
   <-> cancellable_status b /\ now < Bookings.pickup_date b) /\
  (Bookings.can_be_cancelled now b = true ->
   Bookings.cancel_bookings now [b] = ([b'], 1%nat)) /\
  (Bookings.status b' = "cancelled" /\
   Bookings.cancelled_at b' = Some now /\
   Bookings.cancellation_reason b' = Bookings.cancellation_reason b /\
   Bookings.pickup_date b' = Bookings.pickup_date b) /\
  (~ cancellable_status b ->
   Bookings.cancel_bookings now [b] = ([b], 0%nat)).
Proof.
  intros b'; split; [apply can_be_cancelled_iff |]; split; [| split].
  - intros H; apply can_be_cancelled_iff in H; destruct H as [Hs _].
    apply filter_update_singleton_hit, cancel_guard_iff, Hs.
  - repeat split.
  - intros Hn; apply filter_update_singleton_skip.
    destruct (str_in (Bookings.status b) ["pending"; "confirmed"]) eqn:E;
      [| reflexivity].
    apply cancel_guard_iff in E; contradiction.
Qed.

Lemma booking_cancel_amended_witness :
  Bookings.can_be_cancelled Samples.now_sample Samples.pending_booking = true /\
  Bookings.cancel_bookings Samples.now_sample [Samples.pending_booking]
  = ([Bookings.set_cancelled_at Samples.now_sample
        (Bookings.set_status "cancelled" Samples.pending_booking)], 1%nat).
Proof.
  assert (H : Bookings.can_be_cancelled Samples.now_sample
                                        Samples.pending_booking = true)
    by reflexivity.
  split; [exact H |].
  exact (proj1 (proj2 (booking_cancel_amended Samples.now_sample
                                              Samples.pending_booking)) H).
Defined.

(** ** Rental days *)

(** C5. [calculate_total_days] is the larger of 1 and the whole-day
    difference between return and pickup, the whole-day difference being
    the one [d] with [d] days [<= return_date - pickup_date <] [d + 1]
    days. So it is at least 1 for every booking, and 1 for any rental
    shorter than 24 hours, a return at the instant of pickup included. *)
Theorem booking_total_days (b : Bookings.Booking) :
  Bookings.calculate_total_days b
  = Z.max 1 ((Bookings.return_date b - Bookings.pickup_date b)
             / Datetime.us_per_day) /\
  (forall d,
      d * Datetime.us_per_day
      <= Bookings.return_date b - Bookings.pickup_date b
      < (d + 1) * Datetime.us_per_day ->
      Bookings.calculate_total_days b = Z.max 1 d) /\
  1 <= Bookings.calculate_total_days b /\
  (Bookings.return_date b - Bookings.pickup_date b < Datetime.us_per_day ->
   Bookings.calculate_total_days b = 1) /\
  (Bookings.return_date b = Bookings.pickup_date b ->
   Bookings.calculate_total_days b = 1).
Proof.
  assert (Hday : 0 < Datetime.us_per_day) by (vm_compute; reflexivity).
  assert (E : Bookings.calculate_total_days b
              = Z.max 1 ((Bookings.return_date b - Bookings.pickup_date b)
                         / Datetime.us_per_day)).
  { unfold Bookings.calculate_total_days; cbv zeta; rewrite days_sub.
    reflexivity. }
  assert (Hshort : Bookings.return_date b - Bookings.pickup_date b
                   < Datetime.us_per_day ->
                   Bookings.calculate_total_days b = 1).
  { intros Hlt; rewrite E.
    assert ((Bookings.return_date b - Bookings.pickup_date b)
            / Datetime.us_per_day <= 0).
    { apply Z.lt_succ_r, Z.div_lt_upper_bound; lia. }
    lia. }
  split; [exact E |]; split; [| split; [| split]].
  - intros d Hd. unfold Bookings.calculate_total_days; cbv zeta.
    rewrite (days_sub_unique _ _ d Hd); reflexivity.
  - rewrite E; lia.
  - exact Hshort.
  - intros Heq; apply Hshort; rewrite Heq; lia.
Qed.

Lemma booking_total_days_witness :
  Bookings.return_date Samples.instant_booking
  = Bookings.pickup_date Samples.instant_booking /\
  Bookings.calculate_total_days Samples.instant_booking = 1.
Proof.
  split; [reflexivity |].
  apply (proj2 (proj2 (proj2 (proj2
           (booking_total_days Samples.instant_booking))))).
  reflexivity.
Defined.

(** ** Stored prices *)

Lemma save_pricing stamp suffix b :
  pricing (Bookings.save stamp suffix b) = pricing b.
Proof.
  unfold Bookings.save; destruct (String.eqb _ _); reflexivity.
Qed.

Lemma effect_pricing t now b : pricing (Bookings.effect t now b) = pricing b.
Proof. destruct t; reflexivity. Qed.

(** C6, as the specification states it, fails on a new booking of three
    days at 100.00 a day with no tax, discount, fees or insurance, whose
    caller left [total_amount] at zero: [save] stores it with
    [total_amount] still zero, not 300.00. *)
Lemma booking_total_amount_counterexample :
  let saved := Bookings.save "241001" "0042" Samples.unpriced_booking in
  Bookings.booking_reference saved = "BK2410010042" /\
  spec_subtotal saved = 30000 /\
  spec_total_amount saved = 30000 /\
  Bookings.total_amount saved = 0 /\
  Bookings.total_amount saved <> spec_total_amount saved.
Proof. vm_compute; repeat split; discriminate. Qed.

(** C6, amended. [subtotal] and [total_amount] are stored fields that no
    operation computes: [save] and the four admin transitions hand back
    every pricing field as they received it. So the two equations hold on
    the stored booking exactly when they held on what the caller supplied;
    the three-day booking at 100.00 supplied with a total of 300.00 is
    stored with a total of 300.00. *)
Theorem booking_pricing_stored_as_supplied
        (stamp suffix : string) (b : Bookings.Booking) :
  let saved := Bookings.save stamp suffix b in
  pricing saved = pricing b /\
  (Bookings.subtotal saved = spec_subtotal saved
   <-> Bookings.subtotal b = spec_subtotal b) /\
  (Bookings.total_amount saved = spec_total_amount saved
   <-> Bookings.total_amount b = spec_total_amount b) /\
  (forall t now qs,
      map pricing (fst (Bookings.run t now qs)) = map pricing qs) /\
  Bookings.total_amount (Bookings.save stamp suffix Samples.pending_booking)
  = 30000.
Proof.
  intros saved; pose proof (save_pricing stamp suffix b) as E.
  fold saved in E; unfold pricing in E; injection E as E1 E2 E3 E4 E5 E6 E7 E8 E9.
  split; [unfold pricing; congruence |].
  unfold spec_subtotal, spec_total_amount.
  rewrite E1, E2, E3, E4, E5, E6, E8, E9.
  split; [reflexivity |]; split; [reflexivity |]; split.
  - intros t now qs; rewrite run_filter_update.
    apply filter_update_map; intros r; apply effect_pricing.
  - reflexivity.
Qed.

Lemma booking_pricing_stored_as_supplied_witness :
  Bookings.total_amount Samples.pending_booking
  = spec_total_amount Samples.pending_booking /\
  Bookings.total_amount
    (Bookings.save "241001" "0042" Samples.pending_booking)
  = spec_total_amount
      (Bookings.save "241001" "0042" Samples.pending_booking).
Proof.
  assert (H : Bookings.total_amount Samples.pending_booking
              = spec_total_amount Samples.pending_booking) by reflexivity.
  split; [exact H |].
  apply (proj2 (proj1 (proj2 (proj2
           (booking_pricing_stored_as_supplied
              "241001" "0042" Samples.pending_booking))))).
  exact H.
Defined.

(** ** Add-on charges *)

(** Two GPS units at 50.00 are charged 100.00. *)
Example gps_twice_total :
  Bookings.total_price (Bookings.save_assignment Samples.gps_twice) = 10000.
Proof. reflexivity. Qed.

(** C8, as the specification states it, fails on the 10 percent add-on
    [premium_cover], whose [pricing_type] is [percentage]: assigned with
    unit price 10.00 and quantity 1 to a booking of subtotal 300.00 and to
    one of subtotal 100.00, it is charged 10.00 on both, the flat
    [unit_price * quantity]; the charge does not follow the subtotal. *)
Lemma addon_percentage_counterexample :
  Bookings.pricing_type (Bookings.addon Samples.cover_on_pending)
  = "percentage" /\
  Bookings.pricing_type (Bookings.addon Samples.cover_on_instant)
  = "percentage" /\
  Bookings.subtotal (Bookings.booking Samples.cover_on_pending) = 30000 /\
  Bookings.subtotal (Bookings.booking Samples.cover_on_instant) = 10000 /\
  Bookings.total_price (Bookings.save_assignment Samples.cover_on_pending)
  = 1000 /\
  Bookings.total_price (Bookings.save_assignment Samples.cover_on_instant)
  = 1000.
Proof. vm_compute; repeat split; reflexivity. Qed.

(** C8, amended. For every add-on assignment, whatever the [pricing_type]
    of its add-on ([per_day], [per_booking] or [percentage]) and whatever
    the subtotal of its booking, [save] charges
    [total_price = unit_price * quantity] and changes nothing else. *)
Theorem addon_total_is_flat (a : Bookings.BookingAddOnAssignment) :
  let saved := Bookings.save_assignment a in
  Bookings.total_price saved = Bookings.unit_price a * Bookings.quantity a /\
  Bookings.unit_price saved = Bookings.unit_price a /\
  Bookings.quantity saved = Bookings.quantity a /\
  Bookings.addon saved = Bookings.addon a /\
  Bookings.booking saved = Bookings.booking a /\
  (forall a',
      Bookings.unit_price a' = Bookings.unit_price a ->
      Bookings.quantity a' = Bookings.quantity a ->
      Bookings.total_price (Bookings.save_assignment a')
      = Bookings.total_price saved).
Proof.
  cbv zeta; repeat split.
  intros a' Hu Hq; simpl; rewrite Hu, Hq; reflexivity.
Qed.

Lemma addon_total_is_flat_witness :
  Bookings.total_price (Bookings.save_assignment Samples.cover_on_instant)
  = Bookings.total_price (Bookings.save_assignment Samples.cover_on_pending).
Proof.
  apply (proj2 (proj2 (proj2 (proj2 (proj2
           (addon_total_is_flat Samples.cover_on_pending))))));
    reflexivity.
Defined.

(** ** Refunds *)

Lemma is_refundable_iff p :
  Payment.is_refundable p = true
  <-> Payment.status p = "completed"
      /\ Payment.refund_amount p < Payment.amount p.
Proof.
  unfold Payment.is_refundable.
  rewrite andb_true_iff, String.eqb_eq, Z.ltb_lt; reflexivity.
Qed.

Lemma refund_payments_singleton p :
  Payment.refund_payments [p]
  = if String.eqb (Payment.status p) "completed"
    then ([Payment.set_status "refunded" p], 1%nat)
    else ([p], 0%nat).
Proof.
  unfold Payment.refund_payments.
  destruct (String.eqb (Payment.status p) "completed") eqn:E.
  - apply filter_update_singleton_hit; exact E.
  - apply filter_update_singleton_skip; exact E.
Qed.

(** C3, as the specification states it, fails on a completed payment of
    100.00 with nothing refunded and a refund of 25.00: the refund is
    valid by the stated guard and, 25.00 being short of 100.00, should
    leave the payment [partially_refunded]; [refund_payments], which takes
    no amount, marks it [refunded] and leaves [refund_amount] at zero. *)
Lemma payment_refund_counterexample :
  Payment.spec_refund_valid 2500 Samples.settled_payment = true /\
  Payment.spec_refund_status 2500 Samples.settled_payment
  = "partially_refunded" /\
  map Payment.status (fst (Payment.refund_payments [Samples.settled_payment]))
  = ["refunded"] /\
  map Payment.status (fst (Payment.refund_payments [Samples.settled_payment]))
  <> [Payment.spec_refund_status 2500 Samples.settled_payment] /\
  map Payment.refund_amount
      (fst (Payment.refund_payments [Samples.settled_payment]))
  = [0].
Proof. vm_compute; repeat split; discriminate. Qed.

(** C3, amended. The refund operation takes no amount. On a refundable
    payment (status [completed] and [refund_amount < amount]) it succeeds
    and sets the status to [refunded]; on a payment whose status is not
    [completed] it fails and leaves the payment as it is. It never changes
    [amount] or [refund_amount] and never produces the status
    [partially_refunded]. [is_refundable] holds exactly when the status
    is [completed] and [refund_amount < amount]. *)
Theorem payment_refund_amended (p : Payment.Payment) :
  (Payment.is_refundable p = true ->
   Payment.refund_payments [p] = ([Payment.set_status "refunded" p], 1%nat)) /\
  (Payment.status p <> "completed" ->
   Payment.refund_payments [p] = ([p], 0%nat)) /\
  (forall p', In p' (fst (Payment.refund_payments [p])) ->
              Payment.amount p' = Payment.amount p /\
              Payment.refund_amount p' = Payment.refund_amount p /\
              (Payment.status p' = "partially_refunded" ->
               Payment.status p = "partially_refunded")) /\
  (Payment.is_refundable p = true
   <-> Payment.status p = "completed"
       /\ Payment.refund_amount p < Payment.amount p).
Proof.
  rewrite refund_payments_singleton.
  destruct (String.eqb (Payment.status p) "completed") eqn:E.
  - apply String.eqb_eq in E.
    split; [reflexivity |]; split; [congruence |]; split;
      [| apply is_refundable_iff].
    intros p' [<- | []]; simpl; repeat split; discriminate.
  - apply String.eqb_neq in E.
    split; [| split; [reflexivity |]; split; [| apply is_refundable_iff]].
    + intros H; apply is_refundable_iff in H; destruct H; congruence.
    + intros p' [<- | []]; auto.
Qed.

Lemma payment_refund_amended_witness :
  Payment.is_refundable Samples.settled_payment = true /\
  Payment.refund_payments [Samples.settled_payment]
  = ([Payment.set_status "refunded" Samples.settled_payment], 1%nat).
Proof.
  split; [reflexivity |].
  apply (proj1 (payment_refund_amended Samples.settled_payment)).
  reflexivity.
Defined.

(** C4. A refund operation keeps [refund_amount <= amount]: on any
    queryset whose payments all satisfy it, every payment satisfies it
    after [refund_payments]; the amounts themselves are untouched. *)
Theorem payment_refund_keeps_invariant (qs : list Payment.Payment) :
  Forall refund_within_amount qs ->
  Forall refund_within_amount (fst (Payment.refund_payments qs)) /\
  map Payment.refund_amount (fst (Payment.refund_payments qs))
  = map Payment.refund_amount qs /\
  map Payment.amount (fst (Payment.refund_payments qs))
  = map Payment.amount qs.
Proof.
  intros H; unfold Payment.refund_payments; split; [| split].
  - apply filter_update_Forall; [| exact H].
    intros r Hr; exact Hr.
  - apply filter_update_map; reflexivity.
  - apply filter_update_map; reflexivity.
Qed.

Lemma payment_refund_keeps_invariant_witness :
  Forall refund_within_amount [Samples.settled_payment] /\
  Forall refund_within_amount
         (fst (Payment.refund_payments [Samples.settled_payment])).
Proof.
  assert (H : Forall refund_within_amount [Samples.settled_payment]).
  { constructor; [| constructor].
    unfold refund_within_amount; simpl; lia. }
  split; [exact H |].
  exact (proj1 (payment_refund_keeps_invariant [Samples.settled_payment] H)).
Defined.

(** The other two payment actions keep the invariant as well. *)
Lemma payment_actions_keep_invariant now qs :
  Forall refund_within_amount qs ->
  Forall refund_within_amount (fst (Payment.process_payments now qs)) /\
  Forall refund_within_amount (fst (Payment.mark_failed qs)).
Proof.
  intros H; split; apply filter_update_Forall; auto.
Qed.

(** ** Vehicles *)

(** C10. [is_available_for_booking] is true exactly when the status is
    [available] and [is_active] is true; an inactive vehicle is not
    bookable, its status being [available] or not. *)
Theorem vehicle_available_iff (v : Vehicles.Vehicle) :
  (Vehicles.is_available_for_booking v = true
   <-> Vehicles.status v = "available" /\ Vehicles.is_active v = true) /\
  (Vehicles.is_active v = false ->
   Vehicles.is_available_for_booking v = false).
Proof.
  unfold Vehicles.is_available_for_booking; split.
  - rewrite andb_true_iff, String.eqb_eq; reflexivity.
  - intros ->; apply andb_false_r.
Qed.

Lemma vehicle_available_iff_witness :
  Vehicles.status Samples.available_inactive = "available" /\
  Vehicles.is_available_for_booking Samples.available_inactive = false.
Proof.
  split; [reflexivity |].
  apply (proj2 (vehicle_available_iff Samples.available_inactive)).
  reflexivity.
Defined.

(** ** Logout *)

Section Logout.
Import Authentication.

(** The inner [try] always returns, whatever the two statements in it
    do. *)
Lemma inner_try_returns env tok w :
  exists w',
    try_except (blacklist_refresh_token env tok) (fun _ => ret tt) w
    = Returned tt w'.
Proof.
  unfold try_except.
  destruct (blacklist_refresh_token env tok w) as [[] w' | e w'];
    exists w'; reflexivity.
Qed.

(** The outcome of [post], step by step. *)
Lemma post_outcome env request w :
  post env request w
  = match deactivate_sessions env (request_user request) w with
    | Raised _ w1 => Returned logout_failed w1
    | Returned _ w1 =>
        match request_data request with
        | inl _ => Returned logout_failed w1
        | inr d =>
            let refresh_token := dict_get "refresh_token" d in
            if truthy refresh_token
            then match blacklist_refresh_token env refresh_token w1 with
                 | Returned _ w2 => Returned logout_successful w2
                 | Raised _ w2 => Returned logout_successful w2
                 end
            else Returned logout_successful w1
        end
    end.
Proof.
  unfold post, try_except at 1, bind at 1.
  destruct (deactivate_sessions env (request_user request) w)
    as [n w1 | e w1]; [| reflexivity].
  unfold bind at 1, data_get.
  destruct (request_data request) as [e | d]; [reflexivity |].
  unfold ret at 1; cbv zeta.
  unfold bind at 1.
  destruct (truthy (dict_get "refresh_token" d)); [| reflexivity].
  unfold try_except.
  destruct (blacklist_refresh_token env (dict_get "refresh_token" d) w1);
    reflexivity.
Qed.

(** [post] never raises: it always returns one of its two responses. *)
Lemma post_returns env request w :
  exists r w', post env request w = Returned r w'
               /\ (r = logout_successful \/ r = logout_failed).
Proof.
  rewrite post_outcome.
  destruct (deactivate_sessions env (request_user request) w)
    as [n w1 | e w1]; [| eauto].
  destruct (request_data request) as [e | d]; [eauto |].
  cbv zeta; destruct (truthy (dict_get "refresh_token" d)); [| eauto].
  destruct (blacklist_refresh_token env (dict_get "refresh_token" d) w1);
    eauto.
Qed.

(** The session update does not look at the token collaborators. *)
Lemma deactivate_sessions_env env env' u w :
  session_update_error env' = session_update_error env ->
  (exists n w1, deactivate_sessions env u w = Returned n w1) ->
  exists n w1, deactivate_sessions env' u w = Returned n w1.
Proof.
  unfold deactivate_sessions; intros ->.
  destruct (session_update_error env); [| intros _].
  - intros (n & w1 & H); discriminate.
  - destruct (QuerySet.filter_update _ _ _); eauto.
Qed.

(** When the session update or the reading of the body raises, the outer
    handler reports the failure. *)
Lemma logout_fails_before_blacklisting env request w :
  (exists e w1,
      deactivate_sessions env (request_user request) w = Raised e w1)
  \/ (exists e, request_data request = inl e) ->
  response_of (post env request w) = Some logout_failed.
Proof.
  rewrite post_outcome; intros [(e & w1 & ->) | (e & ->)];
    [reflexivity |].
  destruct (deactivate_sessions env (request_user request) w); reflexivity.
Qed.

(** C9. When the handler gets as far as blacklisting the refresh token
    the request supplies (the session update returned, the body gave a
    non-empty token) and the blacklisting raises, whether in
    [RefreshToken(...)] or in [blacklist()], [post] returns
    'Logout successful' with status 200, in the world the failed
    blacklisting left. More generally the token collaborators never
    change the response: with any other behaviour of theirs the response
    to this request is the same success. *)
Theorem logout_swallows_blacklist_errors
        (env : Env) (request : Request) (w w1 w2 : World)
        (n : nat) (d : list (string * pyval)) (e : exn) :
  deactivate_sessions env (request_user request) w = Returned n w1 ->
  request_data request = inr d ->
  truthy (dict_get "refresh_token" d) = true ->
  blacklist_refresh_token env (dict_get "refresh_token" d) w1
  = Raised e w2 ->
  post env request w = Returned logout_successful w2 /\
  status_code logout_successful = 200 /\
  (forall env',
      session_update_error env' = session_update_error env ->
      response_of (post env' request w) = Some logout_successful).
Proof.
  intros Hs Hd Ht Hb; split; [| split; [reflexivity |]].
  - rewrite post_outcome, Hs, Hd; cbv zeta; rewrite Ht, Hb; reflexivity.
  - intros env' Henv.
    destruct (deactivate_sessions_env env env' (request_user request) w Henv)
      as (n' & w1' & Hs'); [eauto |].
    rewrite post_outcome, Hs', Hd; cbv zeta; rewrite Ht.
    destruct (blacklist_refresh_token env' _ w1'); reflexivity.
Qed.

Lemma logout_swallows_blacklist_errors_witness :
  blacklist_refresh_token
    Samples.failing_blacklist (PStr "eyJ0eXAiOiJKV1Qi")
    Samples.signed_out_world
  = Raised Samples.no_blacklist_table Samples.signed_out_world /\
  post Samples.failing_blacklist Samples.logout_request Samples.live_world
  = Returned logout_successful Samples.signed_out_world.
Proof.
  split; [reflexivity |].
  exact (proj1 (logout_swallows_blacklist_errors
                  Samples.failing_blacklist Samples.logout_request
                  Samples.live_world Samples.signed_out_world
                  Samples.signed_out_world 1%nat
                  [("refresh_token", PStr "eyJ0eXAiOiJKV1Qi")]
                  Samples.no_blacklist_table
                  eq_refl eq_refl eq_refl eq_refl)).
Defined.
End Logout.

(** ** Strings: order, prefixes, suffixes *)

Lemma ascii_compare_refl c : Ascii.compare c c = Eq.
Proof. unfold Ascii.compare; apply N.compare_refl. Qed.

Lemma string_compare_app p a b :
  String.compare (p ++ a) (p ++ b) = String.compare a b.
Proof.
  induction p as [|c p IH]; simpl; [reflexivity |].
  rewrite ascii_compare_refl; exact IH.
Qed.

Lemma string_ltb_app p a b : String.ltb (p ++ a) (p ++ b) = String.ltb a b.
Proof. unfold String.ltb; rewrite string_compare_app; reflexivity. Qed.

Lemma string_compare_trans a b c :
  String.compare a b = Lt -> String.compare b c = Lt ->
  String.compare a c = Lt.
Proof.
  revert b c; induction a as [|x a IH]; intros [|y b] [|z c]; simpl;
    try discriminate; auto.
  unfold Ascii.compare.
  destruct (N.compare_spec (N_of_ascii x) (N_of_ascii y)) as [Exy|Lxy|Gxy];
    try discriminate;
    destruct (N.compare_spec (N_of_ascii y) (N_of_ascii z)) as [Eyz|Lyz|Gyz];
    try discriminate; intros H1 H2.
  - rewrite Exy, Eyz, N.compare_refl; eauto.
  - rewrite Exy; apply N.compare_lt_iff in Lyz; rewrite Lyz; reflexivity.
  - rewrite <- Eyz; apply N.compare_lt_iff in Lxy; rewrite Lxy; reflexivity.
  - assert (L : (N_of_ascii x < N_of_ascii z)%N) by lia.
    apply N.compare_lt_iff in L; rewrite L; reflexivity.
Qed.

Lemma string_ltb_trans a b c :
  String.ltb a b = true -> String.ltb b c = true -> String.ltb a c = true.
Proof.
  unfold String.ltb; intros H1 H2.
  destruct (String.compare a b) eqn:E1; try discriminate.
  destruct (String.compare b c) eqn:E2; try discriminate.
  rewrite (string_compare_trans a b c E1 E2); reflexivity.
Qed.

Lemma string_ltb_asym a b : String.ltb a b = true -> String.ltb b a = false.
Proof.
  unfold String.ltb; rewrite (String.compare_antisym a b).
  destruct (String.compare b a); simpl; congruence.
Qed.

Lemma string_ltb_irrefl a : String.ltb a a = false.
Proof.
  destruct (String.ltb a a) eqn:E; [| reflexivity].
  pose proof (string_ltb_asym a a E); congruence.
Qed.

Lemma prefix_app p s : String.prefix p (p ++ s) = true.
Proof.
  induction p as [|c p IH]; simpl; [destruct s; reflexivity |].
  destruct (ascii_dec c c); [exact IH | congruence].
Qed.

Lemma string_app_inv_head p a b : p ++ a = p ++ b -> a = b.
Proof.
  induction p as [|c p IH]; simpl; [auto |].
  intros H; injection H as H; auto.
Qed.

Lemma string_length_app a b :
  String.length (a ++ b) = (String.length a + String.length b)%nat.
Proof. induction a as [|c a IH]; simpl; [reflexivity | rewrite IH; reflexivity]. Qed.

Lemma substring_all s : substring 0 (String.length s) s = s.
Proof. induction s as [|c s IH]; simpl; [reflexivity | rewrite IH; reflexivity]. Qed.

Lemma substring_skip p n s :
  substring (String.length p) n (p ++ s) = substring 0 n s.
Proof. induction p as [|c p IH]; simpl; [reflexivity | exact IH]. Qed.

(** The last [n] characters of a string that ends with [n] characters
    [s] are [s]. *)
Lemma suffix_app p s n :
  String.length s = n -> Py.suffix n (p ++ s) = s.
Proof.
  intros <-; unfold Py.suffix.
  rewrite string_length_app, Nat.add_sub, substring_skip.
  apply substring_all.
Qed.

(** ** The counter field of an invoice number *)

Lemma count_up_In len : forall a k,
  a <= k < a + Z.of_nat len -> In k (count_up len a).
Proof.
  induction len as [|len IH]; intros a k H; [lia |].
  cbn [count_up]; destruct (Z.eq_dec a k) as [-> | Hne]; [left; reflexivity |].
  right; apply IH; lia.
Qed.

Lemma counters_In k n : 0 <= k < n -> In k (counters n).
Proof. intros H; apply count_up_In; lia. Qed.

Lemma counter_table : forallb counter_ok (counters 10000) = true.
Proof. vm_compute; reflexivity. Qed.

Lemma counter_step_table : forallb counter_step_ok (counters 9999) = true.
Proof. vm_compute; reflexivity. Qed.

Lemma format_04d_length k :
  0 <= k <= 9999 -> String.length (Py.format_04d k) = 4%nat.
Proof.
  intros H; pose proof counter_table as T.
  rewrite forallb_forall in T; specialize (T k (counters_In k 10000 ltac:(lia))).
  unfold counter_ok in T; apply andb_true_iff in T; destruct T as [T _].
  apply Nat.eqb_eq; exact T.
Qed.

Lemma int_format_04d k :
  0 <= k <= 9999 -> Py.int (Py.format_04d k) = Some k.
Proof.
  intros H; pose proof counter_table as T.
  rewrite forallb_forall in T; specialize (T k (counters_In k 10000 ltac:(lia))).
  unfold counter_ok in T; apply andb_true_iff in T; destruct T as [_ T].
  destruct (Py.int (Py.format_04d k)); [| discriminate].
  apply Z.eqb_eq in T; congruence.
Qed.

Lemma format_04d_step k :
  0 <= k < 9999 ->
  String.ltb (Py.format_04d k) (Py.format_04d (k + 1)) = true.
Proof.
  intros H; pose proof counter_step_table as T.
  rewrite forallb_forall in T; exact (T k (counters_In k 9999 ltac:(lia))).
Qed.

Lemma format_04d_increasing j k :
  0 <= j < k -> k <= 9999 ->
  String.ltb (Py.format_04d j) (Py.format_04d k) = true.
Proof.
  intros Hj Hk.
  replace k with (j + 1 + Z.of_nat (Z.to_nat (k - j - 1))) in * by lia.
  induction (Z.to_nat (k - j - 1)) as [|m IH].
  - rewrite Z.add_0_r; apply format_04d_step; lia.
  - apply string_ltb_trans with (Py.format_04d (j + 1 + Z.of_nat m)).
    + apply IH; lia.
    + replace (j + 1 + Z.of_nat (S m)) with (j + 1 + Z.of_nat m + 1) by lia.
      apply format_04d_step; lia.
Qed.

(** The fifth digit breaks the order: [10000] prints below [9999]. *)
Lemma format_04d_overflow :
  Py.format_04d 10000 = "10000" /\
  String.ltb (Py.format_04d 10000) (Py.format_04d 9999) = true.
Proof. vm_compute; split; reflexivity. Qed.

(** ** The greatest existing number *)

Lemma first_desc_number rows :
  option_map Invoice.invoice_number (Invoice.first_desc rows)
  = max_str (map Invoice.invoice_number rows).
Proof.
  induction rows as [|i rows IH]; simpl; [reflexivity |].
  rewrite <- IH.
  destruct (Invoice.first_desc rows) as [j|]; simpl; [| reflexivity].
  destruct (String.ltb _ _); reflexivity.
Qed.

Lemma max_str_In l m : max_str l = Some m -> In m l.
Proof.
  revert m; induction l as [|s l IH]; simpl; intros m; [discriminate |].
  destruct (max_str l) as [m'|].
  - destruct (String.ltb s m'); intros [= <-]; auto.
  - intros [= <-]; auto.
Qed.

(** A string above all the others is the one found, wherever it stands. *)
Lemma max_str_peak (l t : list string) a :
  (forall y, In y l -> String.ltb y a = true) ->
  (forall x, In x t -> String.ltb x a = true) ->
  max_str (l ++ a :: t)%list = Some a.
Proof.
  intros Hl Ht.
  assert (Hat : max_str (a :: t) = Some a).
  { simpl; destruct (max_str t) as [m|] eqn:E; [| reflexivity].
    rewrite (string_ltb_asym m a (Ht m (max_str_In _ _ E))); reflexivity. }
  induction l as [|y l IH]; [exact Hat |].
  change ((y :: l) ++ a :: t)%list with (y :: (l ++ a :: t))%list.
  cbn [max_str]; rewrite IH by (intros; apply Hl; right; assumption).
  rewrite (Hl y (or_introl eq_refl)); reflexivity.
Qed.

(** The generator in terms of the numbers alone. *)
Lemma generate_by_numbers year objects :
  Invoice.generate_invoice_number year objects
  = match max_str (year_numbers year objects) with
    | Some s =>
        match Py.int (Py.suffix 4 s) with
        | Some n => Some (number_of year (n + 1))
        | None => None
        end
    | None => Some (number_of year 1)
    end.
Proof.
  unfold Invoice.generate_invoice_number, year_numbers, number_of, year_prefix.
  cbv zeta; rewrite <- first_desc_number.
  destruct (Invoice.first_desc _) as [last|]; simpl; [| reflexivity].
  destruct (Py.int _); reflexivity.
Qed.

Section Numbering.
Variable year : Z.

Lemma numbers_upto_S k :
  numbers_upto year (S k)
  = (numbers_upto year k ++ [number_of year (Z.of_nat (S k))])%list.
Proof.
  unfold numbers_upto; rewrite seq_S, map_app; reflexivity.
Qed.

Lemma numbers_upto_In s k :
  In s (numbers_upto year k) ->
  exists j, 1 <= j <= Z.of_nat k /\ s = number_of year j.
Proof.
  unfold numbers_upto; rewrite in_map_iff; intros (j & <- & Hj).
  apply in_seq in Hj; exists (Z.of_nat j); split; [lia | reflexivity].
Qed.

Lemma number_of_increasing j k :
  0 <= j < k -> k <= 9999 ->
  String.ltb (number_of year j) (number_of year k) = true.
Proof.
  intros; unfold number_of; rewrite string_ltb_app.
  apply format_04d_increasing; assumption.
Qed.

Lemma number_of_inj j k :
  0 <= j <= 9999 -> 0 <= k <= 9999 ->
  number_of year j = number_of year k -> j = k.
Proof.
  unfold number_of; intros Hj Hk E; apply string_app_inv_head in E.
  pose proof (int_format_04d j Hj) as Ej; rewrite E in Ej.
  rewrite (int_format_04d k Hk) in Ej; congruence.
Qed.

Lemma number_of_prefix k :
  String.prefix (year_prefix year) (number_of year k) = true.
Proof. apply prefix_app. Qed.

Lemma int_suffix_number_of k :
  0 <= k <= 9999 -> Py.int (Py.suffix 4 (number_of year k)) = Some k.
Proof.
  intros H; unfold number_of.
  rewrite suffix_app by (apply format_04d_length; exact H).
  apply int_format_04d; exact H.
Qed.

(** Up to [9999] the greatest number is the last one made. *)
Lemma max_str_numbers_upto k :
  Z.of_nat (S k) <= 9999 ->
  max_str (numbers_upto year (S k))
  = Some (number_of year (Z.of_nat (S k))).
Proof.
  intros H; rewrite numbers_upto_S.
  apply max_str_peak; [| intros x []].
  intros y Hy; apply numbers_upto_In in Hy; destruct Hy as (j & Hj & ->).
  apply number_of_increasing; lia.
Qed.

(** The next number, while the counter fits its four digits. *)
Lemma generate_next objects k :
  year_numbers year objects = numbers_upto year k ->
  Z.of_nat k <= 9999 ->
  Invoice.generate_invoice_number year objects
  = Some (number_of year (Z.of_nat k + 1)).
Proof.
  intros E H; rewrite generate_by_numbers, E.
  destruct k as [|k]; [reflexivity |].
  rewrite max_str_numbers_upto by exact H.
  rewrite int_suffix_number_of by lia; reflexivity.
Qed.
End Numbering.

(** ** Saving invoices one after the other *)

Section Saving.
Variable year : Z.

Lemma year_numbers_snoc objects i :
  String.prefix (year_prefix year) (Invoice.invoice_number i) = true ->
  year_numbers year (objects ++ [i])%list
  = (year_numbers year objects ++ [Invoice.invoice_number i])%list.
Proof.
  intros H; unfold year_numbers.
  rewrite filter_app, map_app; simpl; rewrite H; reflexivity.
Qed.

Lemma year_numbers_In objects i :
  In i objects ->
  String.prefix (year_prefix year) (Invoice.invoice_number i) = true ->
  In (Invoice.invoice_number i) (year_numbers year objects).
Proof.
  intros Hi Hp; unfold year_numbers.
  apply in_map, filter_In; split; assumption.
Qed.

Lemma numbers_upto_mem j k :
  (1 <= j <= k)%nat ->
  In (number_of year (Z.of_nat j)) (numbers_upto year k).
Proof.
  intros H; unfold numbers_upto.
  apply (in_map (fun j => number_of year (Z.of_nat j))), in_seq; lia.
Qed.

(** The number after the last one made is not in the table, up to and
    including the first number of five digits. *)
Lemma next_number_fresh objects k :
  year_numbers year objects = numbers_upto year k ->
  Z.of_nat k <= 9999 ->
  existsb (fun j => String.eqb (Invoice.invoice_number j)
                               (number_of year (Z.of_nat k + 1)))
          objects = false.
Proof.
  intros E H.
  destruct (existsb _ objects) eqn:X; [exfalso | reflexivity].
  apply existsb_exists in X; destruct X as (i & Hi & Hn).
  apply String.eqb_eq in Hn.
  assert (Hin : In (Invoice.invoice_number i) (numbers_upto year k)).
  { rewrite <- E; apply year_numbers_In; [exact Hi |].
    rewrite Hn; apply number_of_prefix. }
  apply numbers_upto_In in Hin; destruct Hin as (j & Hj & Ej).
  rewrite Hn in Ej; unfold number_of in Ej.
  apply string_app_inv_head in Ej.
  assert (Hk : Z.of_nat k + 1 <= 9999 \/ Z.of_nat k + 1 = 10000) by lia.
  destruct Hk as [Hk | Hk].
  - pose proof (int_format_04d (Z.of_nat k + 1) ltac:(lia)) as I1.
    rewrite Ej, int_format_04d in I1 by lia.
    injection I1 as I1; lia.
  - pose proof (format_04d_length j ltac:(lia)) as L.
    rewrite <- Ej, Hk in L; vm_compute in L; discriminate.
Qed.

(** One save of a draft on a table that holds the numbers [1] to [k]
    of the year. *)
Lemma save_next objects k d :
  Invoice.invoice_number d = "" ->
  year_numbers year objects = numbers_upto year k ->
  Z.of_nat k <= 9999 ->
  let d' := Invoice.set_invoice_number
              (number_of year (Z.of_nat (S k))) d in
  Invoice.save year objects d = inr (objects ++ [d'])%list /\
  year_numbers year (objects ++ [d'])%list = numbers_upto year (S k).
Proof.
  intros Hd E H d'; split.
  - unfold Invoice.save; rewrite Hd; cbn [String.eqb].
    rewrite (generate_next year objects k E H); cbn [option_map].
    cbn [Invoice.set_invoice_number Invoice.invoice_number].
    rewrite (next_number_fresh objects k E H).
    unfold d'; rewrite Nat2Z.inj_succ, <- Z.add_1_r; reflexivity.
  - rewrite year_numbers_snoc by apply number_of_prefix.
    rewrite E, numbers_upto_S; reflexivity.
Qed.

(** Serialized creation: the drafts receive the numbers that follow
    those of the table, in the order of their creation. *)
Lemma save_all_numbers drafts : forall objects k,
  Forall (fun d => Invoice.invoice_number d = "") drafts ->
  year_numbers year objects = numbers_upto year k ->
  Z.of_nat k + Z.of_nat (List.length drafts) <= 10000 ->
  exists store,
    Invoice.save_all year objects drafts = inr store /\
    year_numbers year store
    = numbers_upto year (k + List.length drafts) /\
    map Invoice.invoice_number store
    = (map Invoice.invoice_number objects
       ++ map (fun j => number_of year (Z.of_nat j))
              (seq (S k) (List.length drafts)))%list.
Proof.
  induction drafts as [|d drafts IH]; intros objects k Hd E H.
  - exists objects; simpl; rewrite Nat.add_0_r, app_nil_r; auto.
  - inversion Hd as [|? ? Hd1 Hd2]; subst.
    cbn [List.length] in H.
    destruct (save_next objects k d Hd1 E ltac:(lia)) as [S1 S2].
    cbv zeta in S1, S2.
    destruct (IH _ (S k) Hd2 S2 ltac:(lia)) as (store & A & B & C).
    exists store; cbn [Invoice.save_all]; rewrite S1; split; [exact A |].
    split.
    + rewrite B; f_equal; cbn [List.length]; lia.
    + rewrite C, map_app, <- app_assoc; reflexivity.
Qed.
End Saving.

(** ** Invoice numbers of one year *)

(** X11. While the counter fits its four digits the numbering is
    sequential: on a table with no invoice of the year, at most [9999]
    drafts saved one after the other receive [INV{year}0001],
    [INV{year}0002], ... in the order of their creation. *)
Lemma invoice_numbers_sequential year objects drafts :
  Forall (fun d => Invoice.invoice_number d = "") drafts ->
  year_numbers year objects = [] ->
  Z.of_nat (List.length drafts) <= 9999 ->
  exists store,
    Invoice.save_all year objects drafts = inr store /\
    map Invoice.invoice_number store
    = (map Invoice.invoice_number objects
       ++ numbers_upto year (List.length drafts))%list.
Proof.
  intros Hd E H.
  destruct (save_all_numbers year drafts objects 0 Hd E ltac:(lia))
    as (store & A & _ & C).
  exists store; split; [exact A | exact C].
Qed.

(** Two invoices created in 2024 on an empty table. *)
Lemma invoice_first_two :
  exists store,
    Invoice.save_all 2024 [] [draft; draft] = inr store /\
    map Invoice.invoice_number store = ["INV20240001"; "INV20240002"].
Proof. eexists; split; vm_compute; reflexivity. Qed.

(** With ten thousand numbers in the table the greatest in the order of
    strings is still the one with counter [9999]. *)
Lemma max_str_overflow year :
  max_str (numbers_upto year (Z.to_nat 10000))
  = Some (number_of year 9999).
Proof.
  replace (Z.to_nat 10000) with (S (S (Z.to_nat 9998))) by lia.
  rewrite numbers_upto_S, numbers_upto_S, <- app_assoc.
  replace (Z.of_nat (S (Z.to_nat 9998))) with 9999 by lia.
  replace (Z.of_nat (S (S (Z.to_nat 9998)))) with 10000 by lia.
  apply max_str_peak.
  - intros y Hy; apply numbers_upto_In in Hy; destruct Hy as (j & Hj & ->).
    apply number_of_increasing; lia.
  - intros x [<- | []]; unfold number_of; rewrite string_ltb_app.
    apply format_04d_overflow.
Qed.

(** Once a year holds ten thousand invoices the generator hands out the
    number of the ten-thousandth again. *)
Lemma generate_overflow year objects :
  year_numbers year objects = numbers_upto year (Z.to_nat 10000) ->
  Invoice.generate_invoice_number year objects
  = Some (number_of year 10000) /\
  In (number_of year 10000) (year_numbers year objects).
Proof.
  intros E; split.
  - rewrite generate_by_numbers, E, max_str_overflow.
    rewrite int_suffix_number_of by lia; reflexivity.
  - rewrite E.
    replace 10000 with (Z.of_nat (Z.to_nat 10000)) at 1 by lia.
    apply numbers_upto_mem; lia.
Qed.

(** C7, at the input where the code leaves it: 2024 with ten thousand
    invoices created one after the other on an empty table. The creations
    succeed and number the invoices [INV20240001] to [INV20249999] and then
    [INV202410000]. For the next invoice the generator takes [INV20249999]
    for the highest number, that being the greatest string, and returns
    [INV202410000], which the table already holds and not the highest
    number plus one; the save is refused by the unique constraint. *)
Theorem invoice_number_repeats_after_9999 :
  exists store,
    Invoice.save_all 2024 [] (repeat draft (Z.to_nat 10000)) = inr store /\
    map Invoice.invoice_number store = numbers_upto 2024 (Z.to_nat 10000) /\
    number_of 2024 1 = "INV20240001" /\
    number_of 2024 9999 = "INV20249999" /\
    number_of 2024 10000 = "INV202410000" /\
    In "INV202410000" (map Invoice.invoice_number store) /\
    Invoice.generate_invoice_number 2024 store = Some "INV202410000" /\
    Invoice.save 2024 store draft = inl Invoice.IntegrityError.
Proof.
  assert (Hd : Forall (fun d => Invoice.invoice_number d = "")
                      (repeat draft (Z.to_nat 10000))).
  { apply Forall_forall; intros d Hd; apply repeat_spec in Hd; subst.
    reflexivity. }
  destruct (save_all_numbers 2024 _ [] 0 Hd eq_refl) as (store & A & B & C).
  { rewrite repeat_length; lia. }
  rewrite repeat_length in B, C; cbn [map app Nat.add] in B, C.
  change (map (fun j => number_of 2024 (Z.of_nat j)) (seq 1 (Z.to_nat 10000)))
    with (numbers_upto 2024 (Z.to_nat 10000)) in C.
  destruct (generate_overflow 2024 store B) as [G I].
  assert (N : number_of 2024 10000 = "INV202410000")
    by (vm_compute; reflexivity).
  rewrite N in G, I.
  exists store; split; [exact A |]; split; [exact C |].
  split; [vm_compute; reflexivity |].
  split; [vm_compute; reflexivity |].
  split; [exact N |].
  assert (I' : In "INV202410000" (map Invoice.invoice_number store)).
  { rewrite C, <- B; exact I. }
  split; [exact I' |]; split; [exact G |].
  unfold Invoice.save; cbn [draft Invoice.invoice_number String.eqb].
  rewrite G; cbn [option_map Invoice.set_invoice_number Invoice.invoice_number].
  replace (existsb _ store) with true; [reflexivity |].
  symmetry; apply existsb_exists.
  apply in_map_iff in I'; destruct I' as (i & Ei & Hi).
  exists i; split; [exact Hi |]; apply String.eqb_eq; exact Ei.
Qed.

(** * Further properties *)

(** ** More on querysets *)

Section QuerySetMore.
Context {Row : Type}.
Variable p : Row -> bool.

Lemma filter_update_nth f qs i :
  nth_error (fst (QuerySet.filter_update p f qs)) i
  = option_map (fun r => if p r then f r else r) (nth_error qs i).
Proof.
  unfold QuerySet.filter_update; cbn [fst]; apply nth_error_map.
Qed.

Lemma filter_update_none f qs :
  (forall r, In r qs -> p r = false) ->
  QuerySet.filter_update p f qs = (qs, 0%nat).
Proof.
  intros H; unfold QuerySet.filter_update; f_equal.
  - rewrite <- (map_id qs) at 2; apply map_ext_in.
    intros r Hr; rewrite (H r Hr); reflexivity.
  - induction qs as [|r qs' IH]; [reflexivity |].
    cbn [filter]; rewrite (H r (or_introl eq_refl)).
    apply IH; intros r' Hr'; apply H; right; exact Hr'.
Qed.

Lemma filter_update_all f qs :
  (forall r, In r qs -> p r = true) ->
  QuerySet.filter_update p f qs = (map f qs, List.length qs).
Proof.
  intros H; unfold QuerySet.filter_update; f_equal.
  - apply map_ext_in; intros r Hr; rewrite (H r Hr); reflexivity.
  - induction qs as [|r qs' IH]; [reflexivity |].
    cbn [filter]; rewrite (H r (or_introl eq_refl)); cbn [List.length].
    f_equal; apply IH; intros r' Hr'; apply H; right; exact Hr'.
Qed.

Lemma filter_update_In f qs r' :
  In r' (fst (QuerySet.filter_update p f qs)) ->
  exists r, In r qs /\ r' = if p r then f r else r.
Proof.
  unfold QuerySet.filter_update; cbn [fst]; rewrite in_map_iff.
  intros (r & E & Hr); exists r; split; [exact Hr | symmetry; exact E].
Qed.

(** When [f] takes every row out of the filter, a second run of the
    same update finds nothing to do. *)
Lemma filter_update_twice (f g : Row -> Row) qs :
  (forall r, p r = true -> p (f r) = false) ->
  QuerySet.filter_update p g (fst (QuerySet.filter_update p f qs))
  = (fst (QuerySet.filter_update p f qs), 0%nat).
Proof.
  intros H; apply filter_update_none.
  intros r' Hr'; apply filter_update_In in Hr'.
  destruct Hr' as (r & _ & ->).
  destruct (p r) eqn:E; [apply H; exact E | exact E].
Qed.

Lemma filter_update_count f qs :
  (snd (QuerySet.filter_update p f qs) <= List.length qs)%nat.
Proof. unfold QuerySet.filter_update; cbn [snd]; apply filter_length_le. Qed.
End QuerySetMore.

Lemma NoDup_snoc {A : Type} (l : list A) (a : A) :
  NoDup l -> ~ In a l -> NoDup (l ++ [a])%list.
Proof.
  induction 1 as [|x l Hx Hl IH]; intros Ha; cbn [app].
  - constructor; [intros [] | constructor].
  - constructor.
    + rewrite in_app_iff; intros [H | [H | []]]; [contradiction |].
      apply Ha; left; symmetry; exact H.
    + apply IH; intros H; apply Ha; right; exact H.
Qed.

(** ** Booking actions in sequence *)

Lemma guard_effect t now b :
  Bookings.guard t b = true -> Bookings.guard t (Bookings.effect t now b) = false.
Proof. destruct t; intros _; reflexivity. Qed.

(** X1. Each booking action is idempotent: run a second time on the rows
    it has just handled, at whatever time, it updates no row and leaves
    them all as they are. *)
Theorem booking_action_twice_updates_nothing
        (t : Bookings.transition) (now now' : Z) (qs : list Bookings.Booking) :
  Bookings.run t now' (fst (Bookings.run t now qs))
  = (fst (Bookings.run t now qs), 0%nat).
Proof.
  rewrite !run_filter_update.
  apply filter_update_twice; intros r; apply guard_effect.
Qed.

Lemma run_all_nth acts : forall qs i b,
  nth_error qs i = Some b ->
  exists b', nth_error (run_all acts qs) i = Some b'.
Proof.
  induction acts as [|[t now] acts IH]; intros qs i b Hi; [eauto |].
  cbn [run_all]; rewrite run_filter_update.
  eapply IH; rewrite filter_update_nth, Hi; reflexivity.
Qed.

(** X2. A booking in a terminal state is a fixed point of every sequence
    of admin actions: whatever actions are run, in whatever order and at
    whatever times, the booking keeps its place and all its fields. *)
Theorem booking_terminal_fixed_by_sequences
        (acts : list (Bookings.transition * Z)) :
  forall (qs : list Bookings.Booking) (i : nat) (b : Bookings.Booking),
    nth_error qs i = Some b ->
    Bookings.terminal (Bookings.status b) ->
    nth_error (run_all acts qs) i = Some b.
Proof.
  induction acts as [|[t now] acts IH]; intros qs i b Hi Hb; [exact Hi |].
  cbn [run_all]; apply IH; [| exact Hb].
  rewrite run_filter_update.
  apply filter_update_nth_skip; [exact Hi | apply guard_terminal; exact Hb].
Qed.

Lemma booking_terminal_fixed_by_sequences_witness :
  nth_error
    (run_all [(Bookings.Confirm, Samples.now_sample);
              (Bookings.Cancel, Samples.now_sample);
              (Bookings.Start, Samples.now_sample)]
             [Samples.pending_booking; Samples.completed_booking]) 1
  = Some Samples.completed_booking.
Proof.
  apply booking_terminal_fixed_by_sequences; [reflexivity |].
  left; reflexivity.
Defined.

(** One action either leaves a row alone or moves it strictly forward,
    to one of the four statuses the actions write. *)
Lemma effect_moves_forward t now b :
  Bookings.guard t b = true ->
  stage (Bookings.status b) < stage (Bookings.status (Bookings.effect t now b))
  /\ In (Bookings.status (Bookings.effect t now b)) written_statuses.
Proof.
  destruct t; cbn [Bookings.guard Bookings.effect]; intros H.
  - apply String.eqb_eq in H; rewrite H; split; [vm_compute; reflexivity |].
    simpl; auto.
  - apply String.eqb_eq in H; rewrite H; split; [vm_compute; reflexivity |].
    simpl; auto.
  - apply String.eqb_eq in H; rewrite H; split; [vm_compute; reflexivity |].
    simpl; auto.
  - apply cancel_guard_iff in H; destruct H as [H | H]; rewrite H; split;
      try (vm_compute; reflexivity); simpl; auto 6.
Qed.

(** X3. Under any sequence of admin actions a booking is either left as
    it was or moved strictly forward in the order pending, confirmed,
    active, then completed or cancelled, and then carries one of the four
    statuses the actions write. So no sequence of actions produces
    [pending] or [no_show], and none takes a booking back. *)
Theorem booking_status_only_moves_forward
        (acts : list (Bookings.transition * Z)) :
  forall (qs : list Bookings.Booking) (i : nat) (b : Bookings.Booking),
    nth_error qs i = Some b ->
    exists b',
      nth_error (run_all acts qs) i = Some b' /\
      (b' = b \/
       (stage (Bookings.status b) < stage (Bookings.status b') /\
        In (Bookings.status b') written_statuses)) /\
      (Bookings.status b' = "no_show" -> b' = b) /\
      (Bookings.status b' = "pending" -> b' = b).
Proof.
  assert (Hcore : forall acts qs i b,
             nth_error qs i = Some b ->
             exists b',
               nth_error (run_all acts qs) i = Some b' /\
               (b' = b \/
                (stage (Bookings.status b) < stage (Bookings.status b') /\
                 In (Bookings.status b') written_statuses))).
  { clear acts; intros acts; induction acts as [|[t now] acts IH];
      intros qs i b Hi; [exists b; auto |].
    cbn [run_all]; rewrite run_filter_update.
    destruct (Bookings.guard t b) eqn:G.
    - destruct (IH _ i _ (filter_update_nth_hit _ (Bookings.effect t now)
                                               qs i b Hi G))
        as (b' & Hb' & Hrel).
      exists b'; split; [exact Hb' |]; right.
      pose proof (effect_moves_forward t now b G) as [Hlt Hin].
      destruct Hrel as [-> | [Hlt' Hin']]; [auto |].
      split; [lia | exact Hin'].
    - exact (IH _ i _ (filter_update_nth_skip _ (Bookings.effect t now)
                                              qs i b Hi G)). }
  intros qs i b Hi; destruct (Hcore acts qs i b Hi) as (b' & Hb' & Hrel).
  exists b'; split; [exact Hb' |]; split; [exact Hrel |].
  split; intros Hs; (destruct Hrel as [E | [_ Hin]]; [exact E |]);
    rewrite Hs in Hin; simpl in Hin;
    repeat (destruct Hin as [Hin | Hin]; try discriminate); contradiction.
Qed.

Lemma booking_status_only_moves_forward_witness :
  exists b',
    nth_error
      (run_all [(Bookings.Confirm, Samples.now_sample);
                (Bookings.Start, Samples.now_sample)]
               [Samples.pending_booking]) 0
    = Some b' /\
    (b' = Samples.pending_booking \/
     (stage (Bookings.status Samples.pending_booking)
      < stage (Bookings.status b') /\
      In (Bookings.status b') written_statuses)).
Proof.
  destruct (booking_status_only_moves_forward
              [(Bookings.Confirm, Samples.now_sample);
               (Bookings.Start, Samples.now_sample)]
              [Samples.pending_booking] 0 Samples.pending_booking eq_refl)
    as (b' & H1 & H2 & _).
  exists b'; split; assumption.
Defined.

(** The fields no booking action writes. *)
Lemma effect_untouched t now b :
  Bookings.confirmed_at (Bookings.effect t now b) = Bookings.confirmed_at b /\
  Bookings.actual_pickup_date (Bookings.effect t now b)
  = Bookings.actual_pickup_date b /\
  Bookings.actual_return_date (Bookings.effect t now b)
  = Bookings.actual_return_date b /\
  Bookings.payment_status (Bookings.effect t now b)
  = Bookings.payment_status b /\
  Bookings.cancellation_reason (Bookings.effect t now b)
  = Bookings.cancellation_reason b.
Proof. destruct t; repeat split. Qed.

Lemma run_all_map {B : Type} (g : Bookings.Booking -> B) acts :
  (forall t now b, g (Bookings.effect t now b) = g b) ->
  forall qs, map g (run_all acts qs) = map g qs.
Proof.
  intros Hg; induction acts as [|[t now] acts IH]; intros qs; [reflexivity |].
  cbn [run_all]; rewrite IH, run_filter_update.
  apply filter_update_map; intros r; apply Hg.
Qed.

(** X4. The admin actions stamp nothing but [cancelled_at]: after any
    sequence of them the [confirmed_at], [actual_pickup_date],
    [actual_return_date], [payment_status] and [cancellation_reason] of
    every row are what they were, so confirming does not record when,
    and starting or completing a rental records no actual date. *)
Theorem booking_actions_stamp_nothing_else
        (acts : list (Bookings.transition * Z)) (qs : list Bookings.Booking) :
  map Bookings.confirmed_at (run_all acts qs)
  = map Bookings.confirmed_at qs /\
  map Bookings.actual_pickup_date (run_all acts qs)
  = map Bookings.actual_pickup_date qs /\
  map Bookings.actual_return_date (run_all acts qs)
  = map Bookings.actual_return_date qs /\
  map Bookings.payment_status (run_all acts qs)
  = map Bookings.payment_status qs /\
  map Bookings.cancellation_reason (run_all acts qs)
  = map Bookings.cancellation_reason qs.
Proof.
  repeat split; apply run_all_map; intros t now b;
    apply (effect_untouched t now b).
Qed.

(** ** Overdue bookings *)

(** X5. An overdue booking (active, its return date behind the clock)
    cannot be cancelled: [can_be_cancelled] is false at any time and
    [cancel_bookings] leaves it alone; [complete_rentals] completes it,
    after which it is overdue no more. *)
Theorem booking_overdue_is_completed_not_cancelled
        (now now' : Z) (b : Bookings.Booking) :
  Bookings.is_overdue now b = true ->
  Bookings.can_be_cancelled now' b = false /\
  Bookings.cancel_bookings now' [b] = ([b], 0%nat) /\
  Bookings.complete_rentals [b]
  = ([Bookings.set_status "completed" b], 1%nat) /\
  Bookings.is_overdue now' (Bookings.set_status "completed" b) = false.
Proof.
  unfold Bookings.is_overdue; intros H.
  destruct (String.eqb (Bookings.status b) "active") eqn:E;
    [| discriminate].
  apply String.eqb_eq in E.
  assert (G : str_in (Bookings.status b) ["pending"; "confirmed"] = false)
    by (rewrite E; reflexivity).
  split; [unfold Bookings.can_be_cancelled; rewrite G; reflexivity |].
  split; [apply filter_update_singleton_skip; exact G |].
  split; [apply filter_update_singleton_hit; rewrite E; reflexivity |].
  reflexivity.
Qed.

(** An active booking returned a day ago. *)
Lemma booking_overdue_is_completed_not_cancelled_witness :
  let late := Bookings.set_status "active" Samples.stale_booking in
  Bookings.is_overdue Samples.now_sample late = true /\
  Bookings.cancel_bookings Samples.now_sample [late] = ([late], 0%nat).
Proof.
  split; [reflexivity |].
  apply (booking_overdue_is_completed_not_cancelled
           Samples.now_sample Samples.now_sample
           (Bookings.set_status "active" Samples.stale_booking)).
  reflexivity.
Defined.

(** ** The duration column and the billed days *)

(** X6. The duration the admin shows and the days that are billed differ
    by one on every rental of a whole day or more: [days_count] is
    [calculate_total_days + 1] there. They agree, on one day, for a rental
    shorter than 24 hours; and when the return date is before the pickup
    date [days_count] is zero or negative while one day is billed. *)
Theorem booking_days_count_vs_total_days (b : Bookings.Booking) :
  let diff := Bookings.return_date b - Bookings.pickup_date b in
  (Datetime.us_per_day <= diff ->
   BookingAdmin.days_count b = Bookings.calculate_total_days b + 1) /\
  (0 <= diff < Datetime.us_per_day ->
   BookingAdmin.days_count b = 1 /\ Bookings.calculate_total_days b = 1) /\
  (diff < 0 ->
   BookingAdmin.days_count b <= 0 /\ Bookings.calculate_total_days b = 1).
Proof.
  intros diff.
  assert (Hday : 0 < Datetime.us_per_day) by (vm_compute; reflexivity).
  unfold BookingAdmin.days_count, Bookings.calculate_total_days; cbv zeta.
  rewrite days_sub; fold diff.
  split; [| split]; intros H.
  - assert (1 <= diff / Datetime.us_per_day)
      by (apply Z.div_le_lower_bound; lia).
    lia.
  - rewrite Z.div_small by lia; split; reflexivity.
  - assert (diff / Datetime.us_per_day < 0)
      by (apply Z.div_lt_upper_bound; lia).
    lia.
Qed.

Lemma booking_days_count_vs_total_days_witness :
  BookingAdmin.days_count Samples.pending_booking = 4 /\
  Bookings.calculate_total_days Samples.pending_booking = 3.
Proof.
  assert (E : Bookings.calculate_total_days Samples.pending_booking = 3)
    by reflexivity.
  split; [| exact E].
  rewrite (proj1 (booking_days_count_vs_total_days Samples.pending_booking));
    [rewrite E; reflexivity | vm_compute; discriminate].
Defined.

(** ** Booking references *)

(** X7. [Booking.save] generates a reference only once: a booking that
    has one keeps it and is saved unchanged, a booking without one
    receives [BK], the date stamp and the random digits, and in both cases
    the saved booking has a reference, so that saving again, at another
    date or with another draw, changes nothing. *)
Theorem booking_save_keeps_reference
        (stamp suffix stamp' suffix' : string) (b : Bookings.Booking) :
  Bookings.booking_reference (Bookings.save stamp suffix b) <> "" /\
  (Bookings.booking_reference b <> "" -> Bookings.save stamp suffix b = b) /\
  (Bookings.booking_reference b = "" ->
   Bookings.booking_reference (Bookings.save stamp suffix b)
   = "BK" ++ stamp ++ suffix) /\
  Bookings.save stamp' suffix' (Bookings.save stamp suffix b)
  = Bookings.save stamp suffix b.
Proof.
  assert (Hne : Bookings.booking_reference (Bookings.save stamp suffix b)
                <> "").
  { unfold Bookings.save.
    destruct (String.eqb (Bookings.booking_reference b) "") eqn:E.
    - discriminate.
    - apply String.eqb_neq; exact E. }
  split; [exact Hne |]; split; [| split].
  - intros H; unfold Bookings.save.
    apply String.eqb_neq in H; rewrite H; reflexivity.
  - intros H; unfold Bookings.save; rewrite H; reflexivity.
  - apply String.eqb_neq in Hne.
    unfold Bookings.save at 1; rewrite Hne; reflexivity.
Qed.

Lemma booking_save_keeps_reference_witness :
  Bookings.booking_reference
    (Bookings.save "241001" "0042" Samples.unpriced_booking)
  = "BK2410010042".
Proof.
  apply (booking_save_keeps_reference
           "241001" "0042" "241002" "7777" Samples.unpriced_booking).
  reflexivity.
Defined.

(** ** Payment actions in sequence *)

Lemma payment_action_nth a qs i p :
  nth_error qs i = Some p ->
  exists p', nth_error (fst (run_payment_action a qs)) i = Some p' /\
             Payment.amount p' = Payment.amount p /\
             Payment.refund_amount p' = Payment.refund_amount p /\
             (p' = p \/
              (Payment.status p = "pending" /\
               Payment.status p' = "processing") \/
              (Payment.status p = "completed" /\
               Payment.status p' = "refunded") \/
              ((Payment.status p = "pending"
                \/ Payment.status p = "processing") /\
               Payment.status p' = "failed")).
Proof.
  intros Hi; destruct a as [now | |]; cbn [run_payment_action].
  - unfold Payment.process_payments; rewrite filter_update_nth, Hi.
    cbn [option_map].
    destruct (String.eqb (Payment.status p) "pending") eqn:E;
      eexists; split; try reflexivity; repeat split; auto.
    apply String.eqb_eq in E; right; left; auto.
  - unfold Payment.refund_payments; rewrite filter_update_nth, Hi.
    cbn [option_map].
    destruct (String.eqb (Payment.status p) "completed") eqn:E;
      eexists; split; try reflexivity; repeat split; auto.
    apply String.eqb_eq in E; right; right; left; auto.
  - unfold Payment.mark_failed; rewrite filter_update_nth, Hi.
    cbn [option_map].
    destruct (str_in (Payment.status p) ["pending"; "processing"]) eqn:E;
      eexists; split; try reflexivity; repeat split; auto.
    apply str_in_In in E; simpl in E.
    right; right; right; split; [| reflexivity].
    destruct E as [E | [E | []]]; auto.
Qed.

(** X8. No admin action completes a payment, and so none can refund a
    payment that was not already completed: under any sequence of
    [process_payments], [refund_payments] and [mark_failed], a payment
    whose status is not [completed] never becomes [completed], and is
    [refunded] at the end only if it was so from the start. *)
Theorem payment_actions_never_complete (acts : list payment_action) :
  forall (qs : list Payment.Payment) (i : nat) (p : Payment.Payment),
    nth_error qs i = Some p ->
    Payment.status p <> "completed" ->
    exists p',
      nth_error (run_payment_actions acts qs) i = Some p' /\
      Payment.status p' <> "completed" /\
      (Payment.status p' = "refunded" -> Payment.status p = "refunded") /\
      Payment.amount p' = Payment.amount p /\
      Payment.refund_amount p' = Payment.refund_amount p.
Proof.
  induction acts as [|a acts IH]; intros qs i p Hi Hp.
  - exists p; auto.
  - cbn [run_payment_actions].
    destruct (payment_action_nth a qs i p Hi) as (p1 & H1 & C & D & Hrel).
    assert (Hinv : Payment.status p1 <> "completed" /\
                   (Payment.status p1 = "refunded" ->
                    Payment.status p = "refunded")).
    { destruct Hrel as [-> | [[_ Hs] | [[Hc _] | [_ Hs]]]].
      - auto.
      - rewrite Hs; split; [discriminate | intros; discriminate].
      - contradiction.
      - rewrite Hs; split; [discriminate | intros; discriminate]. }
    destruct Hinv as (A & B).
    destruct (IH _ i p1 H1 A) as (p' & H' & A' & B' & C' & D').
    exists p'; split; [exact H' |]; split; [exact A' |].
    split; [intros Hs; auto |]; split; congruence.
Qed.

Lemma payment_actions_never_complete_witness :
  exists p',
    nth_error
      (run_payment_actions
         [Process Samples.now_sample; Refund; MarkFailed; Refund]
         [Payment.set_status "pending" Samples.settled_payment]) 0
    = Some p' /\
    Payment.status p' <> "completed".
Proof.
  destruct (payment_actions_never_complete
              [Process Samples.now_sample; Refund; MarkFailed; Refund]
              [Payment.set_status "pending" Samples.settled_payment] 0
              (Payment.set_status "pending" Samples.settled_payment)
              eq_refl)
    as (p' & H1 & H2 & _).
  - simpl; discriminate.
  - exists p'; split; assumption.
Defined.

(** X9. After [refund_payments] nothing in the queryset is refundable
    any more, and a second run of the action updates no row: a payment is
    not refunded twice. *)
Theorem payment_refunded_once (qs : list Payment.Payment) :
  Forall (fun p => Payment.is_refundable p = false)
         (fst (Payment.refund_payments qs)) /\
  Payment.refund_payments (fst (Payment.refund_payments qs))
  = (fst (Payment.refund_payments qs), 0%nat).
Proof.
  split.
  - apply Forall_forall; intros p' Hp'.
    unfold Payment.refund_payments in Hp'.
    apply filter_update_In in Hp'; destruct Hp' as (p & _ & ->).
    unfold Payment.is_refundable.
    destruct (String.eqb (Payment.status p) "completed") eqn:E.
    + reflexivity.
    + rewrite E; reflexivity.
  - unfold Payment.refund_payments.
    apply filter_update_twice; intros r _; reflexivity.
Qed.

(** ** Transaction ids *)

Lemma payment_save_id stamp suffix p :
  Payment.transaction_id
    (if String.eqb (Payment.transaction_id p) ""
     then PaymentSave.set_transaction_id
            (PaymentSave.generate_transaction_id stamp suffix) p
     else p)
  = if String.eqb (Payment.transaction_id p) ""
    then "TXN" ++ stamp ++ suffix else Payment.transaction_id p.
Proof. destruct (String.eqb _ _); reflexivity. Qed.

(** X10. Saving payments keeps their transaction ids distinct, and
    generates an id without retrying: a table with distinct ids still has
    distinct ids after a save that succeeds, the new row being the last
    one; and when two new payments are saved within the same minute and
    the random draw gives the same four digits, the second save fails on
    the unique constraint. *)
Theorem payment_save_ids_unique
        (stamp suffix : string) (objects objects' : list Payment.Payment)
        (p q : Payment.Payment) :
  PaymentSave.save stamp suffix objects p = Some objects' ->
  (NoDup (map Payment.transaction_id objects) ->
   NoDup (map Payment.transaction_id objects')) /\
  (exists p', objects' = (objects ++ [p'])%list /\
              Payment.amount p' = Payment.amount p /\
              Payment.status p' = Payment.status p) /\
  (Payment.transaction_id p = "" -> Payment.transaction_id q = "" ->
   PaymentSave.save stamp suffix objects' q = None).
Proof.
  unfold PaymentSave.save; cbv zeta.
  set (p' := if String.eqb (Payment.transaction_id p) "" then _ else p).
  destruct (existsb _ objects) eqn:X; [discriminate |].
  intros [= <-].
  assert (Hfresh : ~ In (Payment.transaction_id p')
                        (map Payment.transaction_id objects)).
  { intros Hin; apply in_map_iff in Hin; destruct Hin as (r & Er & Hr).
    assert (existsb (fun q0 => String.eqb (Payment.transaction_id q0)
                                          (Payment.transaction_id p'))
                    objects = true).
    { apply existsb_exists; exists r; split; [exact Hr |].
      apply String.eqb_eq; exact Er. }
    congruence. }
  split; [| split].
  - intros Hnd; rewrite map_app; cbn [map].
    apply NoDup_snoc; assumption.
  - exists p'; split; [reflexivity |].
    unfold p'; destruct (String.eqb _ _); split; reflexivity.
  - intros Hp Hq; rewrite Hq; cbn [String.eqb].
    replace (existsb _ (objects ++ [p'])%list) with true; [reflexivity |].
    symmetry; apply existsb_exists; exists p'; split.
    + apply in_or_app; right; left; reflexivity.
    + unfold p'; rewrite Hp; cbn [String.eqb]; apply String.eqb_refl.
Qed.

Lemma payment_save_ids_unique_witness :
  let fresh := PaymentSave.set_transaction_id "" Samples.settled_payment in
  exists objects',
    PaymentSave.save "2410011200" "0042" [] fresh = Some objects' /\
    PaymentSave.save "2410011200" "0042" objects' fresh = None.
Proof.
  eexists; split; [reflexivity |].
  apply (payment_save_ids_unique
           "2410011200" "0042" [] _
           (PaymentSave.set_transaction_id "" Samples.settled_payment)
           (PaymentSave.set_transaction_id "" Samples.settled_payment)
           eq_refl); reflexivity.
Defined.

(** ** Invoice numbers across years *)

Lemma invoice_numbers_sequential_witness :
  exists store,
    Invoice.save_all 2024 [] [draft; draft] = inr store /\
    map Invoice.invoice_number store = numbers_upto 2024 2.
Proof.
  apply (invoice_numbers_sequential 2024 [] [draft; draft]).
  - repeat constructor.
  - reflexivity.
  - simpl; lia.
Defined.

Lemma year_table : forallb year_ok (count_up (Z.to_nat 9000) 1000) = true.
Proof. vm_compute; reflexivity. Qed.

Lemma format_d_year y :
  1000 <= y <= 9999 -> Py.format_d y = Py.format_04d y.
Proof.
  intros H; pose proof year_table as T; rewrite forallb_forall in T.
  apply String.eqb_eq, T, count_up_In; lia.
Qed.

Lemma prefix_same_length a : forall b c,
  String.length a = String.length b ->
  String.prefix a (b ++ c) = true -> a = b.
Proof.
  induction a as [|x a IH]; intros [|y b] c; simpl; try discriminate; auto.
  intros [= L]; destruct (ascii_dec x y) as [-> | _]; [| discriminate].
  intros H; f_equal; eapply IH; eassumption.
Qed.

(** The prefix of one four-digit year matches no number of another. *)
Lemma year_prefix_apart year y k :
  1000 <= year <= 9999 -> 1000 <= y <= 9999 ->
  String.prefix (year_prefix year) (number_of y k) = true -> year = y.
Proof.
  intros Hy Hy' H; unfold number_of, year_prefix in H.
  change (("INV" ++ Py.format_d y) ++ Py.format_04d k)
    with ("INV" ++ (Py.format_d y ++ Py.format_04d k)) in H.
  assert (P : String.prefix (Py.format_d year)
                            (Py.format_d y ++ Py.format_04d k) = true).
  { cbn in H.
    repeat match type of H with
           | (match ascii_dec ?a ?a with _ => _ end) = true =>
               destruct (ascii_dec a a); [| congruence]
           end.
    exact H. }
  apply prefix_same_length in P.
  - rewrite !format_d_year in P by assumption.
    pose proof (int_format_04d year ltac:(lia)) as I.
    rewrite P, int_format_04d in I by lia; congruence.
  - rewrite !format_d_year by assumption.
    rewrite !format_04d_length by lia; reflexivity.
Qed.

Lemma year_numbers_other_years year objects :
  1000 <= year <= 9999 ->
  Forall (of_other_years year) objects ->
  year_numbers year objects = [].
Proof.
  intros Hy H; unfold year_numbers.
  induction H as [|i objects (y & k & Hy' & Hne & E) _ IH];
    [reflexivity |].
  cbn [filter].
  destruct (String.prefix _ _) eqn:P; [| exact IH].
  rewrite E in P; apply year_prefix_apart in P; [congruence | |];
    assumption.
Qed.

(** X12. The numbering starts again each year: on a table that holds
    only invoices numbered in other years, however many, the first
    invoice of the year receives [INV{year}0001] and the ones after it
    follow in sequence, up to 9999 of them. *)
Theorem invoice_numbering_restarts_each_year
        (year : Z) (objects drafts : list Invoice.Invoice) :
  1000 <= year <= 9999 ->
  Forall (of_other_years year) objects ->
  Forall (fun d => Invoice.invoice_number d = "") drafts ->
  Z.of_nat (List.length drafts) <= 9999 ->
  Invoice.generate_invoice_number year objects
  = Some ("INV" ++ Py.format_d year ++ "0001") /\
  exists store,
    Invoice.save_all year objects drafts = inr store /\
    map Invoice.invoice_number store
    = (map Invoice.invoice_number objects
       ++ numbers_upto year (List.length drafts))%list.
Proof.
  intros Hy Ho Hd Hn.
  pose proof (year_numbers_other_years year objects Hy Ho) as E.
  split.
  - rewrite generate_by_numbers, E; reflexivity.
  - destruct (save_all_numbers year drafts objects 0 Hd E ltac:(lia))
      as (store & A & _ & C).
    exists store; split; [exact A | exact C].
Qed.

Lemma invoice_numbering_restarts_each_year_witness :
  Invoice.generate_invoice_number
    2025 [Invoice.set_invoice_number "INV20240001" draft;
          Invoice.set_invoice_number "INV20240002" draft]
  = Some "INV20250001".
Proof.
  apply (invoice_numbering_restarts_each_year
           2025 [Invoice.set_invoice_number "INV20240001" draft;
                 Invoice.set_invoice_number "INV20240002" draft]
           [draft]).
  - lia.
  - repeat constructor.
    + exists 2024, 1; repeat split; try lia; discriminate.
    + exists 2024, 2; repeat split; try lia; discriminate.
  - repeat constructor.
  - simpl; lia.
Defined.

(** X13. Saving an invoice keeps the numbers of the table distinct and
    touches no existing row: after a save that succeeds the table is the
    old one with the new invoice at its end, under a number no other row
    carries. *)
Theorem invoice_save_keeps_numbers_unique
        (year : Z) (objects objects' : list Invoice.Invoice)
        (i : Invoice.Invoice) :
  Invoice.save year objects i = inr objects' ->
  (exists i', objects' = (objects ++ [i'])%list /\
              ~ In (Invoice.invoice_number i')
                   (map Invoice.invoice_number objects) /\
              Invoice.total_amount i' = Invoice.total_amount i /\
              (Invoice.invoice_number i <> "" -> i' = i)) /\
  (NoDup (map Invoice.invoice_number objects) ->
   NoDup (map Invoice.invoice_number objects')).
Proof.
  unfold Invoice.save; cbv zeta.
  set (numbered := if String.eqb (Invoice.invoice_number i) "" then _ else _).
  destruct numbered as [i'|] eqn:N; [| discriminate].
  destruct (existsb _ objects) eqn:X; [discriminate |].
  intros [= <-].
  assert (Hfresh : ~ In (Invoice.invoice_number i')
                        (map Invoice.invoice_number objects)).
  { intros Hin; apply in_map_iff in Hin; destruct Hin as (r & Er & Hr).
    assert (existsb (fun j => String.eqb (Invoice.invoice_number j)
                                         (Invoice.invoice_number i'))
                    objects = true).
    { apply existsb_exists; exists r; split; [exact Hr |].
      apply String.eqb_eq; exact Er. }
    congruence. }
  split.
  - exists i'; split; [reflexivity |]; split; [exact Hfresh |].
    unfold numbered in N.
    destruct (String.eqb (Invoice.invoice_number i) "") eqn:E.
    + destruct (Invoice.generate_invoice_number year objects);
        [| discriminate].
      injection N as <-; split; [reflexivity |].
      apply String.eqb_eq in E; intros Hne; contradiction.
    + injection N as <-; auto.
  - intros Hnd; rewrite map_app; cbn [map].
    apply NoDup_snoc; assumption.
Qed.

Lemma invoice_save_keeps_numbers_unique_witness :
  NoDup (map Invoice.invoice_number
             [Invoice.set_invoice_number "INV20240001" draft;
              Invoice.set_invoice_number "INV20240002" draft]).
Proof.
  apply (invoice_save_keeps_numbers_unique
           2024 [Invoice.set_invoice_number "INV20240001" draft]
           [Invoice.set_invoice_number "INV20240001" draft;
            Invoice.set_invoice_number "INV20240002" draft]
           draft).
  - vm_compute; reflexivity.
  - repeat constructor; intros [].
Defined.

(** ** Overdue and paid invoices *)

Lemma mark_overdue_nth today qs i inv :
  nth_error qs i = Some inv ->
  nth_error (fst (InvoiceAdmin.mark_overdue today qs)) i
  = Some (if (Invoice.due_date inv <? today)
             && negb (String.eqb (Invoice.status inv) "paid")
          then InvoiceAdmin.set_status "overdue" inv else inv).
Proof.
  intros Hi; unfold InvoiceAdmin.mark_overdue.
  rewrite filter_update_nth, Hi; reflexivity.
Qed.

(** X14. [mark_overdue] marks every invoice that [is_overdue] holds for,
    and one kind more: a cancelled invoice past its due date, which
    [is_overdue] excludes, is marked overdue as well. An invoice that is
    paid, or not yet past its due date, is left as it is. *)
Theorem invoice_mark_overdue_reaches_cancelled
        (today : Z) (qs : list Invoice.Invoice) (i : nat)
        (inv : Invoice.Invoice) :
  nth_error qs i = Some inv ->
  (Invoice.is_overdue today inv = true ->
   nth_error (fst (InvoiceAdmin.mark_overdue today qs)) i
   = Some (InvoiceAdmin.set_status "overdue" inv)) /\
  (Invoice.status inv = "cancelled" -> Invoice.due_date inv < today ->
   Invoice.is_overdue today inv = false /\
   nth_error (fst (InvoiceAdmin.mark_overdue today qs)) i
   = Some (InvoiceAdmin.set_status "overdue" inv)) /\
  (Invoice.status inv = "paid" \/ today <= Invoice.due_date inv ->
   Invoice.is_overdue today inv = false /\
   nth_error (fst (InvoiceAdmin.mark_overdue today qs)) i = Some inv).
Proof.
  intros Hi; rewrite (mark_overdue_nth today qs i inv Hi).
  unfold Invoice.is_overdue; split; [| split].
  - intros H; apply andb_true_iff in H; destruct H as [Hd Hs]; rewrite Hd.
    destruct (String.eqb (Invoice.status inv) "paid") eqn:E;
      [| reflexivity].
    apply String.eqb_eq in E; rewrite E in Hs; discriminate.
  - intros Hs Hd; rewrite Hs.
    apply Z.ltb_lt in Hd; rewrite Hd; split; reflexivity.
  - intros [Hs | Hd].
    + rewrite Hs; split; [apply andb_false_r |].
      rewrite andb_false_r; reflexivity.
    + assert (E : (Invoice.due_date inv <? today) = false)
        by (apply Z.ltb_ge; exact Hd).
      rewrite E; split; reflexivity.
Qed.

Lemma invoice_mark_overdue_reaches_cancelled_witness :
  Invoice.is_overdue Samples.today_sample Samples.cancelled_invoice = false /\
  nth_error (fst (InvoiceAdmin.mark_overdue
                    Samples.today_sample
                    [Samples.late_invoice; Samples.cancelled_invoice])) 1
  = Some (InvoiceAdmin.set_status "overdue" Samples.cancelled_invoice).
Proof.
  apply (invoice_mark_overdue_reaches_cancelled
           Samples.today_sample
           [Samples.late_invoice; Samples.cancelled_invoice] 1
           Samples.cancelled_invoice eq_refl).
  - reflexivity.
  - vm_compute; reflexivity.
Defined.

(** X15. [mark_paid] sets every selected invoice to [paid], whatever its
    status was, and records no payment: [paid_amount] and the balance due
    of each invoice are what they were. Once marked, no invoice of the
    queryset is overdue and [mark_overdue] finds nothing to mark. *)
Theorem invoice_mark_paid_keeps_balance
        (today : Z) (qs : list Invoice.Invoice) :
  let paid := fst (InvoiceAdmin.mark_paid qs) in
  snd (InvoiceAdmin.mark_paid qs) = List.length qs /\
  Forall (fun i => Invoice.status i = "paid") paid /\
  map Invoice.get_balance_due paid = map Invoice.get_balance_due qs /\
  map Invoice.paid_amount paid = map Invoice.paid_amount qs /\
  Forall (fun i => Invoice.is_overdue today i = false) paid /\
  InvoiceAdmin.mark_overdue today paid = (paid, 0%nat).
Proof.
  cbv zeta; unfold InvoiceAdmin.mark_paid.
  rewrite filter_update_all by reflexivity; cbn [fst snd].
  split; [reflexivity |]; split; [| split; [| split; [| split]]].
  - apply Forall_forall; intros i Hi; apply in_map_iff in Hi.
    destruct Hi as (j & <- & _); reflexivity.
  - rewrite map_map; reflexivity.
  - rewrite map_map; reflexivity.
  - apply Forall_forall; intros i Hi; apply in_map_iff in Hi.
    destruct Hi as (j & <- & _).
    unfold Invoice.is_overdue; cbn; apply andb_false_r.
  - unfold InvoiceAdmin.mark_overdue; apply filter_update_none.
    intros i Hi; apply in_map_iff in Hi; destruct Hi as (j & <- & _).
    cbn; apply andb_false_r.
Qed.

(** X16. The status column agrees with [mark_overdue]: it shows an
    invoice as overdue exactly when the action would mark it, a cancelled
    invoice included, and then by the number of days since the due date,
    at least one. *)
Theorem invoice_overdue_badge_matches_action
        (today : Z) (inv : Invoice.Invoice) :
  ((exists d, InvoiceAdmin.overdue_status today inv
              = InvoiceAdmin.DaysOverdue d)
   <-> InvoiceAdmin.mark_overdue today [inv]
       = ([InvoiceAdmin.set_status "overdue" inv], 1%nat)) /\
  (forall d, InvoiceAdmin.overdue_status today inv
             = InvoiceAdmin.DaysOverdue d ->
             d = today - Invoice.due_date inv /\ 1 <= d) /\
  (InvoiceAdmin.overdue_status today inv = InvoiceAdmin.Current
   <-> InvoiceAdmin.mark_overdue today [inv] = ([inv], 0%nat)).
Proof.
  unfold InvoiceAdmin.overdue_status, InvoiceAdmin.mark_overdue,
    QuerySet.filter_update; cbn [map filter].
  rewrite andb_comm.
  destruct (String.eqb (Invoice.status inv) "paid"); cbn [negb andb].
  - split; [| split].
    + split; [intros (d & H); discriminate | intros H; discriminate].
    + intros d H; discriminate.
    + split; reflexivity.
  - destruct (Invoice.due_date inv <? today) eqn:E; cbn [List.length].
    + apply Z.ltb_lt in E; split; [| split].
      * split; [reflexivity | eauto].
      * intros d [= <-]; split; [reflexivity | lia].
      * split; intros H; discriminate.
    + split; [| split].
      * split; [intros (d & H); discriminate | intros H; discriminate].
      * intros d H; discriminate.
      * split; reflexivity.
Qed.

Lemma invoice_overdue_badge_matches_action_witness :
  InvoiceAdmin.overdue_status Samples.today_sample Samples.cancelled_invoice
  = InvoiceAdmin.DaysOverdue 10 /\
  10 = Samples.today_sample - Invoice.due_date Samples.cancelled_invoice.
Proof.
  assert (H : InvoiceAdmin.overdue_status Samples.today_sample
                                          Samples.cancelled_invoice
              = InvoiceAdmin.DaysOverdue 10) by reflexivity.
  split; [exact H |].
  apply (proj1 (proj2 (invoice_overdue_badge_matches_action
                         Samples.today_sample Samples.cancelled_invoice))
               10 H).
Defined.

(** ** Receipt numbers *)

Section Receipts.
Variable stamp : string.

Lemma receipt_number_prefix k :
  String.prefix ("RCP" ++ stamp) (receipt_number_of stamp k) = true.
Proof.
  unfold receipt_number_of.
  change ("RCP" ++ stamp ++ Py.format_04d k)
    with (("RCP" ++ stamp) ++ Py.format_04d k).
  apply prefix_app.
Qed.

Lemma receipt_number_inj j k :
  0 <= j <= 9999 -> 0 <= k <= 9999 ->
  receipt_number_of stamp j = receipt_number_of stamp k -> j = k.
Proof.
  unfold receipt_number_of; intros Hj Hk E.
  change ("RCP" ++ stamp ++ Py.format_04d j)
    with (("RCP" ++ stamp) ++ Py.format_04d j) in E.
  change ("RCP" ++ stamp ++ Py.format_04d k)
    with (("RCP" ++ stamp) ++ Py.format_04d k) in E.
  apply string_app_inv_head in E.
  pose proof (int_format_04d j Hj) as Ej; rewrite E in Ej.
  rewrite (int_format_04d k Hk) in Ej; congruence.
Qed.

Lemma receipt_numbers_upto_S k :
  receipt_numbers_upto stamp (S k)
  = (receipt_numbers_upto stamp k
     ++ [receipt_number_of stamp (Z.of_nat (S k))])%list.
Proof. unfold receipt_numbers_upto; rewrite seq_S, map_app; reflexivity. Qed.

Lemma receipt_numbers_upto_In s k :
  In s (receipt_numbers_upto stamp k) <->
  exists j, 1 <= j <= Z.of_nat k /\ s = receipt_number_of stamp j.
Proof.
  unfold receipt_numbers_upto; rewrite in_map_iff; split.
  - intros (j & <- & Hj); apply in_seq in Hj.
    exists (Z.of_nat j); split; [lia | reflexivity].
  - intros (j & Hj & ->); exists (Z.to_nat j); split.
    + f_equal; lia.
    + apply in_seq; lia.
Qed.

Lemma receipt_numbers_upto_length k :
  List.length (receipt_numbers_upto stamp k) = k.
Proof. unfold receipt_numbers_upto; rewrite length_map, length_seq; reflexivity. Qed.

Lemma receipt_numbers_upto_NoDup k :
  Z.of_nat k <= 9999 -> NoDup (receipt_numbers_upto stamp k).
Proof.
  induction k as [|k IH]; intros H; [constructor |].
  rewrite receipt_numbers_upto_S; apply NoDup_snoc; [apply IH; lia |].
  intros Hin; apply receipt_numbers_upto_In in Hin.
  destruct Hin as (j & Hj & E).
  apply receipt_number_inj in E; lia.
Qed.

Lemma day_receipts_count objects k :
  map Receipt.receipt_number (day_receipts stamp objects)
  = receipt_numbers_upto stamp k ->
  Receipt.generate_receipt_number stamp objects
  = receipt_number_of stamp (Z.of_nat k + 1).
Proof.
  intros E; unfold Receipt.generate_receipt_number; cbv zeta.
  fold (day_receipts stamp objects).
  rewrite <- (length_map Receipt.receipt_number), E.
  rewrite receipt_numbers_upto_length; reflexivity.
Qed.

Lemma day_receipts_In objects r :
  In r objects ->
  String.prefix ("RCP" ++ stamp) (Receipt.receipt_number r) = true ->
  In (Receipt.receipt_number r)
     (map Receipt.receipt_number (day_receipts stamp objects)).
Proof.
  intros Hr Hp; apply in_map, filter_In; split; assumption.
Qed.

Lemma existsb_number objects n :
  existsb (fun q => String.eqb (Receipt.receipt_number q) n) objects = true
  <-> In n (map Receipt.receipt_number objects).
Proof.
  rewrite existsb_exists, in_map_iff; split.
  - intros (q & Hq & E); apply String.eqb_eq in E; eauto.
  - intros (q & E & Hq); exists q; split; [exact Hq |].
    apply String.eqb_eq; exact E.
Qed.

Lemma existsb_payment objects n :
  existsb (fun q => String.eqb (Receipt.payment q) n) objects = true
  <-> In n (map Receipt.payment objects).
Proof.
  rewrite existsb_exists, in_map_iff; split.
  - intros (q & Hq & E); apply String.eqb_eq in E; eauto.
  - intros (q & E & Hq); exists q; split; [exact Hq |].
    apply String.eqb_eq; exact E.
Qed.

(** One save on a table whose receipts of the day are numbered [1] to
    [k], for a payment that has no receipt yet. *)
Lemma receipt_save_next objects k d :
  Receipt.receipt_number d = "" ->
  map Receipt.receipt_number (day_receipts stamp objects)
  = receipt_numbers_upto stamp k ->
  Z.of_nat k < 9999 ->
  ~ In (Receipt.payment d) (map Receipt.payment objects) ->
  let d' := Receipt.set_receipt_number
              (receipt_number_of stamp (Z.of_nat (S k))) d in
  Receipt.save stamp objects d = Some (objects ++ [d'])%list /\
  map Receipt.receipt_number (day_receipts stamp (objects ++ [d'])%list)
  = receipt_numbers_upto stamp (S k).
Proof.
  intros Hd E Hk Hpay d'.
  assert (Hnum : receipt_number_of stamp (Z.of_nat k + 1)
                 = receipt_number_of stamp (Z.of_nat (S k)))
    by (f_equal; lia).
  split.
  - unfold Receipt.save; rewrite Hd; cbn [String.eqb].
    rewrite (day_receipts_count objects k E), Hnum.
    cbn [Receipt.set_receipt_number Receipt.receipt_number Receipt.payment].
    destruct (existsb (fun q => String.eqb (Receipt.receipt_number q) _)
                      objects) eqn:X.
    + exfalso; apply existsb_exists in X; destruct X as (q & Hq & Eq).
      apply String.eqb_eq in Eq.
      assert (Hin : In (Receipt.receipt_number q)
                       (receipt_numbers_upto stamp k)).
      { rewrite <- E; apply day_receipts_In; [exact Hq |].
        rewrite Eq; apply receipt_number_prefix. }
      apply receipt_numbers_upto_In in Hin; destruct Hin as (j & Hj & Ej).
      rewrite Eq in Ej; apply receipt_number_inj in Ej; lia.
    + destruct (existsb (fun q => String.eqb (Receipt.payment q) _)
                        objects) eqn:Y; [| reflexivity].
      apply existsb_payment in Y; contradiction.
  - unfold day_receipts; rewrite filter_app, map_app; fold (day_receipts stamp objects).
    cbn [filter]; unfold d' at 1.
    cbn [Receipt.set_receipt_number Receipt.receipt_number].
    rewrite receipt_number_prefix, E, receipt_numbers_upto_S; reflexivity.
Qed.

Lemma receipt_save_all_numbers drafts : forall objects k,
  Forall (fun d => Receipt.receipt_number d = "") drafts ->
  map Receipt.receipt_number (day_receipts stamp objects)
  = receipt_numbers_upto stamp k ->
  Z.of_nat k + Z.of_nat (List.length drafts) <= 9999 ->
  NoDup (map Receipt.payment (objects ++ drafts)%list) ->
  exists store,
    Receipt.save_all stamp objects drafts = Some store /\
    map Receipt.receipt_number (day_receipts stamp store)
    = receipt_numbers_upto stamp (k + List.length drafts) /\
    map Receipt.receipt_number store
    = (map Receipt.receipt_number objects
       ++ map (fun j => receipt_number_of stamp (Z.of_nat j))
              (seq (S k) (List.length drafts)))%list /\
    map Receipt.payment store = map Receipt.payment (objects ++ drafts)%list.
Proof.
  induction drafts as [|d drafts IH]; intros objects k Hd E H Hnd.
  - exists objects; simpl; rewrite Nat.add_0_r, !app_nil_r; auto.
  - inversion Hd as [|? ? Hd1 Hd2]; subst.
    cbn [List.length] in H.
    assert (Hpay : ~ In (Receipt.payment d) (map Receipt.payment objects)).
    { rewrite map_app in Hnd; cbn [map] in Hnd.
      apply NoDup_remove_2 in Hnd; intros Hin; apply Hnd.
      apply in_or_app; left; exact Hin. }
    destruct (receipt_save_next objects k d Hd1 E ltac:(lia) Hpay)
      as [S1 S2].
    cbv zeta in S1, S2.
    set (d' := Receipt.set_receipt_number
                 (receipt_number_of stamp (Z.of_nat (S k))) d) in *.
    assert (Hnd' : NoDup (map Receipt.payment
                              ((objects ++ [d']) ++ drafts)%list)).
    { rewrite <- app_assoc; cbn [app].
      rewrite map_app; cbn [map]; rewrite map_app in Hnd; exact Hnd. }
    destruct (IH _ (S k) Hd2 S2 ltac:(lia) Hnd') as (store & A & B & C & D).
    exists store; cbn [Receipt.save_all]; rewrite S1; split; [exact A |].
    split; [| split].
    + rewrite B; f_equal; cbn [List.length]; lia.
    + rewrite C, map_app, <- app_assoc; reflexivity.
    + rewrite D, <- app_assoc; cbn [app]; rewrite !map_app; reflexivity.
Qed.
End Receipts.

(** X17. Receipts created one after the other on a day without receipts
    yet, each for a payment of its own, receive [RCP], the day stamp and
    the counters [0001], [0002], ... in the order of their creation, up
    to 9999 of them. *)
Theorem receipt_numbers_sequential
        (stamp : string) (objects drafts : list Receipt.Receipt) :
  Forall (fun d => Receipt.receipt_number d = "") drafts ->
  day_receipts stamp objects = [] ->
  Z.of_nat (List.length drafts) <= 9999 ->
  NoDup (map Receipt.payment (objects ++ drafts)%list) ->
  exists store,
    Receipt.save_all stamp objects drafts = Some store /\
    map Receipt.receipt_number store
    = (map Receipt.receipt_number objects
       ++ receipt_numbers_upto stamp (List.length drafts))%list /\
    map Receipt.payment store = map Receipt.payment (objects ++ drafts)%list.
Proof.
  intros Hd E H Hnd.
  destruct (receipt_save_all_numbers stamp drafts objects 0 Hd) as
    (store & A & _ & C & D); [rewrite E; reflexivity | lia | exact Hnd |].
  exists store; split; [exact A |]; split; [exact C | exact D].
Qed.

Lemma receipt_numbers_sequential_witness :
  exists store,
    Receipt.save_all "241001" [] [Samples.receipt_a; Samples.receipt_b]
    = Some store /\
    map Receipt.receipt_number store = ["RCP2410010001"; "RCP2410010002"].
Proof.
  destruct (receipt_numbers_sequential
              "241001" [] [Samples.receipt_a; Samples.receipt_b])
    as (store & A & B & _).
  - repeat constructor.
  - reflexivity.
  - simpl; lia.
  - repeat constructor; simpl; intuition discriminate.
  - exists store; split; [exact A | exact B].
Defined.

Lemma filter_out_absent (x : string) l :
  ~ In x l -> filter (fun y => negb (String.eqb y x)) l = l.
Proof.
  induction l as [|y l IH]; intros H; [reflexivity |].
  cbn [filter].
  destruct (String.eqb y x) eqn:E.
  - apply String.eqb_eq in E; exfalso; apply H; left; exact E.
  - cbn [negb]; f_equal; apply IH; intros Hin; apply H; right; exact Hin.
Qed.

Lemma filter_out_length (x : string) l :
  NoDup l -> In x l ->
  S (List.length (filter (fun y => negb (String.eqb y x)) l)) = List.length l.
Proof.
  induction 1 as [|y l Hy Hl IH]; intros Hin; [destruct Hin |].
  cbn [filter List.length].
  destruct (String.eqb y x) eqn:E; cbn [negb].
  - apply String.eqb_eq in E; subst y.
    rewrite filter_out_absent by exact Hy; reflexivity.
  - cbn [List.length]; f_equal; apply IH.
    destruct Hin as [Hin | Hin]; [| exact Hin].
    apply String.eqb_neq in E; contradiction.
Qed.

Lemma day_receipts_delete stamp x objects :
  map Receipt.receipt_number (day_receipts stamp (Receipt.delete x objects))
  = filter (fun y => negb (String.eqb y x))
           (map Receipt.receipt_number (day_receipts stamp objects)).
Proof.
  unfold day_receipts, Receipt.delete.
  induction objects as [|r objects IH]; [reflexivity |].
  cbn [filter].
  destruct (String.eqb (Receipt.receipt_number r) x) eqn:E;
    destruct (String.prefix _ (Receipt.receipt_number r)) eqn:P;
    cbn [negb filter map]; rewrite ?P, ?E; cbn [negb map]; rewrite IH;
    reflexivity.
Qed.

(** X18. The receipt counter is a count of the day's rows, so deleting a
    receipt makes the generator hand out a number that is taken: on a day
    whose receipts are numbered [1] to [n], once any receipt but the last
    is deleted the next number generated is [n] again, which the table
    still holds, and every save of a new receipt fails on the unique
    constraint. *)
Theorem receipt_number_reused_after_delete
        (stamp : string) (objects : list Receipt.Receipt) (n : nat) (j : Z)
        (d : Receipt.Receipt) :
  map Receipt.receipt_number (day_receipts stamp objects)
  = receipt_numbers_upto stamp n ->
  Z.of_nat n <= 9999 ->
  1 <= j < Z.of_nat n ->
  Receipt.receipt_number d = "" ->
  let remaining := Receipt.delete (receipt_number_of stamp j) objects in
  Receipt.generate_receipt_number stamp remaining
  = receipt_number_of stamp (Z.of_nat n) /\
  In (receipt_number_of stamp (Z.of_nat n))
     (map Receipt.receipt_number remaining) /\
  Receipt.save stamp remaining d = None.
Proof.
  intros E Hn Hj Hd remaining.
  assert (Hgen : Receipt.generate_receipt_number stamp remaining
                 = receipt_number_of stamp (Z.of_nat n)).
  { unfold Receipt.generate_receipt_number; cbv zeta.
    fold (day_receipts stamp remaining).
    rewrite <- (length_map Receipt.receipt_number).
    unfold remaining; rewrite day_receipts_delete, E.
    pose proof (filter_out_length (receipt_number_of stamp j)
                  (receipt_numbers_upto stamp n)
                  (receipt_numbers_upto_NoDup stamp n Hn)) as L.
    rewrite receipt_numbers_upto_length in L.
    assert (Hin : In (receipt_number_of stamp j)
                     (receipt_numbers_upto stamp n))
      by (apply receipt_numbers_upto_In; exists j; split; [lia | reflexivity]).
    specialize (L Hin); unfold receipt_number_of.
    replace (Z.of_nat n) with
      (Z.of_nat (List.length
                   (filter (fun y => negb (String.eqb y (receipt_number_of stamp j)))
                           (receipt_numbers_upto stamp n))) + 1) by lia.
    reflexivity. }
  assert (Hheld : In (receipt_number_of stamp (Z.of_nat n))
                     (map Receipt.receipt_number remaining)).
  { assert (Hin : In (receipt_number_of stamp (Z.of_nat n))
                     (map Receipt.receipt_number
                          (day_receipts stamp objects))).
    { rewrite E; apply receipt_numbers_upto_In.
      exists (Z.of_nat n); split; [lia | reflexivity]. }
    apply in_map_iff in Hin; destruct Hin as (r & Er & Hr).
    apply filter_In in Hr; destruct Hr as [Hr _].
    apply in_map_iff; exists r; split; [exact Er |].
    unfold remaining, Receipt.delete; apply filter_In; split; [exact Hr |].
    rewrite Er; apply negb_true_iff, String.eqb_neq.
    intros Eq; apply receipt_number_inj in Eq; lia. }
  split; [exact Hgen |]; split; [exact Hheld |].
  unfold Receipt.save; rewrite Hd; cbn [String.eqb].
  cbn [Receipt.set_receipt_number Receipt.receipt_number].
  rewrite Hgen.
  apply (existsb_number remaining) in Hheld; rewrite Hheld; reflexivity.
Qed.

Lemma receipt_number_reused_after_delete_witness :
  exists store,
    Receipt.save_all
      "241001" [] [Samples.receipt_a; Samples.receipt_b] = Some store /\
    Receipt.save "241001" (Receipt.delete "RCP2410010001" store)
                 Samples.receipt_c = None.
Proof.
  eexists; split; [reflexivity |].
  apply (receipt_number_reused_after_delete
           "241001" _ 2 1 Samples.receipt_c); try reflexivity; lia.
Defined.

(** ** What logout does to the sessions and the blacklist *)

Section LogoutEffects.
Import Authentication.

Lemma deactivate_sessions_ok env u w :
  session_update_error env = None ->
  exists n,
    deactivate_sessions env u w
    = Returned n {| sessions := signed_out u (sessions w);
                    blacklisted := blacklisted w |}.
Proof.
  intros H; unfold deactivate_sessions; rewrite H.
  unfold QuerySet.filter_update; eexists; reflexivity.
Qed.

Lemma blacklist_refresh_token_sessions env tok w :
  match blacklist_refresh_token env tok w with
  | Returned _ w' | Raised _ w' => sessions w' = sessions w
  end.
Proof.
  unfold blacklist_refresh_token, bind, RefreshToken, blacklist, raise, ret.
  destruct (token_error env tok); [reflexivity |].
  destruct (blacklist_error env tok); reflexivity.
Qed.

Lemma signed_out_inactive u ss :
  Forall (fun s => user s = u -> is_active s = false) (signed_out u ss).
Proof.
  apply Forall_forall; intros s' Hs'; unfold signed_out in Hs'.
  apply in_map_iff in Hs'; destruct Hs' as (s & <- & _).
  destruct (String.eqb (user s) u) eqn:E; cbn [andb].
  - destruct (is_active s) eqn:A; [reflexivity | intros _; exact A].
  - apply String.eqb_neq in E; intros Hu; contradiction.
Qed.

(** X19. Whenever the session update itself does not fail, [post]
    leaves every session of the requesting user inactive and every
    session of any other user exactly as it was, whatever the body of
    the request holds and whatever the token collaborators do, also
    when the response is 'Logout failed'. *)
Theorem logout_deactivates_only_own_sessions
        (env : Env) (request : Request) (w : World) :
  session_update_error env = None ->
  exists r w',
    post env request w = Returned r w' /\
    sessions w' = signed_out (request_user request) (sessions w) /\
    Forall (fun s => user s = request_user request -> is_active s = false)
           (sessions w') /\
    (forall i s, nth_error (sessions w) i = Some s ->
                 user s <> request_user request ->
                 nth_error (sessions w') i = Some s).
Proof.
  intros H.
  destruct (deactivate_sessions_ok env (request_user request) w H)
    as (n & Hd).
  assert (Hall : exists r w',
             post env request w = Returned r w' /\
             sessions w' = signed_out (request_user request) (sessions w)).
  { rewrite post_outcome, Hd.
    destruct (request_data request) as [e | d]; [eauto |].
    cbv zeta; destruct (truthy (dict_get "refresh_token" d)); [| eauto].
    pose proof (blacklist_refresh_token_sessions
                  env (dict_get "refresh_token" d)
                  {| sessions := signed_out (request_user request)
                                            (sessions w);
                     blacklisted := blacklisted w |}) as S.
    destruct (blacklist_refresh_token env _ _); eauto. }
  destruct Hall as (r & w' & Hp & Hs).
  exists r, w'; split; [exact Hp |]; split; [exact Hs |].
  rewrite Hs; split; [apply signed_out_inactive |].
  intros i s Hi Hu; unfold signed_out; rewrite nth_error_map, Hi.
  cbn [option_map].
  apply String.eqb_neq in Hu; rewrite Hu; reflexivity.
Qed.

Lemma logout_deactivates_only_own_sessions_witness :
  exists r w',
    post Samples.failing_blacklist Samples.logout_request Samples.live_world
    = Returned r w' /\
    sessions w' = sessions Samples.signed_out_world.
Proof.
  destruct (logout_deactivates_only_own_sessions
              Samples.failing_blacklist Samples.logout_request
              Samples.live_world eq_refl)
    as (r & w' & H1 & H2 & _).
  exists r, w'; split; [exact H1 | exact H2].
Defined.

(** X20. [post] never lets an exception out: it always answers, with
    'Logout failed' (400) exactly when the session update fails or the
    body of the request cannot be read, and with 'Logout successful'
    (200) in every other case. *)
Theorem logout_fails_exactly_when
        (env : Env) (request : Request) (w : World) :
  exists r w',
    post env request w = Returned r w' /\
    (r = logout_failed
     <-> (exists e, session_update_error env = Some e)
         \/ (exists e, request_data request = inl e)) /\
    (r = logout_successful
     <-> session_update_error env = None
         /\ (exists d, request_data request = inr d)).
Proof.
  rewrite post_outcome.
  destruct (session_update_error env) as [e |] eqn:S.
  - unfold deactivate_sessions; rewrite S.
    exists logout_failed, w; split; [reflexivity |]; split.
    + split; eauto.
    + split; [discriminate | intros [H _]; discriminate].
  - destruct (deactivate_sessions_ok env (request_user request) w S)
      as (n & ->).
    destruct (request_data request) as [e | d].
    + eexists _, _; split; [reflexivity |]; split.
      * split; eauto.
      * split; [discriminate | intros [_ (d & H)]; discriminate].
    + assert (Hs : exists w',
                 (let refresh_token := dict_get "refresh_token" d in
                  if truthy refresh_token
                  then match blacklist_refresh_token env refresh_token
                               {| sessions := signed_out
                                                (request_user request)
                                                (sessions w);
                                  blacklisted := blacklisted w |} with
                       | Returned _ w2 | Raised _ w2 =>
                           Returned logout_successful w2
                       end
                  else Returned logout_successful
                         {| sessions := signed_out (request_user request)
                                                   (sessions w);
                            blacklisted := blacklisted w |})
                 = Returned logout_successful w').
      { cbv zeta; destruct (truthy _); [| eauto].
        destruct (blacklist_refresh_token env _ _); eauto. }
      destruct Hs as (w' & Hs); exists logout_successful, w'.
      split; [exact Hs |]; split.
      * split; [discriminate |].
        intros [(e & H) | (e & H)]; discriminate.
      * split; eauto.
Qed.

Lemma logout_fails_exactly_when_witness :
  exists w',
    post Samples.failing_blacklist
         {| request_user := "thandi";
            request_data := inl {| class_name := "ParseError" |} |}
         Samples.live_world
    = Returned logout_failed w'.
Proof.
  destruct (logout_fails_exactly_when
              Samples.failing_blacklist
              {| request_user := "thandi";
                 request_data := inl {| class_name := "ParseError" |} |}
              Samples.live_world)
    as (r & w' & H1 & H2 & _).
  exists w'; rewrite H1; f_equal.
  apply H2; right; eexists; reflexivity.
Defined.

(** X21. The refresh token ends up on the blacklist exactly when the
    request supplies a non-empty one and neither [RefreshToken(...)] nor
    [blacklist()] raises; in every other case the blacklist is left as
    it was, and the response is 'Logout successful' either way. *)
Theorem logout_blacklists_accepted_token
        (env : Env) (request : Request) (w : World)
        (d : list (string * pyval)) :
  session_update_error env = None ->
  request_data request = inr d ->
  let refresh_token := dict_get "refresh_token" d in
  exists w',
    post env request w = Returned logout_successful w' /\
    blacklisted w'
    = if truthy refresh_token
      then match token_error env refresh_token,
                 blacklist_error env refresh_token with
           | None, None => refresh_token :: blacklisted w
           | _, _ => blacklisted w
           end
      else blacklisted w.
Proof.
  intros S D refresh_token.
  destruct (deactivate_sessions_ok env (request_user request) w S)
    as (n & Hd).
  rewrite post_outcome, Hd, D; cbv zeta; fold refresh_token.
  destruct (truthy refresh_token); [| eauto].
  unfold blacklist_refresh_token, bind, RefreshToken, blacklist, raise, ret.
  destruct (token_error env refresh_token); [eauto |].
  destruct (blacklist_error env refresh_token); eauto.
Qed.

Lemma logout_blacklists_accepted_token_witness :
  exists w',
    post {| session_update_error := None;
            token_error := fun _ => None;
            blacklist_error := fun _ => None |}
         Samples.logout_request Samples.live_world
    = Returned logout_successful w' /\
    blacklisted w' = [PStr "eyJ0eXAiOiJKV1Qi"].
Proof.
  exact (logout_blacklists_accepted_token
           {| session_update_error := None;
              token_error := fun _ => None;
              blacklist_error := fun _ => None |}
           Samples.logout_request Samples.live_world
           [("refresh_token", PStr "eyJ0eXAiOiJKV1Qi")]
           eq_refl eq_refl).
Defined.
End LogoutEffects.

(** ** Availability checks and registration *)

Lemma existsb_username users name :
  existsb (fun u => String.eqb (Accounts.username u) name) users = true
  <-> In name (map Accounts.username users).
Proof.
  rewrite existsb_exists, in_map_iff; split.
  - intros (u & Hu & E); apply String.eqb_eq in E; eauto.
  - intros (u & E & Hu); exists u; split; [exact Hu |].
    apply String.eqb_eq; exact E.
Qed.

Lemma existsb_email users addr :
  existsb (fun u => String.eqb (Accounts.email u) addr) users = true
  <-> In addr (map Accounts.email users).
Proof.
  rewrite existsb_exists, in_map_iff; split.
  - intros (u & Hu & E); apply String.eqb_eq in E; eauto.
  - intros (u & E & Hu); exists u; split; [exact Hu |].
    apply String.eqb_eq; exact E.
Qed.

(** X22. The username check and the registration validator agree: for a
    non-empty name the check answers 200 with [is_available] true exactly
    when no user carries the name, which is exactly when
    [validate_username] accepts it, and false exactly when the validator
    raises 'Username already taken'; once a user is registered under the
    name the check answers false. Without the parameter, or with an empty
    one, the check answers 400. *)
Theorem username_check_agrees_with_registration
        (users : list Accounts.CustomUser) (name : string)
        (u : Accounts.CustomUser) :
  name <> "" ->
  (exists a,
      Accounts.check_username_availability users (Some name)
      = {| Accounts.data := [("username", Authentication.PStr name);
                             ("is_available", Authentication.PBool a)];
           Accounts.status_code := 200 |} /\
      (a = true <-> ~ In name (map Accounts.username users)) /\
      (a = true <-> Accounts.validate_username users name = inr name) /\
      (a = false <-> Accounts.validate_username users name
                     = inl "Username already taken")) /\
  (Accounts.username u = name ->
   Accounts.check_username_availability (users ++ [u]) (Some name)
   = {| Accounts.data := [("username", Authentication.PStr name);
                          ("is_available", Authentication.PBool false)];
        Accounts.status_code := 200 |}) /\
  Accounts.status_code (Accounts.check_username_availability users None)
  = 400 /\
  Accounts.status_code (Accounts.check_username_availability users (Some ""))
  = 400.
Proof.
  intros Hne; apply String.eqb_neq in Hne.
  split; [| split; [| split; reflexivity]].
  - unfold Accounts.check_username_availability, Accounts.validate_username.
    rewrite Hne.
    destruct (existsb _ users) eqn:X; eexists; (split; [reflexivity |]).
    + apply existsb_username in X; cbn [negb].
      repeat split; try discriminate; try reflexivity; intros; try tauto.
    + assert (~ In name (map Accounts.username users)).
      { intros Hin; apply existsb_username in Hin; congruence. }
      cbn [negb]; repeat split; try discriminate; try reflexivity; auto.
  - intros Hu; unfold Accounts.check_username_availability; rewrite Hne.
    replace (existsb _ (users ++ [u])%list) with true; [reflexivity |].
    symmetry; apply existsb_username; rewrite map_app.
    apply in_or_app; right; left; exact Hu.
Qed.

Lemma username_check_agrees_with_registration_witness :
  Accounts.check_username_availability
    ([] ++ [Samples.thandi]) (Some "thandi")
  = {| Accounts.data := [("username", Authentication.PStr "thandi");
                         ("is_available", Authentication.PBool false)];
       Accounts.status_code := 200 |}.
Proof.
  apply (username_check_agrees_with_registration [] "thandi" Samples.thandi);
    [discriminate | reflexivity].
Defined.

(** X23. The email check and [validate_email] agree in the same way. *)
Theorem email_check_agrees_with_registration
        (users : list Accounts.CustomUser) (addr : string)
        (u : Accounts.CustomUser) :
  addr <> "" ->
  (exists a,
      Accounts.check_email_availability users (Some addr)
      = {| Accounts.data := [("email", Authentication.PStr addr);
                             ("is_available", Authentication.PBool a)];
           Accounts.status_code := 200 |} /\
      (a = true <-> ~ In addr (map Accounts.email users)) /\
      (a = true <-> Accounts.validate_email users addr = inr addr) /\
      (a = false <-> Accounts.validate_email users addr
                     = inl "Email already registered")) /\
  (Accounts.email u = addr ->
   Accounts.check_email_availability (users ++ [u]) (Some addr)
   = {| Accounts.data := [("email", Authentication.PStr addr);
                          ("is_available", Authentication.PBool false)];
        Accounts.status_code := 200 |}) /\
  Accounts.status_code (Accounts.check_email_availability users None) = 400 /\
  Accounts.status_code (Accounts.check_email_availability users (Some ""))
  = 400.
Proof.
  intros Hne; apply String.eqb_neq in Hne.
  split; [| split; [| split; reflexivity]].
  - unfold Accounts.check_email_availability, Accounts.validate_email.
    rewrite Hne.
    destruct (existsb _ users) eqn:X; eexists; (split; [reflexivity |]).
    + apply existsb_email in X; cbn [negb].
      repeat split; try discriminate; try reflexivity; intros; try tauto.
    + assert (~ In addr (map Accounts.email users)).
      { intros Hin; apply existsb_email in Hin; congruence. }
      cbn [negb]; repeat split; try discriminate; try reflexivity; auto.
  - intros Hu; unfold Accounts.check_email_availability; rewrite Hne.
    replace (existsb _ (users ++ [u])%list) with true; [reflexivity |].
    symmetry; apply existsb_email; rewrite map_app.
    apply in_or_app; right; left; exact Hu.
Qed.

Lemma email_check_agrees_with_registration_witness :
  Accounts.check_email_availability
    ([] ++ [Samples.thandi]) (Some "thandi@example.org")
  = {| Accounts.data := [("email", Authentication.PStr "thandi@example.org");
                         ("is_available", Authentication.PBool false)];
       Accounts.status_code := 200 |}.
Proof.
  apply (email_check_agrees_with_registration
           [] "thandi@example.org" Samples.thandi);
    [discriminate | reflexivity].
Defined.

(** ** Phone numbers *)





(** ** The client address *)

Lemma split_hd (s : string) :
  exists first others,
    PyStr.split "," s = first :: others /\
    str_forallb not_comma first = true /\
    (s = first \/ exists rest, s = first ++ String "," rest).
Proof.
  induction s as [|c s (first & others & E & Hf & Hs)].
  - exists "", []; repeat split; auto.
  - cbn [PyStr.split]; destruct (Ascii.eqb c ",") eqn:Ec.
    + apply Ascii.eqb_eq in Ec; subst c.
      exists "", (PyStr.split "," s); repeat split.
      right; exists s; reflexivity.
    + rewrite E; exists (String c first), others; repeat split.
      * cbn [str_forallb]; unfold not_comma at 1; rewrite Ec; exact Hf.
      * destruct Hs as [-> | (rest & ->)]; [left; reflexivity |].
        right; exists rest; reflexivity.
Qed.

(** X25. [get_client_ip] takes the address from a non-empty
    [X-Forwarded-For] header and only otherwise from [REMOTE_ADDR]: the
    result is then the part of the header before its first comma, as it
    stands, without a comma in it, and [REMOTE_ADDR] plays no part. With
    the header absent or empty the result is [REMOTE_ADDR], which may be
    missing. *)
Theorem client_ip_is_first_forwarded
        (header : string) (remote_addr : option string) :
  Accounts.get_client_ip None remote_addr = remote_addr /\
  Accounts.get_client_ip (Some "") remote_addr = remote_addr /\
  (header <> "" ->
   exists ip,
     Accounts.get_client_ip (Some header) remote_addr = Some ip /\
     str_forallb not_comma ip = true /\
     (header = ip \/ exists rest, header = ip ++ String "," rest)).
Proof.
  split; [reflexivity |]; split; [reflexivity |].
  intros H; apply String.eqb_neq in H.
  unfold Accounts.get_client_ip, PyStr.truthy; rewrite H; cbn [negb].
  destruct (split_hd header) as (first & others & E & Hf & Hs).
  exists first; rewrite E; repeat split; assumption.
Qed.

Lemma client_ip_is_first_forwarded_witness :
  exists ip,
    Accounts.get_client_ip (Some "10.0.0.7, 41.77.8.1") (Some "127.0.0.1")
    = Some ip /\
    str_forallb not_comma ip = true.
Proof.
  destruct (client_ip_is_first_forwarded
              "10.0.0.7, 41.77.8.1" (Some "127.0.0.1"))
    as (_ & _ & H).
  destruct H as (ip & H1 & H2 & _); [discriminate |].
  exists ip; split; assumption.
Defined.

(** ** The full address *)

Lemma keep_truthy_nonempty parts :
  Forall (fun s => s <> "") (PyStr.keep_truthy parts).
Proof.
  induction parts as [|[s|] parts IH]; cbn [PyStr.keep_truthy PyStr.truthy];
    [constructor | | exact IH].
  destruct (String.eqb s "") eqn:E; cbn [negb]; [exact IH |].
  constructor; [apply String.eqb_neq; exact E | exact IH].
Qed.

Lemma keep_truthy_nil parts :
  PyStr.keep_truthy parts = []
  <-> Forall (fun p => p = None \/ p = Some "") parts.
Proof.
  induction parts as [|[s|] parts IH]; cbn [PyStr.keep_truthy PyStr.truthy].
  - split; auto.
  - destruct (String.eqb s "") eqn:E; cbn [negb].
    + apply String.eqb_eq in E; subst s; rewrite IH; split.
      * intros H; constructor; auto.
      * intros H; inversion H; assumption.
    + split; [discriminate |].
      intros H; inversion H as [|? ? [H1 | H1] _]; [discriminate |].
      injection H1 as ->; discriminate.
  - rewrite IH; split.
    + intros H; constructor; auto.
    + intros H; inversion H; assumption.
Qed.

Lemma join_length sep l :
  String.length (PyStr.join sep l)
  = (total_length l + String.length sep * pred (List.length l))%nat.
Proof.
  induction l as [|s [|s' l] IH]; [cbn; lia | |].
  - cbn; lia.
  - change (PyStr.join sep (s :: s' :: l))
      with (s ++ sep ++ PyStr.join sep (s' :: l)).
    rewrite !string_length_app, IH; cbn [total_length fold_right List.length pred].
    fold (total_length l); lia.
Qed.

(** X26. [get_full_address] joins the parts that are present, in order,
    skipping the missing and the empty ones: it is empty exactly when all
    six parts are missing or empty, and otherwise its length is that of
    the parts present plus two characters for each separator between
    them, so that no separator leads, trails or is doubled. *)
Theorem full_address_joins_present_parts (u : Accounts.CustomUser) :
  let present := PyStr.keep_truthy (address_parts u) in
  Accounts.get_full_address u = PyStr.join ", " present /\
  Forall (fun s => s <> "") present /\
  (Accounts.get_full_address u = ""
   <-> Forall (fun p => p = None \/ p = Some "") (address_parts u)) /\
  String.length (Accounts.get_full_address u)
  = (total_length present + 2 * pred (List.length present))%nat.
Proof.
  intros present.
  assert (E : Accounts.get_full_address u = PyStr.join ", " present)
    by reflexivity.
  pose proof (keep_truthy_nonempty (address_parts u)) as Hne.
  fold present in Hne.
  split; [exact E |]; split; [exact Hne |]; split.
  - rewrite <- keep_truthy_nil; fold present; rewrite E; split.
    + destruct present as [|s [|s' l]]; [reflexivity | |].
      * cbn; intros ->; inversion Hne; congruence.
      * change (PyStr.join ", " (s :: s' :: l))
          with (s ++ ", " ++ PyStr.join ", " (s' :: l)).
        intros H; apply (f_equal String.length) in H.
        rewrite !string_length_app in H; cbn in H; lia.
    + intros ->; reflexivity.
  - rewrite E, join_length; reflexivity.
Qed.

Lemma full_address_joins_present_parts_witness :
  Accounts.get_full_address Samples.thandi
  = "12 Kamuzu Road, Lilongwe, Malawi" /\
  ~ Forall (fun p => p = None \/ p = Some "")
           (address_parts Samples.thandi).
Proof.
  split; [reflexivity |].
  intros H.
  apply (proj2 (proj1 (proj2 (proj2
           (full_address_joins_present_parts Samples.thandi))))) in H.
  discriminate H.
Defined.

(** ** Quoted weekly and monthly rates *)

(** X27. A weekly or monthly rate that is set and not zero is quoted as
    it is. One that is missing, or entered as 0.00, is replaced by the
    default: 6.5 daily rates for the week and 25 for the month, which for
    a positive daily rate lie strictly between six and seven daily rates
    and below thirty. *)
Theorem vehicle_default_rates (v : VehicleRates.Pricing) (w m : Z) :
  let d := VehicleRates.daily_rate v in
  (VehicleRates.weekly_rate v = Some w -> w <> 0 ->
   VehicleRates.calculate_weekly_rate v = Dec.of_cents w) /\
  (VehicleRates.monthly_rate v = Some m -> m <> 0 ->
   VehicleRates.calculate_monthly_rate v = Dec.of_cents m) /\
  (VehicleRates.weekly_rate v = None \/ VehicleRates.weekly_rate v = Some 0 ->
   VehicleRates.calculate_weekly_rate v
   = {| Dec.coefficient := d * 65; Dec.places := 3 |} /\
   (0 < d ->
    Dec.ltb (Dec.of_cents (6 * d)) (VehicleRates.calculate_weekly_rate v)
    = true /\
    Dec.ltb (VehicleRates.calculate_weekly_rate v) (Dec.of_cents (7 * d))
    = true)) /\
  (VehicleRates.monthly_rate v = None \/ VehicleRates.monthly_rate v = Some 0 ->
   VehicleRates.calculate_monthly_rate v
   = {| Dec.coefficient := d * 25; Dec.places := 2 |} /\
   (0 < d ->
    Dec.ltb (VehicleRates.calculate_monthly_rate v) (Dec.of_cents (30 * d))
    = true)).
Proof.
  intros d; split; [| split; [| split]].
  - intros E Hw; unfold VehicleRates.calculate_weekly_rate; rewrite E.
    unfold Dec.truthy; cbn [Dec.of_cents Dec.coefficient].
    apply Z.eqb_neq in Hw; rewrite Hw; reflexivity.
  - intros E Hm; unfold VehicleRates.calculate_monthly_rate; rewrite E.
    unfold Dec.truthy; cbn [Dec.of_cents Dec.coefficient].
    apply Z.eqb_neq in Hm; rewrite Hm; reflexivity.
  - intros E.
    assert (R : VehicleRates.calculate_weekly_rate v
                = {| Dec.coefficient := d * 65; Dec.places := 3 |}).
    { unfold VehicleRates.calculate_weekly_rate.
      destruct E as [-> | ->]; reflexivity. }
    split; [exact R |]; rewrite R; intros Hd.
    unfold Dec.ltb; cbn [Dec.of_cents Dec.coefficient Dec.places].
    split; apply Z.ltb_lt.
    + change (10 ^ Z.of_nat 3) with 1000; change (10 ^ Z.of_nat 2) with 100.
      lia.
    + change (10 ^ Z.of_nat 3) with 1000; change (10 ^ Z.of_nat 2) with 100.
      lia.
  - intros E.
    assert (R : VehicleRates.calculate_monthly_rate v
                = {| Dec.coefficient := d * 25; Dec.places := 2 |}).
    { unfold VehicleRates.calculate_monthly_rate.
      destruct E as [-> | ->]; reflexivity. }
    split; [exact R |]; rewrite R; intros Hd.
    unfold Dec.ltb; cbn [Dec.of_cents Dec.coefficient Dec.places].
    apply Z.ltb_lt; change (10 ^ Z.of_nat 2) with 100; lia.
Qed.

Lemma vehicle_default_rates_witness :
  VehicleRates.calculate_weekly_rate Samples.zero_weekly
  = {| Dec.coefficient := 650065; Dec.places := 3 |}.
Proof.
  apply (vehicle_default_rates Samples.zero_weekly 0 0).
  right; reflexivity.
Defined.

(** ** Vehicle status actions *)

(** X28. [mark_available] applies to every selected vehicle whatever its
    status: afterwards a vehicle is bookable exactly when it is active,
    so a rented, sold or retired vehicle that is active becomes bookable
    and an inactive one still is not. After [mark_maintenance] no
    selected vehicle is bookable. Neither action changes any other
    field. *)
Theorem vehicle_mark_available_makes_bookable
        (qs : list Vehicles.Vehicle) (i : nat) (v : Vehicles.Vehicle) :
  nth_error qs i = Some v ->
  snd (VehicleAdmin.mark_available qs) = List.length qs /\
  nth_error (fst (VehicleAdmin.mark_available qs)) i
  = Some (VehicleAdmin.set_status "available" v) /\
  Vehicles.is_available_for_booking (VehicleAdmin.set_status "available" v)
  = Vehicles.is_active v /\
  nth_error (fst (VehicleAdmin.mark_maintenance qs)) i
  = Some (VehicleAdmin.set_status "maintenance" v) /\
  Vehicles.is_available_for_booking (VehicleAdmin.set_status "maintenance" v)
  = false.
Proof.
  intros Hi; unfold VehicleAdmin.mark_available, VehicleAdmin.mark_maintenance.
  rewrite !filter_update_all by reflexivity; cbn [fst snd].
  rewrite !nth_error_map, Hi; repeat split.
Qed.

Lemma vehicle_mark_available_makes_bookable_witness :
  Vehicles.is_available_for_booking Samples.rented_vehicle = false /\
  nth_error (fst (VehicleAdmin.mark_available [Samples.rented_vehicle])) 0
  = Some (VehicleAdmin.set_status "available" Samples.rented_vehicle) /\
  Vehicles.is_available_for_booking
    (VehicleAdmin.set_status "available" Samples.rented_vehicle) = true.
Proof.
  split; [reflexivity |].
  destruct (vehicle_mark_available_makes_bookable
              [Samples.rented_vehicle] 0 Samples.rented_vehicle eq_refl)
    as (_ & H1 & H2 & _).
  split; [exact H1 | exact H2].
Defined.

(** ** Safety equipment *)

(** X29. After [mark_inspected] an item needs attention only for its
    expiry date or for the next inspection: on any later day it shows
    'Expired' when its expiry date has come, else 'Inspection Due' from
    the ninetieth day after the inspection on, else 'OK'. The status it
    had, missing or damaged for instance, no longer counts: the action
    has set it to [present]. *)
Theorem equipment_after_inspection
        (today day : Z) (qs : list SafetyEquipment.Equipment) (i : nat)
        (e : SafetyEquipment.Equipment) :
  nth_error qs i = Some e ->
  exists e',
    nth_error (fst (SafetyEquipment.mark_inspected today qs)) i = Some e' /\
    SafetyEquipment.status e' = "present" /\
    SafetyEquipment.expiry_date e' = SafetyEquipment.expiry_date e /\
    SafetyEquipment.needs_attention day e'
    = (if match SafetyEquipment.expiry_date e with
          | Some x => x <=? day
          | None => false
          end
       then SafetyEquipment.Expired
       else if today + 90 <=? day
            then SafetyEquipment.InspectionDue
            else SafetyEquipment.OK) /\
    (today <= day < today + 90 ->
     SafetyEquipment.expiry_date e = None ->
     SafetyEquipment.needs_attention day e' = SafetyEquipment.OK).
Proof.
  intros Hi; unfold SafetyEquipment.mark_inspected; cbv zeta.
  rewrite filter_update_all by reflexivity; cbn [fst].
  rewrite nth_error_map, Hi; cbn [option_map].
  eexists; split; [reflexivity |].
  split; [reflexivity |]; split; [reflexivity |].
  unfold SafetyEquipment.needs_attention; cbn.
  split; [reflexivity |].
  intros Hd ->.
  assert (E : (today + 90 <=? day) = false) by (apply Z.leb_gt; lia).
  rewrite E; reflexivity.
Qed.

Lemma equipment_after_inspection_witness :
  SafetyEquipment.needs_attention Samples.today_sample Samples.extinguisher
  = SafetyEquipment.Yes /\
  exists e',
    nth_error (fst (SafetyEquipment.mark_inspected
                      Samples.today_sample [Samples.extinguisher])) 0
    = Some e' /\
    SafetyEquipment.needs_attention (Samples.today_sample + 89) e'
    = SafetyEquipment.OK.
Proof.
  split; [reflexivity |].
  destruct (equipment_after_inspection
              Samples.today_sample (Samples.today_sample + 89)
              [Samples.extinguisher] 0 Samples.extinguisher eq_refl)
    as (e' & H1 & _ & _ & H2 & _).
  exists e'; split; [exact H1 |].
  rewrite H2; reflexivity.
Defined.

(** ** Escalating issues *)

Lemma escalate_priority_map qs :
  fst (IssueReport.escalate_priority qs) = map escalated qs.
Proof.
  induction qs as [|i qs IH]; [reflexivity |].
  cbn [IssueReport.escalate_priority map].
  destruct (IssueReport.escalate_priority qs) as [rest updated].
  cbn [fst] in IH; unfold escalated at 1.
  destruct (IssueReport.lookup _ _); cbn [fst]; rewrite IH; reflexivity.
Qed.

Lemma escalate_priority_count qs :
  snd (IssueReport.escalate_priority qs)
  = List.length
      (filter (fun i => str_in (IssueReport.priority i)
                               ["low"; "medium"; "high"]) qs).
Proof.
  induction qs as [|i qs IH]; [reflexivity |].
  cbn [IssueReport.escalate_priority filter].
  destruct (IssueReport.escalate_priority qs) as [rest updated].
  cbn [snd] in IH; unfold IssueReport.priority_map, str_in.
  cbn [IssueReport.lookup existsb].
  rewrite (String.eqb_sym (IssueReport.priority i) "low"),
    (String.eqb_sym (IssueReport.priority i) "medium"),
    (String.eqb_sym (IssueReport.priority i) "high").
  destruct (String.eqb "low" (IssueReport.priority i));
    [cbn; f_equal; exact IH |].
  destruct (String.eqb "medium" (IssueReport.priority i));
    [cbn; f_equal; exact IH |].
  destruct (String.eqb "high" (IssueReport.priority i));
    cbn; [f_equal |]; exact IH.
Qed.

Lemma iter_escalated_shift n i :
  Nat.iter n escalated (escalated i) = escalated (Nat.iter n escalated i).
Proof.
  induction n as [|n IH]; [reflexivity |].
  change (Nat.iter (S n) escalated (escalated i))
    with (escalated (Nat.iter n escalated (escalated i))).
  rewrite IH; reflexivity.
Qed.

Lemma escalate_times_map n : forall qs,
  escalate_times n qs = map (Nat.iter n escalated) qs.
Proof.
  induction n as [|n IH]; intros qs; cbn [escalate_times].
  - cbn; symmetry; apply map_id.
  - rewrite IH, escalate_priority_map, map_map.
    apply map_ext; intros i; apply iter_escalated_shift.
Qed.

Lemma escalated_cases i :
  (IssueReport.priority i = "low"
   /\ escalated i = IssueReport.set_priority "medium" i)
  \/ (IssueReport.priority i = "medium"
      /\ escalated i = IssueReport.set_priority "high" i)
  \/ (IssueReport.priority i = "high"
      /\ escalated i = IssueReport.set_priority "critical" i)
  \/ (~ In (IssueReport.priority i) ["low"; "medium"; "high"]
      /\ escalated i = i).
Proof.
  unfold escalated, IssueReport.priority_map; cbn [IssueReport.lookup].
  destruct (String.eqb "low" (IssueReport.priority i)) eqn:E1;
    [apply String.eqb_eq in E1; auto |].
  destruct (String.eqb "medium" (IssueReport.priority i)) eqn:E2;
    [apply String.eqb_eq in E2; auto |].
  destruct (String.eqb "high" (IssueReport.priority i)) eqn:E3;
    [apply String.eqb_eq in E3; auto 6 |].
  right; right; right; split; [| reflexivity].
  apply String.eqb_neq in E1, E2, E3; simpl; intuition congruence.
Qed.

Lemma escalate_priority_fixed rows :
  (forall x, In x rows -> IssueReport.priority x = "critical") ->
  IssueReport.escalate_priority rows = (rows, 0%nat).
Proof.
  induction rows as [|x rows IH]; intros H; [reflexivity |].
  cbn [IssueReport.escalate_priority].
  rewrite IH by (intros y Hy; apply H; right; exact Hy).
  rewrite (H x (or_introl eq_refl)); reflexivity.
Qed.

(** X30. Escalation climbs low, medium, high and ends on [critical], a
    value that is not among the choices of the priority field, while
    [urgent], the highest choice, is never written and never escalated:
    a run counts the rows that were low, medium or high; after three
    runs every issue that started low, medium or high is [critical], a
    further run changes nothing and counts no row, and an issue is
    [urgent] after any number of runs only if it was so before and was
    left untouched. *)
Theorem issue_escalation_ends_on_critical
        (n : nat) (qs : list IssueReport.Issue) (i : nat)
        (issue : IssueReport.Issue) :
  nth_error qs i = Some issue ->
  ~ In "critical" IssueReport.PRIORITY_LEVELS /\
  snd (IssueReport.escalate_priority qs)
  = List.length
      (filter (fun x => str_in (IssueReport.priority x)
                               ["low"; "medium"; "high"]) qs) /\
  (In (IssueReport.priority issue) ["low"; "medium"; "high"] ->
   nth_error (escalate_times (3 + n) qs) i
   = Some (IssueReport.set_priority "critical" issue)) /\
  (Forall (fun x => In (IssueReport.priority x) ["low"; "medium"; "high"])
          qs ->
   IssueReport.escalate_priority (escalate_times 3 qs)
   = (escalate_times 3 qs, 0%nat)) /\
  (forall issue',
      nth_error (escalate_times n qs) i = Some issue' ->
      IssueReport.priority issue' = "urgent" -> issue' = issue).
Proof.
  intros Hi.
  assert (Hcrit : forall x, escalated (IssueReport.set_priority "critical" x)
                            = IssueReport.set_priority "critical" x)
    by reflexivity.
  assert (Hiter : forall k x,
             Nat.iter k escalated (IssueReport.set_priority "critical" x)
             = IssueReport.set_priority "critical" x).
  { induction k as [|k IH]; intros x; [reflexivity |].
    rewrite Nat.iter_succ, IH; apply Hcrit. }
  assert (H3 : forall x,
             In (IssueReport.priority x) ["low"; "medium"; "high"] ->
             Nat.iter 3 escalated x = IssueReport.set_priority "critical" x).
  { intros x Hx; simpl in Hx.
    destruct x as [t p s v]; cbn [IssueReport.priority] in Hx.
    destruct Hx as [<- | [<- | [<- | []]]]; reflexivity. }
  split; [| split; [apply escalate_priority_count | split; [| split]]].
  - unfold IssueReport.PRIORITY_LEVELS; simpl; intuition discriminate.
  - intros Hp; rewrite escalate_times_map, nth_error_map, Hi.
    cbn [option_map]; f_equal.
    rewrite Nat.add_comm, Nat.iter_add, (H3 issue Hp); apply Hiter.
  - intros Hall; apply escalate_priority_fixed.
    intros x' Hx'; rewrite escalate_times_map in Hx'.
    apply in_map_iff in Hx'; destruct Hx' as (x & <- & Hx).
    rewrite Forall_forall in Hall; rewrite (H3 x (Hall x Hx)); reflexivity.
  - intros issue' Hn Hu.
    rewrite escalate_times_map, nth_error_map, Hi in Hn.
    cbn [option_map] in Hn; injection Hn as <-.
    clear Hi; induction n as [|k IH]; [reflexivity |].
    rewrite Nat.iter_succ in Hu |- *.
    destruct (escalated_cases (Nat.iter k escalated issue))
      as [[_ E] | [[_ E] | [[_ E] | [_ E]]]];
      rewrite E in Hu |- *; try discriminate Hu.
    apply IH; exact Hu.
Qed.

Lemma issue_escalation_ends_on_critical_witness :
  nth_error (escalate_times 3 [Samples.low_issue]) 0
  = Some (IssueReport.set_priority "critical" Samples.low_issue).
Proof.
  apply (issue_escalation_ends_on_critical
           0 [Samples.low_issue] 0 Samples.low_issue eq_refl).
  left; reflexivity.
Defined.
